(** * TestYourStrategy: the price-ingestion scripts

    A shallow embedding of the ingestion scripts under [scripts/]
    (fetch_daily_data.py, fetch_daily_simple.py, fetch_daily_wal.py,
    fetch_all_crypto_data.py, fetch_crypto_data.py, import_stocks_fast.py,
    add_missing_stocks.py) and the properties of the ingestion procedure:
    duplicate filtering, partial failure of a batch, the symbol resolver,
    the per-symbol driver loop and the connection retry loop.

    The SQLite store and the market-data provider are outside the scripts.
    They are modelled by the tables a connection sees and by a [World]
    that decides what the scripts cannot: whether a statement raises,
    which random identifier is drawn, what the clock reads and what the
    provider answers. *)

From Stdlib Require Import QArith.
From stdpp Require Import base tactics option list strings gmap pretty sorting.

Local Open Scope Z_scope.
Local Open Scope string_scope.
Local Open Scope list_scope.
Local Open Scope nat_scope.

(** ** Data model *)

(** A Python float as the scripts use it: a number or NaN, the missing
    value of a pandas frame. [pd.isna] is true on [NaN] only. *)
Inductive cell : Type :=
  | NaN
  | Num (q : Q).

Definition isna (c : cell) : bool :=
  match c with NaN => true | Num _ => false end.

(** [float(row['Open'])] keeps a NaN as it is. *)
Definition float (c : cell) : cell := c.

(** [int(x)] on a number truncates toward zero. *)
Definition int (q : Q) : Z := Z.quot (Qnum q) (Z.pos (Qden q)).

(** One row of [hist.iterrows()]. [Date] is the text that
    [strftime('%Y-%m-%d %H:%M:%S')] gives for the row's index. *)
Record RawRow : Type := mkRawRow {
  Date : string;
  Open : cell;
  High : cell;
  Low : cell;
  Close : cell;
  Volume : cell
}.

(** The dict built by [fetch_daily_data_for_symbol] for a kept row. *)
Record DataPoint : Type := mkDataPoint {
  dp_date : string;
  dp_open : cell;
  dp_high : cell;
  dp_low : cell;
  dp_close : cell;
  dp_volume : Z
}.

Record Asset : Type := mkAsset {
  a_id : string;
  a_symbol : string;
  a_name : string;
  a_type : string;
  a_exchange : string;
  a_createdAt : Z;
  a_updatedAt : Z
}.

Record PriceData : Type := mkPriceData {
  p_id : string;
  p_assetId : string;
  p_date : string;
  p_open : cell;
  p_high : cell;
  p_low : cell;
  p_close : cell;
  p_volume : Z;
  p_createdAt : Z
}.

(** The [crypto_info] dict of the crypto scripts. *)
Record CryptoInfo : Type := mkCryptoInfo {
  ci_symbol : string;
  ci_name : string;
  ci_full_name : string
}.

Record Cryptocurrency : Type := mkCryptocurrency {
  c_id : string;
  c_symbol : string;
  c_name : string;
  c_fullName : string
}.

Record CryptocurrencyPrice : Type := mkCryptocurrencyPrice {
  cp_id : string;
  cp_cryptocurrencyId : string;
  cp_date : string;
  cp_open : cell;
  cp_high : cell;
  cp_low : cell;
  cp_close : cell;
  cp_volume : cell;
  cp_marketCap : option Q;
  cp_createdAt : Z
}.

(** The tables of prisma/dev.db that the scripts touch, in row order. *)
Record Tables : Type := mkTables {
  t_Asset : list Asset;
  t_PriceData : list PriceData;
  t_Cryptocurrency : list Cryptocurrency;
  t_CryptocurrencyPrice : list CryptocurrencyPrice
}.

Definition set_Asset (f : list Asset → list Asset) (t : Tables) : Tables :=
  mkTables (f (t_Asset t)) (t_PriceData t) (t_Cryptocurrency t)
           (t_CryptocurrencyPrice t).

Definition set_PriceData (f : list PriceData → list PriceData)
    (t : Tables) : Tables :=
  mkTables (t_Asset t) (f (t_PriceData t)) (t_Cryptocurrency t)
           (t_CryptocurrencyPrice t).

Definition set_CryptocurrencyPrice
    (f : list CryptocurrencyPrice → list CryptocurrencyPrice)
    (t : Tables) : Tables :=
  mkTables (t_Asset t) (t_PriceData t) (t_Cryptocurrency t)
           (f (t_CryptocurrencyPrice t)).

(** ** Exceptions, console output and the world *)

Inductive exn : Type :=
  | OperationalError (msg : string)   (* sqlite3.OperationalError *)
  | Error (msg : string).             (* any other Exception *)

#[global] Instance exn_eq_dec : EqDecision exn.
Proof. solve_decision. Defined.

Definition str (e : exn) : string :=
  match e with OperationalError m => m | Error m => m end.

(** The lines the scripts print, one constructor per [print] that a
    property reads. *)
Inductive Msg : Type :=
  | WarnNoDataAvailable (symbol : string)
  | ErrFetching (symbol : string) (e : exn)
  | WarnAssetNotFound (symbol : string)
  | InfoNoNewPoints (symbol : string)
  | ErrInserting (symbol : string) (e : exn)
  | ErrInsertingDate (date_str : string) (e : exn)
  | ErrInsertingData (e : exn)
  | ErrInsertingPrice (symbol date : string) (e : exn)
  | NoDataFor (symbol : string)
  | StoredDays (n : nat) (name : string)
  | AlreadyExists (symbol : string)
  | AddedStock (symbol name : string)
  | Processing (i n : nat) (symbol : string)
  | SuccessAdded (n : nat)
  | InfoNoNewData
  | WarnNoDataReceived
  | CommittedBatch (i : nat)
  | ErrFailedToProcess (symbol : string) (e : exn)
  | ErrProcessing (symbol : string) (e : exn)
  | ErrUpdating (symbol : string) (e : exn)
  | DatabaseLocked (attempt max_retries : nat)
  | ConnectedOk
  | FoundSymbols (n : nat)
  | NoStocksFound
  | Break (i : nat)
  | ErrTop (e : exn)
  | ErrFatal (e : exn)
  | Summary (total successful failed inserted : nat).

#[global] Instance Msg_eq_dec : EqDecision Msg.
Proof. solve_decision. Defined.

(** What [ticker.history] does for a symbol. *)
Inductive HistOutcome : Type :=
  | HistRaises (e : exn)
  | Hist (rows : list RawRow).

(** Everything the scripts cannot decide. The calls into sqlite3
    ([sqlite3.connect], [execute]) are numbered in the order the run makes
    them. *)
Record World : Type := mkWorld {
  exec_fault : nat → option exn;      (* does the k-th call raise *)
  random_part : nat → string;         (* random.choices drawn before it *)
  uuid4 : nat → string;               (* uuid.uuid4 drawn before it *)
  now_ms : nat → Z;                   (* datetime.now() in milliseconds *)
  history : string → HistOutcome      (* the provider *)
}.

(** The counters a driver keeps in local variables. *)
Record Counters : Type := mkCounters {
  total_inserted : nat;
  successful_updates : nat;
  failed_updates : nat
}.

(** The state a run threads: the tables as the connection sees them, the
    tables as last committed, the number of statements executed, the
    seconds slept, the console and the driver's counters. *)
Record St : Type := mkSt {
  tables : Tables;
  saved : Tables;
  tick : nat;
  slept : Q;
  out : list Msg;
  counters : Counters
}.

Definition with_tables (f : Tables → Tables) (s : St) : St :=
  mkSt (f (tables s)) (saved s) (tick s) (slept s) (out s) (counters s).

Definition step_tick (s : St) : St :=
  mkSt (tables s) (saved s) (S (tick s)) (slept s) (out s) (counters s).

Definition with_counters (f : Counters → Counters) (s : St) : St :=
  mkSt (tables s) (saved s) (tick s) (slept s) (out s) (f (counters s)).

(** ** Computations that change the state and may raise *)

Inductive Res (A : Type) : Type :=
  | Ok (a : A)
  | Raise (e : exn).
Arguments Ok {A} a.
Arguments Raise {A} e.

Definition M (A : Type) : Type := St → Res A * St.

#[global] Instance M_ret : MRet M := λ A a s, (Ok a, s).

#[global] Instance M_bind : MBind M := λ A B f m s,
  match m s with
  | (Ok a, s') => f a s'
  | (Raise e, s') => (Raise e, s')
  end.

(** [try: body except Exception as e: handler e] *)
Definition try_except {A} (body : M A) (handler : exn → M A) : M A := λ s,
  match body s with
  | (Ok a, s') => (Ok a, s')
  | (Raise e, s') => handler e s'
  end.

Definition raise {A} (e : exn) : M A := λ s, (Raise e, s).

Definition print (m : Msg) : M unit := λ s,
  (Ok tt, mkSt (tables s) (saved s) (tick s) (slept s) (out s ++ [m])
               (counters s)).

(** [time.sleep(seconds)] *)
Definition sleep (seconds : Q) : M unit := λ s,
  (Ok tt, mkSt (tables s) (saved s) (tick s) (Qplus (slept s) seconds)
               (out s) (counters s)).

(** [conn.commit()] *)
Definition commit : M unit := λ s,
  (Ok tt, mkSt (tables s) (tables s) (tick s) (slept s) (out s) (counters s)).

(** [conn.rollback()]; [conn.close()] drops what was not committed too. *)
Definition rollback : M unit := λ s,
  (Ok tt, mkSt (saved s) (saved s) (tick s) (slept s) (out s) (counters s)).

Definition close : M unit := rollback.

(** [total_inserted += n], [successful_updates += 1], [failed_updates += 1] *)
Definition add_inserted (n : nat) : M unit := λ s,
  (Ok tt, with_counters (λ c, mkCounters (total_inserted c + n)
                                (successful_updates c) (failed_updates c)) s).

Definition add_successful : M unit := λ s,
  (Ok tt, with_counters (λ c, mkCounters (total_inserted c)
                                (S (successful_updates c)) (failed_updates c)) s).

Definition add_failed : M unit := λ s,
  (Ok tt, with_counters (λ c, mkCounters (total_inserted c)
                                (successful_updates c) (S (failed_updates c))) s).

(** ** Calls into sqlite3, the clock and the random source *)

Section Calls.

Variable w : World.

(** [cursor.execute] of a statement that reads: the statement either
    raises what the world says or answers from the tables. *)
Definition execute_query {A} (q : Tables → A) : M A := λ s,
  match exec_fault w (tick s) with
  | Some e => (Raise e, step_tick s)
  | None => (Ok (q (tables s)), step_tick s)
  end.

(** [cursor.execute] of a statement that writes. *)
Definition execute_update (u : Tables → Tables) : M unit := λ s,
  match exec_fault w (tick s) with
  | Some e => (Raise e, step_tick s)
  | None => (Ok tt, step_tick (with_tables u s))
  end.

(** [sqlite3.connect]: a new connection sees what was committed. *)
Definition sqlite3_connect : M unit := λ s,
  match exec_fault w (tick s) with
  | Some e => (Raise e, step_tick s)
  | None => (Ok tt, step_tick (with_tables (λ _, saved s) s))
  end.

(** [int(datetime.now().timestamp() * 1000)] *)
Definition timestamp_ms : M Z := λ s, (Ok (now_ms w (tick s)), s).

(** [SELECT id FROM Asset WHERE symbol = ?] then [fetchone()] *)
Definition select_asset (symbol : string) (t : Tables) : option Asset :=
  head (filter (λ a, a_symbol a = symbol) (t_Asset t)).

Definition select_asset_id (symbol : string) (t : Tables) : option string :=
  a_id <$> select_asset symbol t.

(** [get_asset_id], the same in fetch_daily_data.py, fetch_daily_simple.py
    and fetch_daily_wal.py. *)
Definition get_asset_id (symbol : string) : M (option string) :=
  execute_query (select_asset_id symbol).

(** [generate_price_data_id]: [f"cmfpd{random_part}{timestamp}"], the
    same in the three scripts. *)
Definition generate_price_data_id : M string := λ s,
  (Ok ("cmfpd" +:+ random_part w (tick s) +:+ pretty (now_ms w (tick s))), s).

(** [generate_asset_id]: [f"cmfuz{random_part}{timestamp}"] *)
Definition generate_asset_id : M string := λ s,
  (Ok ("cmfuz" +:+ random_part w (tick s) +:+ pretty (now_ms w (tick s))), s).

(** [generate_cuid]: [str(uuid.uuid4()).replace('-', '')] *)
Definition generate_cuid : M string := λ s, (Ok (uuid4 w (tick s)), s).

(** [SELECT date FROM PriceData WHERE assetId = ?] then [fetchall()] *)
Definition select_dates (asset_id : string) (t : Tables) : list string :=
  p_date <$> filter (λ p, p_assetId p = asset_id) (t_PriceData t).

(** [not asset_id]: [None] and the empty string are both falsy. *)
Definition falsy (asset_id : option string) : bool :=
  match asset_id with
  | None => true
  | Some i => bool_decide (i = "")
  end.

Definition price_row (id asset_id : string) (dp : DataPoint) (timestamp : Z)
    : PriceData :=
  mkPriceData id asset_id (dp_date dp) (dp_open dp) (dp_high dp) (dp_low dp)
              (dp_close dp) (dp_volume dp) timestamp.

(** [INSERT INTO PriceData (...) VALUES (...)] *)
Definition insert_PriceData (row : PriceData) : M unit :=
  execute_update (set_PriceData (λ l, l ++ [row])).

(** [INSERT INTO Asset (...) VALUES (?, ?, ?, 'STOCK', 'NASDAQ', ?, ?)] *)
Definition insert_Asset (id symbol name : string) (timestamp : Z) : M unit :=
  execute_update
    (set_Asset (λ l, l ++ [mkAsset id symbol name "STOCK" "NASDAQ"
                                   timestamp timestamp])).

(** [int(row['Volume']) if not pd.isna(row['Volume']) else 0] *)
Definition volume_or_zero (c : cell) : Z :=
  match c with
  | NaN => 0%Z
  | Num q => int q
  end.

(** [pd.isna(row['Open']) or pd.isna(row['Close']) or
     pd.isna(row['High']) or pd.isna(row['Low'])] *)
Definition critical_nan (row : RawRow) : bool :=
  isna (Open row) || isna (Close row) || isna (High row) || isna (Low row).

Definition data_point_of (row : RawRow) : DataPoint :=
  mkDataPoint (Date row) (float (Open row)) (float (High row))
              (float (Low row)) (float (Close row))
              (volume_or_zero (Volume row)).

Definition reset_counters : M unit := λ s,
  (Ok tt, with_counters (λ _, mkCounters 0 0 0) s).

Definition print_summary (n : nat) : M unit := λ s,
  print (Summary n (successful_updates (counters s))
                 (failed_updates (counters s))
                 (total_inserted (counters s))) s.

End Calls.

(** ** fetch_daily_data.py *)

Module FetchDailyData.
Section Script.

Variable w : World.

(** [get_all_stock_symbols]:
    [SELECT DISTINCT symbol FROM Asset WHERE type = 'STOCK'] *)
Definition select_stock_symbols (t : Tables) : list string :=
  remove_dups (a_symbol <$> filter (λ a, a_type a = "STOCK") (t_Asset t)).

Definition get_all_stock_symbols : M (list string) :=
  execute_query w select_stock_symbols.

(** The [for date, row in hist.iterrows()] loop of the fetcher. *)
Fixpoint collect_data_points (rows : list RawRow)
    (data_points : list DataPoint) : list DataPoint :=
  match rows with
  | [] => data_points
  | row :: rest =>
      if critical_nan row then collect_data_points rest data_points
      else collect_data_points rest (data_points ++ [data_point_of row])
  end.

Definition fetch_daily_data_for_symbol (symbol : string)
    : M (list DataPoint) :=
  try_except
    (match history w symbol with
     | HistRaises e => raise e
     | Hist [] => print (WarnNoDataAvailable symbol);; mret []
     | Hist rows => mret (collect_data_points rows [])
     end)
    (λ e, print (ErrFetching symbol e);; mret []).

(** The [for data_point in new_data_points] loop, with its counter. *)
Fixpoint insert_data_points (symbol asset_id : string) (timestamp : Z)
    (new_data_points : list DataPoint) (inserted_count : nat) : M nat :=
  match new_data_points with
  | [] => mret inserted_count
  | data_point :: rest =>
      inserted_count' ←
        try_except
          (id ← generate_price_data_id w;
           insert_PriceData w (price_row id asset_id data_point timestamp);;
           mret (S inserted_count))
          (λ e, print (ErrInserting symbol e);; mret inserted_count);
      insert_data_points symbol asset_id timestamp rest inserted_count'
  end.

Definition update_daily_data (symbol : string) (data_points : list DataPoint)
    : M nat :=
  match data_points with
  | [] => mret 0
  | _ =>
    asset_id ← get_asset_id w symbol;
    if falsy asset_id then
      print (WarnAssetNotFound symbol);; mret 0
    else
      let asset_id := default "" asset_id in
      rows ← execute_query w (select_dates asset_id);
      let existing_dates : gset string := list_to_set rows in
      let new_data_points :=
        filter (λ dp, dp_date dp ∉ existing_dates) data_points in
      match new_data_points with
      | [] => print (InfoNoNewPoints symbol);; mret 0
      | _ =>
        timestamp ← timestamp_ms w;
        insert_data_points symbol asset_id timestamp new_data_points 0
      end
  end.

(** The [try] block inside [for i, symbol in enumerate(symbols, 1)]. *)
Definition symbol_body (i : nat) (symbol : string) : M unit :=
  data_points ← fetch_daily_data_for_symbol symbol;
  match data_points with
  | [] => print WarnNoDataReceived;; add_failed
  | _ =>
    inserted ← update_daily_data symbol data_points;
    add_inserted inserted;;
    if bool_decide (0 < inserted) then
      print (SuccessAdded inserted);; add_successful
    else
      print InfoNoNewData;; add_successful
  end;;
  if bool_decide (i mod 10 = 0) then
    commit;; print (CommittedBatch i)
  else mret tt.

(** The loop body of [main]: the block and its [except Exception]. *)
Definition process_symbol (n i : nat) (symbol : string) : M unit :=
  print (Processing i n symbol);;
  try_except
    (symbol_body i symbol)
    (λ e, print (ErrFailedToProcess symbol e);; add_failed).

Fixpoint process_symbols (n i : nat) (symbols : list string) : M unit :=
  match symbols with
  | [] => mret tt
  | symbol :: rest =>
      process_symbol n i symbol;; process_symbols n (S i) rest
  end.

(** [main]. The [finally: conn.close()] runs on every path that opened
    the connection; the outer handler rolls back and raises again. *)
Definition main : M unit := λ s,
  match sqlite3_connect w s with
  | (Raise e, s) => print (ErrTop e) s
  | (Ok _, s) =>
    let '(r, s') :=
      try_except
        (symbols ← get_all_stock_symbols;
         print (FoundSymbols (length symbols));;
         match symbols with
         | [] => print NoStocksFound
         | _ =>
           reset_counters;;
           process_symbols (length symbols) 1 symbols;;
           commit;;
           print_summary (length symbols)
         end)
        (λ e, print (ErrFatal e);; rollback;; raise e) s in
    match close s' with
    | (_, s'') => (r, s'')
    end
  end.

End Script.
End FetchDailyData.

(** ** fetch_daily_data.py: the loop of [main] with commits that may raise

    The world numbers the statements a run executes. Whether a
    [conn.commit()] raises is given beside it: [commit_fault i] for the
    commit inside the [try] block of turn [i], [final_commit] for the one
    after the loop. A commit that raises leaves the transaction open. *)

Definition conn_commit (fault : option exn) : M unit := λ s,
  match fault with
  | Some e => (Raise e, s)
  | None => commit s
  end.

Module FetchDailyDataCommits.
Section Script.

Variable w : World.
Variable commit_fault : nat → option exn.
Variable final_commit : option exn.

(** The [try] block inside [for i, symbol in enumerate(symbols, 1)]. *)
Definition symbol_body (i : nat) (symbol : string) : M unit :=
  data_points ← FetchDailyData.fetch_daily_data_for_symbol w symbol;
  match data_points with
  | [] => print WarnNoDataReceived;; add_failed
  | _ =>
    inserted ← FetchDailyData.update_daily_data w symbol data_points;
    add_inserted inserted;;
    if bool_decide (0 < inserted) then
      print (SuccessAdded inserted);; add_successful
    else
      print InfoNoNewData;; add_successful
  end;;
  if bool_decide (i mod 10 = 0) then
    conn_commit (commit_fault i);; print (CommittedBatch i)
  else mret tt.

(** The loop body of [main]: the block and its [except Exception]. *)
Definition process_symbol (n i : nat) (symbol : string) : M unit :=
  print (Processing i n symbol);;
  try_except
    (symbol_body i symbol)
    (λ e, print (ErrFailedToProcess symbol e);; add_failed).

Fixpoint process_symbols (n i : nat) (symbols : list string) : M unit :=
  match symbols with
  | [] => mret tt
  | symbol :: rest =>
      process_symbol n i symbol;; process_symbols n (S i) rest
  end.

Definition main : M unit := λ s,
  match sqlite3_connect w s with
  | (Raise e, s) => print (ErrTop e) s
  | (Ok _, s) =>
    let '(r, s') :=
      try_except
        (symbols ← FetchDailyData.get_all_stock_symbols w;
         print (FoundSymbols (length symbols));;
         match symbols with
         | [] => print NoStocksFound
         | _ =>
           reset_counters;;
           process_symbols (length symbols) 1 symbols;;
           conn_commit final_commit;;
           print_summary (length symbols)
         end)
        (λ e, print (ErrFatal e);; rollback;; raise e) s in
    match close s' with
    | (_, s'') => (r, s'')
    end
  end.

End Script.
End FetchDailyDataCommits.

(** ** fetch_daily_simple.py *)

(** The order of [ORDER BY symbol]: text compared byte by byte. *)
Definition symbol_le (a b : string) : Prop := String.leb a b = true.

#[global] Instance symbol_le_dec a b : Decision (symbol_le a b).
Proof. unfold symbol_le. apply _. Defined.

Module FetchDailySimple.
Section Script.

Variable w : World.

(** ["database is locked" in str(e)] *)
Definition is_locked (e : exn) : bool :=
  match String.index 0 "database is locked" (str e) with
  | Some _ => true
  | None => false
  end.

(** The [for i in range(max_retries)] loop of [wait_for_database], from
    attempt [i] with [remaining] attempts left; only
    [sqlite3.OperationalError] is handled. *)
Fixpoint wait_for_database_from (max_retries i remaining : nat) : M unit :=
  match remaining with
  | 0 => raise (Error "Database remained locked after all retries")
  | S remaining' => λ s,
      match (sqlite3_connect w;; execute_query w (λ _, tt)) s with
      | (Ok conn, s') => (Ok conn, s')
      | (Raise (OperationalError msg), s') =>
          if is_locked (OperationalError msg) then
            (print (DatabaseLocked (i + 1) max_retries);;
             sleep 2;;
             wait_for_database_from max_retries (S i) remaining') s'
          else (Raise (OperationalError msg), s')
      | (Raise e, s') => (Raise e, s')
      end
  end.

Definition wait_for_database (max_retries : nat) : M unit :=
  wait_for_database_from max_retries 0 max_retries.

(** The [for date, row in hist.iterrows()] loop of
    [fetch_and_update_stock]. *)
Fixpoint insert_rows (asset_id : string) (timestamp : Z)
    (existing_dates : gset string) (rows : list RawRow) (new_count : nat)
    : M nat :=
  match rows with
  | [] => mret new_count
  | row :: rest =>
      let date_str := Date row in
      if bool_decide (date_str ∈ existing_dates) then
        insert_rows asset_id timestamp existing_dates rest new_count
      else if critical_nan row then
        insert_rows asset_id timestamp existing_dates rest new_count
      else
        new_count' ←
          try_except
            (id ← generate_price_data_id w;
             insert_PriceData w
               (mkPriceData id asset_id date_str (float (Open row))
                  (float (High row)) (float (Low row)) (float (Close row))
                  (volume_or_zero (Volume row)) timestamp);;
             mret (S new_count))
            (λ e, print (ErrInsertingDate date_str e);; mret new_count);
        insert_rows asset_id timestamp existing_dates rest new_count'
  end.

Definition fetch_and_update_stock (symbol : string) : M nat :=
  try_except
    (asset_id ← get_asset_id w symbol;
     if falsy asset_id then
       print (WarnAssetNotFound symbol);; mret 0
     else
       let asset_id := default "" asset_id in
       match history w symbol with
       | HistRaises e => raise e
       | Hist [] => print (WarnNoDataAvailable symbol);; mret 0
       | Hist rows =>
         dates ← execute_query w (select_dates asset_id);
         let existing_dates : gset string := list_to_set dates in
         timestamp ← timestamp_ms w;
         new_count ← insert_rows asset_id timestamp existing_dates rows 0;
         (if bool_decide (0 < new_count) then print (SuccessAdded new_count)
          else print InfoNoNewData);;
         mret new_count
       end)
    (λ e, print (ErrFailedToProcess symbol e);; mret 0).

(** [get_all_stock_symbols]: [SELECT DISTINCT symbol FROM Asset
    WHERE type = 'STOCK' ORDER BY symbol] *)
Definition select_stock_symbols (t : Tables) : list string :=
  merge_sort symbol_le
    (remove_dups (a_symbol <$> filter (λ a, a_type a = "STOCK") (t_Asset t))).

Definition get_all_stock_symbols : M (list string) :=
  execute_query w select_stock_symbols.

(** The body of [for i, stock in enumerate(all_stocks, 1)]. A count is
    never negative, so [new_count >= 0] always holds. *)
Definition process_stock (n i : nat) (stock : string) : M unit :=
  print (Processing i n stock);;
  try_except
    (new_count ← fetch_and_update_stock stock;
     add_inserted new_count;;
     (if bool_decide (0 ≤ new_count) then add_successful else add_failed);;
     commit;;
     if bool_decide (i mod 10 = 0) then print (Break i);; sleep 2
     else sleep (1 # 10))
    (λ e, print (ErrProcessing stock e);; add_failed).

Fixpoint process_stocks (n i : nat) (all_stocks : list string) : M unit :=
  match all_stocks with
  | [] => mret tt
  | stock :: rest => process_stock n i stock;; process_stocks n (S i) rest
  end.

(** [main], whose value is the exit status of [sys.exit(main())]. The
    handler rolls back and the [finally] closes only when [conn] was
    bound, that is when [wait_for_database] returned. *)
Definition main : M nat := λ s,
  match wait_for_database 10 s with
  | (Raise e, s1) => (print (ErrTop e);; mret 1) s1
  | (Ok _, s1) =>
    let '(r, s2) :=
      try_except
        (print ConnectedOk;;
         all_stocks ← get_all_stock_symbols;
         print (FoundSymbols (length all_stocks));;
         match all_stocks with
         | [] => print NoStocksFound;; mret 0
         | _ =>
           reset_counters;;
           process_stocks (length all_stocks) 1 all_stocks;;
           print_summary (length all_stocks);;
           mret 0
         end)
        (λ e, print (ErrTop e);; rollback;; mret 1) s1 in
    match close s2 with
    | (_, s3) => (r, s3)
    end
  end.

End Script.
End FetchDailySimple.

(** ** fetch_daily_wal.py *)

Module FetchDailyWal.
Section Script.

Variable w : World.

(** [connect_with_wal]: connect, then the two PRAGMA statements. *)
Definition connect_with_wal : M unit :=
  sqlite3_connect w;;
  execute_query w (λ _, tt);;
  execute_query w (λ _, tt).

Fixpoint insert_new_data (asset_id : string) (timestamp : Z)
    (new_data : list DataPoint) (inserted : nat) : M nat :=
  match new_data with
  | [] => mret inserted
  | dp :: rest =>
      inserted' ←
        try_except
          (id ← generate_price_data_id w;
           insert_PriceData w (price_row id asset_id dp timestamp);;
           mret (S inserted))
          (λ e, print (ErrInsertingData e);; mret inserted);
      insert_new_data asset_id timestamp rest inserted'
  end.

Definition update_stock_data (symbol : string) (data_points : list DataPoint)
    : M nat :=
  match data_points with
  | [] => mret 0
  | _ =>
    try_except
      (connect_with_wal;;
       asset_id ← get_asset_id w symbol;
       if falsy asset_id then
         print (WarnAssetNotFound symbol);; close;; mret 0
       else
         let asset_id := default "" asset_id in
         rows ← execute_query w (select_dates asset_id);
         let existing_dates : gset string := list_to_set rows in
         let new_data :=
           filter (λ dp, dp_date dp ∉ existing_dates) data_points in
         match new_data with
         | [] => print (InfoNoNewPoints symbol);; close;; mret 0
         | _ =>
           timestamp ← timestamp_ms w;
           inserted ← insert_new_data asset_id timestamp new_data 0;
           commit;;
           close;;
           (if bool_decide (0 < inserted) then print (SuccessAdded inserted)
            else mret tt);;
           mret inserted
         end)
      (λ e, print (ErrUpdating symbol e);; mret 0)
  end.

(** [fetch_stock_data]: the loop over the frame is the one of
    fetch_daily_data.py; an empty frame is returned without a warning. *)
Definition fetch_stock_data (symbol : string) : M (list DataPoint) :=
  try_except
    (match history w symbol with
     | HistRaises e => raise e
     | Hist [] => mret []
     | Hist rows => mret (FetchDailyData.collect_data_points rows [])
     end)
    (λ e, print (ErrFetching symbol e);; mret []).

Definition MAIN_STOCKS : list string :=
  ["AAPL"; "MSFT"; "GOOGL"; "TSLA"; "SPY"].

(** The body of [for symbol in MAIN_STOCKS]; [total_new] is the counter
    [total_inserted]. The loop has no [try]: both calls catch everything
    themselves. The progress lines of the loop are not kept. *)
Definition process_main_stock (symbol : string) : M unit :=
  data_points ← fetch_stock_data symbol;
  match data_points with
  | [] => mret tt
  | _ =>
    new_count ← update_stock_data symbol data_points;
    add_inserted new_count
  end;;
  sleep (1 # 2).

Fixpoint process_main_stocks (symbols : list string) : M unit :=
  match symbols with
  | [] => mret tt
  | symbol :: rest => process_main_stock symbol;; process_main_stocks rest
  end.

Definition main : M unit :=
  reset_counters;;
  process_main_stocks MAIN_STOCKS.

End Script.
End FetchDailyWal.

(** ** import_stocks_fast.py and add_missing_stocks.py: the resolver *)

Module ImportStocksFast.
Section Script.

Variable w : World.

Definition get_or_create_asset (symbol : string) : M string :=
  result ← execute_query w (select_asset_id symbol);
  match result with
  | Some id => mret id
  | None =>
    timestamp ← timestamp_ms w;
    asset_id ← generate_asset_id w;
    insert_Asset w asset_id symbol symbol timestamp;;
    mret asset_id
  end.

End Script.
End ImportStocksFast.

Module AddMissingStocks.
Section Script.

Variable w : World.

(** The found branch runs the lookup a second time for the value it
    returns. *)
Definition add_stock_to_database (symbol name : string) : M string :=
  found ← execute_query w (select_asset_id symbol);
  match found with
  | Some _ =>
    print (AlreadyExists symbol);;
    again ← execute_query w (select_asset_id symbol);
    match again with
    | Some id => mret id
    | None => raise (Error "'NoneType' object is not subscriptable")
    end
  | None =>
    asset_id ← generate_asset_id w;
    timestamp ← timestamp_ms w;
    insert_Asset w asset_id symbol name timestamp;;
    print (AddedStock symbol name);;
    mret asset_id
  end.

(** The [for date, row in hist.iterrows()] loop of [fetch_and_store_data]:
    no stored date is consulted. *)
Fixpoint store_data_points (asset_id : string) (timestamp : Z)
    (rows : list RawRow) (inserted : nat) : M nat :=
  match rows with
  | [] => mret inserted
  | row :: rest =>
      if critical_nan row then
        store_data_points asset_id timestamp rest inserted
      else
        inserted' ←
          try_except
            (id ← generate_price_data_id w;
             insert_PriceData w
               (mkPriceData id asset_id (Date row) (float (Open row))
                  (float (High row)) (float (Low row)) (float (Close row))
                  (volume_or_zero (Volume row)) timestamp);;
             mret (S inserted))
            (λ e, print (ErrInsertingData e);; mret inserted);
        store_data_points asset_id timestamp rest inserted'
  end.

(** [fetch_and_store_data]. Of its lines the three that report a failure
    are kept, the progress lines are not. *)
Definition fetch_and_store_data (asset_id symbol : string) : M nat :=
  try_except
    (match history w symbol with
     | HistRaises e => raise e
     | Hist [] => print (WarnNoDataAvailable symbol);; mret 0
     | Hist rows =>
       timestamp ← timestamp_ms w;
       inserted ← store_data_points asset_id timestamp rows 0;
       mret inserted
     end)
    (λ e, print (ErrFetching symbol e);; mret 0).

Definition MISSING_STOCKS : list (string * string) :=
  [("TSLA", "Tesla Inc."); ("SPY", "SPDR S&P 500 ETF Trust")].

(** The body of [for stock in MISSING_STOCKS], which has no [try] of its
    own: an exception of [add_stock_to_database] leaves the loop.
    [total_inserted] is the counter of that name. *)
Fixpoint process_missing_stocks (stocks : list (string * string)) : M unit :=
  match stocks with
  | [] => mret tt
  | (symbol, name) :: rest =>
      asset_id ← add_stock_to_database symbol name;
      inserted ← fetch_and_store_data asset_id symbol;
      add_inserted inserted;;
      commit;;
      process_missing_stocks rest
  end.

(** What [conn.rollback()] and [conn.close()] raise when [conn] was never
    bound (an UnboundLocalError; the text is the one of Python 3.11). *)
Definition unbound_conn : exn :=
  Error "cannot access local variable 'conn' where it is not associated with a value".

(** [main]. [sqlite3.connect] is inside the [try], and neither the handler
    nor the [finally] checks that [conn] is bound: when the connection
    cannot be opened the handler prints the error, [conn.rollback()]
    raises, and so does [conn.close()] in the [finally]. *)
Definition main : M nat := λ s,
  match sqlite3_connect w s with
  | (Raise e, s1) => (print (ErrTop e);; raise unbound_conn) s1
  | (Ok _, s1) =>
    let '(r, s2) :=
      try_except
        (reset_counters;;
         process_missing_stocks MISSING_STOCKS;;
         mret 0)
        (λ e, print (ErrTop e);; rollback;; mret 1) s1 in
    match close s2 with
    | (_, s3) => (r, s3)
    end
  end.

End Script.
End AddMissingStocks.

(** ** fetch_all_crypto_data.py and fetch_crypto_data.py *)

(** Modelled from the spec: the declaration of the CryptocurrencyPrice
    table, which is in the Prisma schema and not among the scripts. The
    spec gives the table upsert-by-replace semantics in which a later
    fetch overwrites a same-date row, so the conflict key of
    [INSERT OR REPLACE] is (cryptocurrencyId, date): the statement deletes
    the rows that carry the key of the new row and then inserts it. *)
Definition same_key (new old : CryptocurrencyPrice) : Prop :=
  cp_cryptocurrencyId old = cp_cryptocurrencyId new ∧
  cp_date old = cp_date new.

#[global] Instance same_key_dec new old : Decision (same_key new old).
Proof. unfold same_key. apply _. Defined.

Definition insert_or_replace (row : CryptocurrencyPrice)
    (l : list CryptocurrencyPrice) : list CryptocurrencyPrice :=
  filter (λ old, ¬ same_key row old) l ++ [row].

Definition set_Cryptocurrency
    (f : list Cryptocurrency → list Cryptocurrency) (t : Tables) : Tables :=
  mkTables (t_Asset t) (t_PriceData t) (f (t_Cryptocurrency t))
           (t_CryptocurrencyPrice t).

(** [SELECT id FROM Cryptocurrency WHERE symbol = ?] then [fetchone()] *)
Definition select_cryptocurrency_id (symbol : string) (t : Tables)
    : option string :=
  c_id <$> head (filter (λ c, c_symbol c = symbol) (t_Cryptocurrency t)).

Section Cryptocurrencies.

Variable w : World.

(** The declaration of the Cryptocurrency table is in the Prisma schema and
    not among the scripts: whether [INSERT OR IGNORE] skips the new row,
    given the rows stored, is a parameter. *)
Variable ignored : Cryptocurrency → list Cryptocurrency → bool.

(** [INSERT OR IGNORE INTO Cryptocurrency (...) VALUES (...)]; the value is
    [cursor.rowcount]. The record keeps the id, the symbol and the two
    names of the row, not its two timestamps. *)
Definition insert_or_ignore (row : Cryptocurrency) : M nat := λ s,
  match exec_fault w (tick s) with
  | Some e => (Raise e, step_tick s)
  | None =>
      if ignored row (t_Cryptocurrency (tables s)) then (Ok 0, step_tick s)
      else
        (Ok 1, step_tick (with_tables
                            (set_Cryptocurrency (λ l, l ++ [row])) s))
  end.

(** [insert_cryptocurrency], the same in both crypto scripts. Its value
    is [None] where the source returns [None]. The line the handler
    prints is not kept. *)
Definition insert_cryptocurrency (crypto_info : CryptoInfo)
    : M (option string) :=
  crypto_id ← generate_cuid w;
  try_except
    (rowcount ←
       insert_or_ignore
         (mkCryptocurrency crypto_id (ci_symbol crypto_info)
            (ci_name crypto_info) (ci_full_name crypto_info));
     crypto_id ←
       (if bool_decide (rowcount = 0) then
          result ←
            execute_query w (select_cryptocurrency_id (ci_symbol crypto_info));
          mret (default crypto_id result)
        else mret crypto_id);
     commit;;
     mret (Some crypto_id))
    (λ e, rollback;; mret None).

End Cryptocurrencies.

Module FetchAllCryptoData.
Section Script.

Variable w : World.

(** The row bound by the statement: no cell is checked for NaN, the
    volume too is [float(row['Volume'])], and [market_cap] is [None]. *)
Definition crypto_price_row (price_id crypto_id : string) (row : RawRow)
    (created : Z) : CryptocurrencyPrice :=
  mkCryptocurrencyPrice price_id crypto_id (Date row) (float (Open row))
    (float (High row)) (float (Low row)) (float (Close row))
    (float (Volume row)) None created.

(** The [for _, row in hist.iterrows()] loop, with its counter. *)
Fixpoint store_rows (crypto_info : CryptoInfo) (crypto_id : string)
    (rows : list RawRow) (inserted_count : nat) : M nat :=
  match rows with
  | [] => mret inserted_count
  | row :: rest =>
      price_id ← generate_cuid w;
      inserted_count' ←
        try_except
          (created ← timestamp_ms w;
           execute_update w
             (set_CryptocurrencyPrice
                (insert_or_replace
                   (crypto_price_row price_id crypto_id row created)));;
           mret (S inserted_count))
          (λ e, print (ErrInsertingPrice (ci_symbol crypto_info) (Date row) e);;
                mret inserted_count);
      store_rows crypto_info crypto_id rest inserted_count'
  end.

Definition fetch_and_store_crypto_data (crypto_info : CryptoInfo)
    (crypto_id : string) : M bool :=
  try_except
    (match history w (ci_symbol crypto_info) with
     | HistRaises e => raise e
     | Hist [] => print (NoDataFor (ci_symbol crypto_info));; mret false
     | Hist rows =>
       inserted_count ← store_rows crypto_info crypto_id rows 0;
       commit;;
       print (StoredDays inserted_count (ci_name crypto_info));;
       mret true
     end)
    (λ e, print (ErrFetching (ci_symbol crypto_info) e);; rollback;;
          mret false).

Variable ignored : Cryptocurrency → list Cryptocurrency → bool.

(** The body of [for i, crypto_info in enumerate(crypto_list, 1)];
    [successful_fetches] and [failed_fetches] are the counters
    [successful_updates] and [failed_updates]. The [continue] after a
    failed insert skips the sleep. *)
Definition process_crypto (i : nat) (crypto_info : CryptoInfo) : M unit :=
  crypto_id ← insert_cryptocurrency w ignored crypto_info;
  if falsy crypto_id then add_failed
  else
    success ← fetch_and_store_crypto_data crypto_info (default "" crypto_id);
    (if (success : bool) then add_successful else add_failed);;
    if bool_decide (i mod 10 = 0) then sleep 2 else sleep (1 # 2).

Fixpoint process_cryptos (i : nat) (crypto_list : list CryptoInfo) : M unit :=
  match crypto_list with
  | [] => mret tt
  | crypto_info :: rest =>
      process_crypto i crypto_info;; process_cryptos (S i) rest
  end.

(** [main], on the list that [get_all_crypto_symbols] returned. Its value
    is the exit status where [connect_to_database] ends the process with
    [sys.exit(1)], and [None] where [main] returns. The lines of the
    summary are not kept: they print the two counters and their sum. *)
Definition main (crypto_list : list CryptoInfo) : M (option nat) := λ s,
  match crypto_list with
  | [] => (Ok None, s)
  | _ =>
    match sqlite3_connect w s with
    | (Raise e, s1) => (Ok (Some 1), s1)
    | (Ok _, s1) =>
      let '(_, s2) :=
        try_except
          (reset_counters;;
           process_cryptos 1 crypto_list)
          (λ e, (mret tt : M unit)) s1 in
      match close s2 with
      | (_, s3) => (Ok None, s3)
      end
    end
  end.

End Script.
End FetchAllCryptoData.

Module FetchCryptoData.
Section Script.

Variable w : World.

(** The same loop without a counter. *)
Fixpoint store_rows (crypto_info : CryptoInfo) (crypto_id : string)
    (rows : list RawRow) : M unit :=
  match rows with
  | [] => mret tt
  | row :: rest =>
      price_id ← generate_cuid w;
      try_except
        (created ← timestamp_ms w;
         execute_update w
           (set_CryptocurrencyPrice
              (insert_or_replace
                 (FetchAllCryptoData.crypto_price_row price_id crypto_id row
                    created))))
        (λ e, print (ErrInsertingPrice (ci_symbol crypto_info) (Date row) e));;
      store_rows crypto_info crypto_id rest
  end.

Definition fetch_and_store_crypto_data (crypto_info : CryptoInfo)
    (crypto_id : string) : M unit :=
  try_except
    (match history w (ci_symbol crypto_info) with
     | HistRaises e => raise e
     | Hist [] => print (NoDataFor (ci_symbol crypto_info))
     | Hist rows =>
       store_rows crypto_info crypto_id rows;;
       commit;;
       print (StoredDays (length rows) (ci_name crypto_info))
     end)
    (λ e, print (ErrFetching (ci_symbol crypto_info) e);; rollback).

Variable ignored : Cryptocurrency → list Cryptocurrency → bool.

Definition CRYPTOCURRENCIES : list CryptoInfo :=
  [mkCryptoInfo "BTC-USD" "Bitcoin" "Bitcoin";
   mkCryptoInfo "ETH-USD" "Ethereum" "Ethereum";
   mkCryptoInfo "BNB-USD" "BNB" "BNB";
   mkCryptoInfo "XRP-USD" "XRP" "XRP";
   mkCryptoInfo "ADA-USD" "Cardano" "Cardano";
   mkCryptoInfo "DOGE-USD" "Dogecoin" "Dogecoin";
   mkCryptoInfo "SOL-USD" "Solana" "Solana";
   mkCryptoInfo "TRX-USD" "TRON" "TRON";
   mkCryptoInfo "MATIC-USD" "Polygon" "Polygon";
   mkCryptoInfo "LTC-USD" "Litecoin" "Litecoin";
   mkCryptoInfo "AVAX-USD" "Avalanche" "Avalanche";
   mkCryptoInfo "SHIB-USD" "Shiba Inu" "Shiba Inu";
   mkCryptoInfo "DOT-USD" "Polkadot" "Polkadot";
   mkCryptoInfo "UNI-USD" "Uniswap" "Uniswap";
   mkCryptoInfo "ATOM-USD" "Cosmos" "Cosmos";
   mkCryptoInfo "LINK-USD" "Chainlink" "Chainlink";
   mkCryptoInfo "BCH-USD" "Bitcoin Cash" "Bitcoin Cash";
   mkCryptoInfo "ETC-USD" "Ethereum Classic" "Ethereum Classic";
   mkCryptoInfo "XLM-USD" "Stellar" "Stellar";
   mkCryptoInfo "ALGO-USD" "Algorand" "Algorand"].

(** The body of [for crypto_info in CRYPTOCURRENCIES]. *)
Definition process_crypto (crypto_info : CryptoInfo) : M unit :=
  crypto_id ← insert_cryptocurrency w ignored crypto_info;
  if falsy crypto_id then mret tt
  else fetch_and_store_crypto_data crypto_info (default "" crypto_id).

Fixpoint process_cryptos (crypto_list : list CryptoInfo) : M unit :=
  match crypto_list with
  | [] => mret tt
  | crypto_info :: rest => process_crypto crypto_info;; process_cryptos rest
  end.

(** [main]; its value is as in fetch_all_crypto_data.py. *)
Definition main : M (option nat) := λ s,
  match sqlite3_connect w s with
  | (Raise e, s1) => (Ok (Some 1), s1)
  | (Ok _, s1) =>
    let '(_, s2) :=
      try_except (process_cryptos CRYPTOCURRENCIES) (λ e, (mret tt : M unit))
        s1 in
    match close s2 with
    | (_, s3) => (Ok None, s3)
    end
  end.

End Script.
End FetchCryptoData.

(** * The specification: closed forms and predicates *)

(** What a batch of inserts starting at statement [t] leaves behind: the
    rows of the bars whose statement did not raise, and one console line
    per bar whose statement did. *)
Fixpoint inserted_rows (w : World) (asset_id : string) (timestamp : Z)
    (new_data_points : list DataPoint) (t : nat) : list PriceData :=
  match new_data_points with
  | [] => []
  | dp :: rest =>
      match exec_fault w t with
      | Some _ => inserted_rows w asset_id timestamp rest (S t)
      | None =>
          price_row ("cmfpd" +:+ random_part w t +:+ pretty (now_ms w t))
                    asset_id dp timestamp
          :: inserted_rows w asset_id timestamp rest (S t)
      end
  end.

Fixpoint insert_errors (w : World) (symbol : string)
    (new_data_points : list DataPoint) (t : nat) : list Msg :=
  match new_data_points with
  | [] => []
  | dp :: rest =>
      match exec_fault w t with
      | Some e => ErrInserting symbol e :: insert_errors w symbol rest (S t)
      | None => insert_errors w symbol rest (S t)
      end
  end.

(** The bars of a batch whose insert statement did not raise. *)
Fixpoint succeeded (w : World) (new_data_points : list DataPoint) (t : nat)
    : list DataPoint :=
  match new_data_points with
  | [] => []
  | dp :: rest =>
      match exec_fault w t with
      | Some _ => succeeded w rest (S t)
      | None => dp :: succeeded w rest (S t)
      end
  end.

(** The bars of a batch that pass the duplicate filter of
    [update_daily_data]. *)
Definition new_points (asset_id : string) (data_points : list DataPoint)
    (t : Tables) : list DataPoint :=
  filter (λ dp, dp_date dp ∉ (list_to_set (select_dates asset_id t)
                               : gset string)) data_points.

Definition resolved (symbol : string) (t : Tables) : string :=
  default "" (select_asset_id symbol t).

(** The bar a stored row carries. *)
Definition bar_of (p : PriceData) : DataPoint :=
  mkDataPoint (p_date p) (p_open p) (p_high p) (p_low p) (p_close p)
              (p_volume p).

Definition no_asset_row (symbol : string) (t : Tables) : Prop :=
  ∀ a, a ∈ t_Asset t → a_symbol a ≠ symbol.

(** A raw row with its four prices present. *)
Definition complete (row : RawRow) : Prop := critical_nan row = false.

#[global] Instance complete_dec row : Decision (complete row).
Proof. unfold complete. apply _. Defined.

(** The rows of a frame that [fetch_and_update_stock] tries to insert:
    neither already stored nor with a missing price. *)
Definition kept_rows (existing_dates : gset string) (rows : list RawRow)
    : list RawRow :=
  filter (λ row, (Date row ∉ existing_dates) ∧ complete row) rows.

Fixpoint date_errors (w : World) (l : list DataPoint) (t : nat) : list Msg :=
  match l with
  | [] => []
  | dp :: rest =>
      match exec_fault w t with
      | Some e => ErrInsertingDate (dp_date dp) e :: date_errors w rest (S t)
      | None => date_errors w rest (S t)
      end
  end.

Definition say (m : Msg) (s : St) : St :=
  mkSt (tables s) (saved s) (tick s) (slept s) (out s ++ [m]) (counters s).

Definition no_repeated_dates (t : Tables) : Prop :=
  ∀ asset_id, NoDup (select_dates asset_id t).

Definition with_history (w : World) (h : string → HistOutcome) : World :=
  mkWorld (exec_fault w) (random_part w) (uuid4 w) (now_ms w) h.

(** One skip-on-duplicate ingestion run: [update_daily_data] on a list of
    fetched bars, or [fetch_and_update_stock] on what the provider
    answers that day. *)
Inductive Run : Type :=
  | UpdateDailyData (symbol : string) (data_points : list DataPoint)
  | FetchAndUpdateStock (symbol : string) (answer : HistOutcome).

Definition run_bars (r : Run) : list DataPoint :=
  match r with
  | UpdateDailyData _ data_points => data_points
  | FetchAndUpdateStock _ (Hist rows) =>
      data_point_of <$> filter complete rows
  | FetchAndUpdateStock _ (HistRaises _) => []
  end.

Definition run_dates (r : Run) : list string :=
  match r with
  | UpdateDailyData _ data_points => dp_date <$> data_points
  | FetchAndUpdateStock _ (Hist rows) => Date <$> rows
  | FetchAndUpdateStock _ (HistRaises _) => []
  end.

Definition ingestion_run (w : World) (r : Run) (s : St) : St :=
  match r with
  | UpdateDailyData symbol data_points =>
      (FetchDailyData.update_daily_data w symbol data_points s).2
  | FetchAndUpdateStock symbol answer =>
      (FetchDailySimple.fetch_and_update_stock
         (with_history w (λ _, answer)) symbol s).2
  end.

Definition ingestion_runs (w : World) (runs : list Run) (s : St) : St :=
  foldl (λ s r, ingestion_run w r s) s runs.

(** What the fetcher hands to the driver. *)
Definition fetched (w : World) (symbol : string) : list DataPoint :=
  match history w symbol with
  | HistRaises _ => []
  | Hist rows => data_point_of <$> filter complete rows
  end.

(** The counters after one more failure, and after one more success that
    inserted [n] rows. *)
Definition one_more_failed (c : Counters) : Counters :=
  mkCounters (total_inserted c) (successful_updates c) (S (failed_updates c)).

Definition one_more_successful (n : nat) (c : Counters) : Counters :=
  mkCounters (total_inserted c + n) (S (successful_updates c))
             (failed_updates c).

(** The state in which the loop body calls [update_daily_data]. *)
Definition at_update (w : World) (n i : nat) (symbol : string) (s : St) : St :=
  (FetchDailyData.fetch_daily_data_for_symbol w symbol
     (say (Processing i n symbol) s)).2.

(** The number of symbols the counters have accounted for. *)
Definition counted (s : St) : nat :=
  successful_updates (counters s) + failed_updates (counters s).

(** The rows the provider hands back for a symbol. *)
Definition provided (w : World) (symbol : string) : list RawRow :=
  match history w symbol with
  | HistRaises _ => []
  | Hist rows => rows
  end.

(** A stored row that carries the values of a complete raw row of the
    frame, its volume read with [volume_or_zero]. *)
Definition from_complete_row (rows : list RawRow) (p : PriceData) : Prop :=
  ∃ row, row ∈ rows ∧ complete row ∧ bar_of p = data_point_of row.

(** The CryptocurrencyPrice table after the loop over a frame, the first
    statement being numbered [t]. *)
Fixpoint stored_crypto (w : World) (crypto_id : string) (rows : list RawRow)
    (t : nat) (tbl : list CryptocurrencyPrice) : list CryptocurrencyPrice :=
  match rows with
  | [] => tbl
  | row :: rest =>
      match exec_fault w t with
      | Some _ => stored_crypto w crypto_id rest (S t) tbl
      | None =>
          stored_crypto w crypto_id rest (S t)
            (insert_or_replace
               (FetchAllCryptoData.crypto_price_row (uuid4 w t) crypto_id row
                  (now_ms w t))
               tbl)
      end
  end.

Fixpoint crypto_errors (w : World) (symbol : string) (rows : list RawRow)
    (t : nat) : list Msg :=
  match rows with
  | [] => []
  | row :: rest =>
      match exec_fault w t with
      | Some e =>
          ErrInsertingPrice symbol (Date row) e
          :: crypto_errors w symbol rest (S t)
      | None => crypto_errors w symbol rest (S t)
      end
  end.

Fixpoint crypto_count (w : World) (rows : list RawRow) (t : nat) : nat :=
  match rows with
  | [] => 0
  | row :: rest =>
      match exec_fault w t with
      | Some _ => crypto_count w rest (S t)
      | None => S (crypto_count w rest (S t))
      end
  end.

Definition after_store_rows (w : World) (crypto_info : CryptoInfo)
    (crypto_id : string) (rows : list RawRow) (s : St) : St :=
  mkSt (set_CryptocurrencyPrice (stored_crypto w crypto_id rows (tick s))
                                (tables s))
       (saved s) (tick s + length rows) (slept s)
       (out s ++ crypto_errors w (ci_symbol crypto_info) rows (tick s))
       (counters s).

(** The rows stored for a cryptocurrency on a date. *)
Definition has_key (crypto_id date : string) (p : CryptocurrencyPrice)
    : Prop :=
  cp_cryptocurrencyId p = crypto_id ∧ cp_date p = date.

#[global] Instance has_key_dec crypto_id date p :
  Decision (has_key crypto_id date p).
Proof. unfold has_key. apply _. Defined.

(** The Asset row the resolvers insert at statement [t]. *)
Definition new_asset (w : World) (symbol name : string) (t : nat) : Asset :=
  mkAsset ("cmfuz" +:+ random_part w t +:+ pretty (now_ms w t)) symbol name
          "STOCK" "NASDAQ" (now_ms w t) (now_ms w t).

(** One attempt of [wait_for_database]: connect, then [SELECT 1]. *)
Definition attempt (w : World) : M unit :=
  sqlite3_connect w;; execute_query w (λ _, tt).

(** The exception an attempt that starts at call [t] raises, if any, and
    the number of calls into sqlite3 it makes. *)
Definition attempt_fault (w : World) (t : nat) : option exn :=
  match exec_fault w t with
  | Some e => Some e
  | None => exec_fault w (S t)
  end.

Definition attempt_calls (w : World) (t : nat) : nat :=
  match exec_fault w t with
  | Some _ => 1
  | None => 2
  end.

(** The errors [wait_for_database] retries on: an
    [sqlite3.OperationalError] whose text says the database is locked. *)
Definition retried (e : exn) : bool :=
  match e with
  | OperationalError _ => FetchDailySimple.is_locked e
  | Error _ => false
  end.

(** [n] attempts in a row, the first starting at call [t], all fail with
    the locked error. *)
Fixpoint locked_attempts (w : World) (t n : nat) : bool :=
  match n with
  | 0 => true
  | S n' =>
      match attempt_fault w t with
      | Some e => retried e && locked_attempts w (t + attempt_calls w t) n'
      | None => false
      end
  end.

(** The state after [k] failed attempts, each followed by its message
    and its sleep of two seconds. *)
Fixpoint after_locked (w : World) (max_retries i k : nat) (s : St) : St :=
  match k with
  | 0 => s
  | S k' =>
      after_locked w max_retries (S i) k'
        (sleep 2 (say (DatabaseLocked (i + 1) max_retries) (attempt w s).2)).2
  end.

(** The messages of [k] failed attempts, numbered from [i + 1]. *)
Definition locked_messages (max_retries i k : nat) : list Msg :=
  (λ j, DatabaseLocked (i + 1 + j) max_retries) <$> seq 0 k.

(** The number of attempts in a row, the first starting at call [t], that
    fail with the locked error, among at most [m] attempts. *)
Fixpoint locked_run (w : World) (t m : nat) : nat :=
  match m with
  | 0 => 0
  | S m' =>
      match attempt_fault w t with
      | Some e =>
          if retried e then S (locked_run w (t + attempt_calls w t) m')
          else 0
      | None => 0
      end
  end.

(** A data point whose four prices are numbers. *)
Definition priced (dp : DataPoint) : Prop :=
  isna (dp_open dp) = false ∧ isna (dp_high dp) = false
  ∧ isna (dp_low dp) = false ∧ isna (dp_close dp) = false.

(** The end of the [try] block of a turn of fetch_daily_data.py:
    [if i % 10 == 0: conn.commit()] and its message. *)
Definition commit_if_tenth (i : nat) (s : St) : St :=
  if bool_decide (i mod 10 = 0) then say (CommittedBatch i) (commit s).2
  else s.

(** The line a turn prints after [update_daily_data] returned. *)
Definition turn_message (inserted : nat) : Msg :=
  if bool_decide (0 < inserted) then SuccessAdded inserted else InfoNoNewData.

(** The seconds a turn of fetch_daily_simple.py sleeps. *)
Definition pause (i : nat) : Q :=
  if bool_decide (i mod 10 = 0) then 2%Q else (1 # 10)%Q.

(** What [wait_for_database] raises after its last attempt. *)
Definition remained_locked : exn :=
  Error "Database remained locked after all retries".

(** The console lines of the inserts that raised, in fetch_daily_wal.py
    and add_missing_stocks.py. *)
Fixpoint data_errors (w : World) (l : list DataPoint) (t : nat) : list Msg :=
  match l with
  | [] => []
  | dp :: rest =>
      match exec_fault w t with
      | Some e => ErrInsertingData e :: data_errors w rest (S t)
      | None => data_errors w rest (S t)
      end
  end.

(** The state of a run of fetch_daily_wal.py whose own connection has
    made [n] calls and written nothing. *)
Definition on_connection (n : nat) (s : St) : St :=
  mkSt (saved s) (saved s) (n + tick s) (slept s) (out s) (counters s).

(** The Cryptocurrency row [insert_cryptocurrency] binds at call [t]. *)
Definition new_cryptocurrency (w : World) (crypto_info : CryptoInfo) (t : nat)
    : Cryptocurrency :=
  mkCryptocurrency (uuid4 w t) (ci_symbol crypto_info) (ci_name crypto_info)
    (ci_full_name crypto_info).

(** A Cryptocurrency table whose only uniqueness constraint that an
    insert can meet is on the symbol. *)
Definition unique_symbol
    (ignored : Cryptocurrency → list Cryptocurrency → bool) : Prop :=
  ∀ row tbl,
    ignored row tbl = true ↔ Exists (λ c, c_symbol c = c_symbol row) tbl.













(** * Sample stores and worlds *)

Definition sample_bar (date : string) : DataPoint :=
  mkDataPoint date (Num 10) (Num 12) (Num 9) (Num 11) 1000%Z.

Definition ten_bars : list DataPoint :=
  sample_bar <$> ["2024-01-01 00:00:00"; "2024-01-02 00:00:00";
                  "2024-01-03 00:00:00"; "2024-01-04 00:00:00";
                  "2024-01-05 00:00:00"; "2024-01-06 00:00:00";
                  "2024-01-07 00:00:00"; "2024-01-08 00:00:00";
                  "2024-01-09 00:00:00"; "2024-01-10 00:00:00"].

Definition aapl : Asset := mkAsset "cmfuzaapl" "AAPL" "AAPL" "STOCK" "NASDAQ" 0 0.

Definition aapl_only : Tables := mkTables [aapl] [] [] [].

Definition fresh_state (t : Tables) : St :=
  mkSt t t 0 0 [] (mkCounters 0 0 0).

(** A world in which exactly the statement numbered [k] raises. *)
Definition one_fault (k : nat) (e : exn) : World :=
  mkWorld (λ n, if bool_decide (n = k) then Some e else None)
          (λ n, pretty n) (λ n, pretty n) (λ _, 1700000000000%Z)
          (λ _, Hist []).

Definition jan_2 : string := "2024-01-02 00:00:00".

(** A world in which no statement raises. *)
Definition calm : World :=
  mkWorld (λ _, None) (λ n, pretty n) (λ n, pretty n)
          (λ _, 1700000000000%Z) (λ _, Hist []).

Definition locked : exn := OperationalError "database is locked".

Definition after_first_run : St :=
  (FetchDailyData.update_daily_data (one_fault 2 locked) "AAPL"
     [sample_bar jan_2] (fresh_state aapl_only)).2.

Definition raw_bar (date : string) : RawRow :=
  mkRawRow date (Num 10) (Num 12) (Num 9) (Num 11) (Num 1000).

Definition stock (symbol : string) : Asset :=
  mkAsset ("cmfuz" +:+ symbol) symbol symbol "STOCK" "NASDAQ" 0 0.

Definition abc : Tables := mkTables [stock "A"; stock "B"; stock "C"] [] [] [].

Definition jan_3 : string := "2024-01-03 00:00:00".

(** The provider answers every symbol with two bars; the statement
    numbered [k] raises. Statement 6 is the Asset lookup for B. *)
Definition fault_at (k : nat) : World :=
  mkWorld (λ n, if bool_decide (n = k) then Some locked else None)
          (λ n, pretty n) (λ n, pretty n) (λ _, 1700000000000%Z)
          (λ _, Hist [raw_bar jan_2; raw_bar jan_3]).

(** The provider raises for B and answers A and C with two bars. *)
Definition provider_down_for_B : World :=
  mkWorld (λ _, None) (λ n, pretty n) (λ n, pretty n) (λ _, 1700000000000%Z)
          (λ symbol, if bool_decide (symbol = "B")
                     then HistRaises (Error "timed out")
                     else Hist [raw_bar jan_2; raw_bar jan_3]).

Definition btc : CryptoInfo := mkCryptoInfo "BTC-USD" "Bitcoin" "Bitcoin".

(** The provider answers with one bar whose close is missing and one bar
    whose volume alone is missing; no statement raises. *)
Definition gaps : World :=
  mkWorld (λ _, None) (λ n, pretty n) (λ n, pretty n) (λ _, 1700000000000%Z)
          (λ _, Hist [mkRawRow jan_2 (Num 10) (Num 12) (Num 9) NaN (Num 1000);
                      mkRawRow jan_3 (Num 10) (Num 12) (Num 9) (Num 11) NaN]).

(** The same answer, every statement raising as a store that rejects a
    missing value does. *)
Definition gaps_rejected : World :=
  mkWorld (λ _, Some (Error "NOT NULL constraint failed"))
          (λ n, pretty n) (λ n, pretty n) (λ _, 1700000000000%Z)
          (history gaps).

Definition no_tables : Tables := mkTables [] [] [] [].

Definition two_runs : list Run :=
  [UpdateDailyData "AAPL" [sample_bar jan_2];
   UpdateDailyData "AAPL" [sample_bar jan_2; sample_bar jan_3]].

Definition after_clean_run : St :=
  (FetchDailyData.update_daily_data calm "AAPL" [sample_bar jan_2]
     (fresh_state aapl_only)).2.

Definition two_bars : World :=
  with_history calm (λ _, Hist [raw_bar jan_2; raw_bar jan_3]).

(** A store that already holds a price of Bitcoin for 2024-01-02, with a
    close of 5 where the provider now says 11. *)
Definition stale_btc : Tables :=
  mkTables [] [] []
    [mkCryptocurrencyPrice "old" "btc" jan_2 (Num 4) (Num 6) (Num 3) (Num 5)
       (Num 700) None 0].

Definition after_msft : St :=
  (ImportStocksFast.get_or_create_asset calm "MSFT" (fresh_state aapl_only)).2.

(** A store that is locked at every call, and one that cannot be opened. *)
Definition always_locked : World :=
  mkWorld (λ _, Some locked) (λ n, pretty n) (λ n, pretty n)
          (λ _, 1700000000000%Z) (λ _, Hist []).

Definition unreadable : exn :=
  OperationalError "unable to open database file".

Definition never_opens : World :=
  mkWorld (λ _, Some unreadable) (λ n, pretty n) (λ n, pretty n)
          (λ _, 1700000000000%Z) (λ _, Hist []).

(** [INSERT OR IGNORE] on a table that is unique in the symbol. *)
Definition symbol_taken (row : Cryptocurrency) (tbl : list Cryptocurrency)
    : bool :=
  bool_decide (Exists (λ c, c_symbol c = c_symbol row) tbl).

Definition after_simple_run : St :=
  (FetchDailySimple.fetch_and_update_stock two_bars "A" (fresh_state abc)).2.

Definition after_wal_run : St :=
  (FetchDailyWal.update_stock_data calm "AAPL" [sample_bar jan_2]
     (fresh_state aapl_only)).2.

Definition after_btc : St :=
  (insert_cryptocurrency calm symbol_taken btc (fresh_state no_tables)).2.

(** The store is locked at the first two calls and opens then. *)
Definition locked_twice : World :=
  mkWorld (λ n, if bool_decide (n < 2) then Some locked else None)
          (λ n, pretty n) (λ n, pretty n) (λ _, 1700000000000%Z)
          (λ _, Hist []).

(** No [conn.commit()] raises; every one does. *)
Definition commits_succeed : nat → option exn := λ _, None.


(** * Properties *)

(** ** Running computations *)

Lemma bind_run {A B} (m : M A) (f : A → M B) (s : St) :
  (m ≫= f) s =
  match m s with
  | (Ok a, s') => f a s'
  | (Raise e, s') => (Raise e, s')
  end.
Proof. reflexivity. Qed.

Lemma ret_run {A} (a : A) (s : St) : (mret a : M A) s = (Ok a, s).
Proof. reflexivity. Qed.

(** Push a computation one layer further into the state. *)
Ltac run :=
  repeat progress
    (try rewrite !bind_run; try rewrite !ret_run;
     cbn [step_tick with_tables with_counters tables saved tick slept out
          counters]).

Lemma insert_data_points_run w symbol asset_id timestamp l : ∀ k s,
  FetchDailyData.insert_data_points w symbol asset_id timestamp l k s =
  (Ok (k + length (inserted_rows w asset_id timestamp l (tick s))),
   mkSt (set_PriceData
           (λ p, p ++ inserted_rows w asset_id timestamp l (tick s))
           (tables s))
        (saved s) (tick s + length l) (slept s)
        (out s ++ insert_errors w symbol l (tick s)) (counters s)).
Proof.
  induction l as [|dp l IH]; intros k s.
  - destruct s as [[] ? ? ? ? ?]. cbn. unfold set_PriceData. cbn.
    by rewrite !app_nil_r, !Nat.add_0_r.
  - cbn [FetchDailyData.insert_data_points inserted_rows insert_errors].
    rewrite bind_run.
    unfold try_except, generate_price_data_id, insert_PriceData,
      execute_update.
    rewrite !bind_run.
    destruct (exec_fault w (tick s)) as [e|] eqn:Hf.
    + unfold print. rewrite bind_run, ret_run, IH. cbn.
      by rewrite <- app_assoc, Nat.add_succ_r.
    + rewrite !ret_run, IH. cbn. unfold set_PriceData. cbn.
      by rewrite <- app_assoc, !Nat.add_succ_r.
Qed.

(** [update_daily_data] in closed form: what it returns and leaves behind,
    by the statements that raise. *)
Lemma update_daily_data_run w symbol data_points s :
  FetchDailyData.update_daily_data w symbol data_points s =
  match data_points with
  | [] => (Ok 0, s)
  | _ =>
    match exec_fault w (tick s) with
    | Some e => (Raise e, step_tick s)
    | None =>
      if falsy (select_asset_id symbol (tables s)) then
        (Ok 0, mkSt (tables s) (saved s) (S (tick s)) (slept s)
                    (out s ++ [WarnAssetNotFound symbol]) (counters s))
      else
        match exec_fault w (S (tick s)) with
        | Some e => (Raise e, step_tick (step_tick s))
        | None =>
          let asset_id := resolved symbol (tables s) in
          match new_points asset_id data_points (tables s) with
          | [] =>
            (Ok 0, mkSt (tables s) (saved s) (S (S (tick s))) (slept s)
                        (out s ++ [InfoNoNewPoints symbol]) (counters s))
          | news =>
            let timestamp := now_ms w (S (S (tick s))) in
            (Ok (length (inserted_rows w asset_id timestamp news
                           (S (S (tick s))))),
             mkSt (set_PriceData
                     (λ p, p ++ inserted_rows w asset_id timestamp news
                                  (S (S (tick s))))
                     (tables s))
                  (saved s) (S (S (tick s)) + length news) (slept s)
                  (out s ++ insert_errors w symbol news (S (S (tick s))))
                  (counters s))
          end
        end
    end
  end.
Proof.
  destruct data_points as [|dp0 dps]; [reflexivity|].
  unfold FetchDailyData.update_daily_data, get_asset_id, execute_query.
  rewrite bind_run.
  destruct (exec_fault w (tick s)) as [e|] eqn:Hf; [reflexivity|].
  destruct (falsy (select_asset_id symbol (tables s))) eqn:Hfalsy;
    [reflexivity|].
  rewrite bind_run. cbn [tick step_tick].
  destruct (exec_fault w (S (tick s))) as [e|] eqn:Hf2; [reflexivity|].
  cbn [tables step_tick]. fold (resolved symbol (tables s)).
  fold (new_points (resolved symbol (tables s)) (dp0 :: dps) (tables s)).
  destruct (new_points _ _ _) as [|n0 news] eqn:Hnew; [reflexivity|].
  unfold timestamp_ms. rewrite bind_run, insert_data_points_run.
  reflexivity.
Qed.

(** ** Facts about a batch of inserts *)

Lemma inserted_rows_length w asset_id timestamp l : ∀ t,
  length (inserted_rows w asset_id timestamp l t) = length (succeeded w l t).
Proof.
  induction l as [|dp l IH]; intros t; [reflexivity|].
  cbn. destruct (exec_fault w t); cbn; by rewrite IH.
Qed.

Lemma inserted_rows_bars w asset_id timestamp l : ∀ t,
  bar_of <$> inserted_rows w asset_id timestamp l t = succeeded w l t.
Proof.
  induction l as [|dp l IH]; intros t; [reflexivity|].
  cbn. destruct (exec_fault w t); cbn; rewrite IH; [done|].
  by destruct dp.
Qed.

Lemma inserted_rows_asset w asset_id timestamp l : ∀ t,
  Forall (λ p, p_assetId p = asset_id ∧ p_createdAt p = timestamp)
         (inserted_rows w asset_id timestamp l t).
Proof.
  induction l as [|dp l IH]; intros t; [constructor|].
  cbn. destruct (exec_fault w t); [apply IH|].
  constructor; [done|apply IH].
Qed.

Lemma succeeded_sublist w l : ∀ t, succeeded w l t `sublist_of` l.
Proof.
  induction l as [|dp l IH]; intros t; [constructor|].
  cbn. destruct (exec_fault w t).
  - by apply sublist_cons.
  - by apply sublist_skip.
Qed.

Lemma succeeded_errors_length w symbol l : ∀ t,
  length (succeeded w l t) + length (insert_errors w symbol l t) = length l.
Proof.
  induction l as [|dp l IH]; intros t; [reflexivity|].
  cbn. destruct (exec_fault w t); cbn; rewrite <- (IH (S t)); lia.
Qed.

Lemma succeeded_lookup w l : ∀ t j dp,
  l !! j = Some dp → exec_fault w (t + j) = None → dp ∈ succeeded w l t.
Proof.
  induction l as [|d l IH]; intros t j dp Hj Hok; [done|].
  destruct j as [|j]; cbn in *.
  - simplify_eq. rewrite Nat.add_0_r in Hok. rewrite Hok. by left.
  - rewrite Nat.add_succ_r in Hok.
    destruct (exec_fault w t); [|right]; by apply (IH (S t) j).
Qed.

Lemma insert_errors_lookup w symbol l : ∀ t j dp e,
  l !! j = Some dp → exec_fault w (t + j) = Some e →
  ErrInserting symbol e ∈ insert_errors w symbol l t.
Proof.
  induction l as [|d l IH]; intros t j dp e Hj Hf; [done|].
  destruct j as [|j]; cbn in *.
  - rewrite Nat.add_0_r in Hf. rewrite Hf. by left.
  - rewrite Nat.add_succ_r in Hf.
    destruct (exec_fault w t); [right|]; by apply (IH (S t) j dp).
Qed.

Lemma succeeded_all w l : ∀ t,
  (∀ j, j < length l → exec_fault w (t + j) = None) → succeeded w l t = l.
Proof.
  induction l as [|d l IH]; intros t Hok; [reflexivity|].
  cbn. rewrite <- (Nat.add_0_r t) at 1. rewrite (Hok 0) by (cbn; lia).
  f_equal. apply IH. intros j Hj. rewrite Nat.add_succ_comm.
  apply Hok. cbn. lia.
Qed.

(** ** A symbol without an Asset row *)

Lemma select_asset_id_none symbol t :
  no_asset_row symbol t → select_asset_id symbol t = None.
Proof.
  intros Hno. unfold select_asset_id, select_asset.
  destruct (filter _ _) as [|a l] eqn:Hfil; [reflexivity|].
  assert (a ∈ filter (λ a, a_symbol a = symbol) (t_Asset t)) as Hin
    by (rewrite Hfil; left).
  apply list_elem_of_filter in Hin as [Hsym Hin].
  by destruct (Hno a Hin).
Qed.

Lemma update_stock_data_unknown w symbol data_points s :
  no_asset_row symbol (saved s) →
  ∃ s', FetchDailyWal.update_stock_data w symbol data_points s = (Ok 0, s')
        ∧ saved s' = saved s.
Proof.
  intros Hno. destruct data_points as [|dp dps]; [by eexists|].
  unfold FetchDailyWal.update_stock_data, try_except,
    FetchDailyWal.connect_with_wal, sqlite3_connect, get_asset_id,
    execute_query.
  run. destruct (exec_fault w (tick s)) as [e|]; [by eexists|].
  run. destruct (exec_fault w (S (tick s))) as [e|]; [by eexists|].
  run. destruct (exec_fault w (S (S (tick s)))) as [e|]; [by eexists|].
  run. destruct (exec_fault w (S (S (S (tick s))))) as [e|]; [by eexists|].
  run. rewrite (select_asset_id_none _ _ Hno). by eexists.
Qed.

Lemma fetch_and_update_stock_unknown w symbol s :
  no_asset_row symbol (tables s) →
  ∃ s', FetchDailySimple.fetch_and_update_stock w symbol s = (Ok 0, s')
        ∧ tables s' = tables s ∧ saved s' = saved s.
Proof.
  intros Hno.
  unfold FetchDailySimple.fetch_and_update_stock, try_except, get_asset_id,
    execute_query.
  rewrite !bind_run.
  destruct (exec_fault w (tick s)) as [e|]; [by eexists|].
  rewrite (select_asset_id_none _ _ Hno). by eexists.
Qed.

(** C10. For a symbol that has no Asset row, the daily-update writers
    insert nothing and create no Asset row: the tables are left as they
    were. [update_daily_data] returns 0 unless its lookup statement itself
    raises; [update_stock_data] of the WAL variant and
    [fetch_and_update_stock] of the simple variant, which catch every
    exception, always return 0. *)
Theorem unknown_symbol_returns_zero_store_unchanged
    w symbol data_points s :
  no_asset_row symbol (tables s) →
  no_asset_row symbol (saved s) →
  (∃ r s', FetchDailyData.update_daily_data w symbol data_points s = (r, s')
     ∧ tables s' = tables s ∧ saved s' = saved s
     ∧ (exec_fault w (tick s) = None → r = Ok 0)
     ∧ (∀ e, r = Raise e →
          data_points ≠ [] ∧ exec_fault w (tick s) = Some e))
  ∧ (∃ s', FetchDailyWal.update_stock_data w symbol data_points s = (Ok 0, s')
     ∧ saved s' = saved s)
  ∧ (∃ s', FetchDailySimple.fetch_and_update_stock w symbol s = (Ok 0, s')
     ∧ tables s' = tables s ∧ saved s' = saved s).
Proof.
  intros Hno Hno'. split; [|split].
  - rewrite update_daily_data_run.
    destruct data_points as [|dp dps].
    { exists (Ok 0), s. by split_and!. }
    destruct (exec_fault w (tick s)) as [e|] eqn:Hf.
    { exists (Raise e), (step_tick s). split_and!; try done.
      by intros e' [= <-]. }
    rewrite (select_asset_id_none _ _ Hno). cbn.
    eexists _, _. split_and!; done.
  - by apply update_stock_data_unknown.
  - by apply fetch_and_update_stock_unknown.
Qed.

(** ** The row writer under partial failure *)

(** C5. Once [update_daily_data] has resolved the symbol and read the
    stored dates, every new bar gets its own insert statement: a statement
    that raises is caught and printed with the symbol and the bar is
    skipped, the bars after it are still tried, the rows appended to
    PriceData are exactly those of the bars whose statement did not raise,
    in order, and the value returned is their number, which with the
    number of failures adds up to the number of new bars. *)
Theorem partial_failure_isolation w symbol data_points s :
  exec_fault w (tick s) = None →
  falsy (select_asset_id symbol (tables s)) = false →
  exec_fault w (S (tick s)) = None →
  let asset_id := resolved symbol (tables s) in
  let news := new_points asset_id data_points (tables s) in
  let t0 := S (S (tick s)) in
  ∃ added s',
    FetchDailyData.update_daily_data w symbol data_points s
      = (Ok (length added), s')
    ∧ t_PriceData (tables s') = t_PriceData (tables s) ++ added
    ∧ bar_of <$> added = succeeded w news t0
    ∧ Forall (λ p, p_assetId p = asset_id) added
    ∧ (∀ j dp, news !! j = Some dp → exec_fault w (t0 + j) = None →
         dp ∈ bar_of <$> added)
    ∧ (∀ j dp e, news !! j = Some dp → exec_fault w (t0 + j) = Some e →
         ErrInserting symbol e ∈ out s')
    ∧ length added + length (insert_errors w symbol news t0) = length news
    ∧ (news ≠ [] → out s' = out s ++ insert_errors w symbol news t0).
Proof.
  intros Hf1 Hfound Hf2 asset_id news t0.
  rewrite update_daily_data_run.
  destruct data_points as [|dp0 dps].
  { exists [], s. rewrite app_nil_r. by split_and!. }
  rewrite Hf1, Hfound, Hf2. cbn zeta.
  fold asset_id. fold news. fold t0.
  destruct news as [|n0 news'] eqn:Hnews.
  { eexists [], _. cbn. rewrite app_nil_r. by split_and!. }
  rewrite <- Hnews.
  eexists (inserted_rows w asset_id (now_ms w t0) news t0), _.
  split_and!; try done.
  - apply inserted_rows_bars.
  - eapply Forall_impl; [apply inserted_rows_asset|]. by intros p [? ?].
  - intros j dp Hj Hok. rewrite inserted_rows_bars.
    by eapply succeeded_lookup.
  - intros j dp e Hj Hfault. cbn. apply elem_of_app. right.
    by eapply insert_errors_lookup.
  - rewrite inserted_rows_length. apply succeeded_errors_length.
Qed.

(** Row 5 of a batch of 10 fails: 9 rows are stored and 9 is returned. *)
Example row_5_of_10_fails :
  let r := FetchDailyData.update_daily_data
             (one_fault 6 (Error "constraint failed")) "AAPL" ten_bars
             (fresh_state aapl_only) in
  r.1 = Ok 9
  ∧ p_date <$> t_PriceData (tables r.2)
    = ["2024-01-01 00:00:00"; "2024-01-02 00:00:00"; "2024-01-03 00:00:00";
       "2024-01-04 00:00:00"; "2024-01-06 00:00:00"; "2024-01-07 00:00:00";
       "2024-01-08 00:00:00"; "2024-01-09 00:00:00"; "2024-01-10 00:00:00"]
  ∧ out r.2 = [ErrInserting "AAPL" (Error "constraint failed")].
Proof. vm_compute. done. Qed.

(** ** fetch_and_update_stock in closed form *)

Lemma set_PriceData_nil t : set_PriceData (λ p, p ++ []) t = t.
Proof. destruct t. unfold set_PriceData. cbn. by rewrite app_nil_r. Qed.

Lemma set_PriceData_app l1 l2 t :
  set_PriceData (λ p, p ++ l2) (set_PriceData (λ p, p ++ l1) t)
  = set_PriceData (λ p, p ++ (l1 ++ l2)) t.
Proof. unfold set_PriceData. cbn. by rewrite app_assoc. Qed.

Lemma insert_rows_run w asset_id timestamp existing rows : ∀ k s,
  FetchDailySimple.insert_rows w asset_id timestamp existing rows k s =
  let l := data_point_of <$> kept_rows existing rows in
  (Ok (k + length (inserted_rows w asset_id timestamp l (tick s))),
   mkSt (set_PriceData
           (λ p, p ++ inserted_rows w asset_id timestamp l (tick s))
           (tables s))
        (saved s) (tick s + length l) (slept s)
        (out s ++ date_errors w l (tick s)) (counters s)).
Proof.
  induction rows as [|row rows IH]; intros k s.
  - cbn. rewrite set_PriceData_nil, app_nil_r, !Nat.add_0_r.
    by destruct s.
  - cbn [FetchDailySimple.insert_rows]. unfold kept_rows.
    rewrite filter_cons. fold (kept_rows existing rows).
    case_bool_decide as Hdup.
    { rewrite decide_False by (intros [? ?]; done). apply IH. }
    destruct (decide (complete row)) as [Hc|Hc].
    2:{ rewrite decide_False by (intros [? ?]; done).
        unfold complete in Hc. apply not_false_is_true in Hc.
        rewrite Hc. apply IH. }
    rewrite decide_True by done. unfold complete in Hc. rewrite Hc.
    rewrite bind_run.
    unfold try_except, generate_price_data_id, insert_PriceData,
      execute_update.
    rewrite !bind_run.
    cbn [fmap list_fmap inserted_rows date_errors length].
    destruct (exec_fault w (tick s)) as [e|] eqn:Hf.
    + unfold print. rewrite bind_run, ret_run, IH. cbn.
      by rewrite <- app_assoc, Nat.add_succ_r.
    + rewrite !ret_run, IH. cbn. unfold set_PriceData. cbn.
      by rewrite <- app_assoc, !Nat.add_succ_r.
Qed.

Lemma fetch_and_update_stock_run w symbol s :
  FetchDailySimple.fetch_and_update_stock w symbol s =
  match exec_fault w (tick s) with
  | Some e => (Ok 0, say (ErrFailedToProcess symbol e) (step_tick s))
  | None =>
    if falsy (select_asset_id symbol (tables s)) then
      (Ok 0, say (WarnAssetNotFound symbol) (step_tick s))
    else
      match history w symbol with
      | HistRaises e => (Ok 0, say (ErrFailedToProcess symbol e) (step_tick s))
      | Hist [] => (Ok 0, say (WarnNoDataAvailable symbol) (step_tick s))
      | Hist rows =>
        match exec_fault w (S (tick s)) with
        | Some e =>
          (Ok 0, say (ErrFailedToProcess symbol e) (step_tick (step_tick s)))
        | None =>
          let asset_id := resolved symbol (tables s) in
          let existing : gset string :=
            list_to_set (select_dates asset_id (tables s)) in
          let l := data_point_of <$> kept_rows existing rows in
          let t0 := S (S (tick s)) in
          let added := inserted_rows w asset_id (now_ms w t0) l t0 in
          (Ok (length added),
           mkSt (set_PriceData (λ p, p ++ added) (tables s)) (saved s)
                (t0 + length l) (slept s)
                (out s ++ date_errors w l t0 ++
                 [if bool_decide (0 < length added)
                  then SuccessAdded (length added) else InfoNoNewData])
                (counters s))
        end
      end
  end.
Proof.
  unfold FetchDailySimple.fetch_and_update_stock, try_except, get_asset_id,
    execute_query.
  run. destruct (exec_fault w (tick s)) as [e|] eqn:Hf; [reflexivity|].
  destruct (falsy (select_asset_id symbol (tables s))) eqn:Hfalsy;
    [reflexivity|].
  destruct (history w symbol) as [e|[|row rows]]; [reflexivity..|].
  run. destruct (exec_fault w (S (tick s))) as [e|] eqn:Hf2; [reflexivity|].
  unfold timestamp_ms. run. rewrite insert_rows_run. cbn zeta.
  run. fold (resolved symbol (tables s)).
  generalize (kept_rows
    (list_to_set (select_dates (resolved symbol (tables s)) (tables s)))
    (row :: rows)).
  intros kept. cbn [Nat.add].
  case_bool_decide; unfold print; run; by rewrite <- app_assoc.
Qed.

(** ** No repeated date per asset *)

Lemma select_dates_app asset_id added t :
  select_dates asset_id (set_PriceData (λ p, p ++ added) t) =
  select_dates asset_id t
  ++ (p_date <$> filter (λ p, p_assetId p = asset_id) added).
Proof.
  unfold select_dates, set_PriceData. cbn.
  by rewrite filter_app, fmap_app.
Qed.

Lemma inserted_rows_dates w asset_id timestamp l t0 :
  p_date <$> inserted_rows w asset_id timestamp l t0
  = dp_date <$> succeeded w l t0.
Proof.
  rewrite <- (inserted_rows_bars w asset_id timestamp), <- list_fmap_compose.
  by apply list_fmap_ext.
Qed.

Lemma filter_all {A} (P : A → Prop) `{!∀ x, Decision (P x)} (l : list A) :
  Forall P l → filter P l = l.
Proof.
  induction 1 as [|x l Hx _ IH]; [done|].
  by rewrite filter_cons_True, IH.
Qed.

Lemma filter_none {A} (P : A → Prop) `{!∀ x, Decision (P x)} (l : list A) :
  Forall (λ x, ¬ P x) l → filter P l = [].
Proof.
  induction 1 as [|x l Hx _ IH]; [done|].
  by rewrite filter_cons_False.
Qed.

Lemma filter_same_asset w asset_id timestamp l t0 :
  filter (λ p, p_assetId p = asset_id)
         (inserted_rows w asset_id timestamp l t0)
  = inserted_rows w asset_id timestamp l t0.
Proof.
  apply filter_all. eapply Forall_impl; [apply inserted_rows_asset|].
  by intros p [? ?].
Qed.

Lemma filter_other_asset w asset_id other timestamp l t0 :
  other ≠ asset_id →
  filter (λ p, p_assetId p = other)
         (inserted_rows w asset_id timestamp l t0) = [].
Proof.
  intros Hne. apply filter_none.
  eapply Forall_impl; [apply inserted_rows_asset|].
  intros p [? ?]. congruence.
Qed.

(** Rows appended for bars that are new and pairwise distinct in date
    keep the dates of every asset free of repetition. *)
Lemma append_keeps_dates_unique w asset_id timestamp l t0 t :
  no_repeated_dates t →
  NoDup (dp_date <$> l) →
  Forall (λ dp, dp_date dp ∉ select_dates asset_id t) l →
  no_repeated_dates
    (set_PriceData (λ p, p ++ inserted_rows w asset_id timestamp l t0) t).
Proof.
  intros Hinv Hnodup Hnew other. rewrite select_dates_app.
  destruct (decide (other = asset_id)) as [->|Hne].
  - rewrite filter_same_asset, inserted_rows_dates.
    pose proof (succeeded_sublist w l t0) as Hsub.
    apply NoDup_app. split_and!.
    + apply Hinv.
    + intros d Hd Hd'. apply list_elem_of_fmap in Hd' as (dp & -> & Hdp).
      rewrite Forall_forall in Hnew. apply (Hnew dp); [|done].
      by eapply elem_of_sublist.
    + eapply sublist_NoDup; [done|by apply fmap_sublist].
  - rewrite filter_other_asset by done. rewrite app_nil_r. apply Hinv.
Qed.

Lemma appended_rows_are_new w asset_id timestamp l t0 t :
  Forall (λ dp, dp_date dp ∉ select_dates asset_id t) l →
  Forall (λ p, p_date p ∉ select_dates (p_assetId p) t)
         (inserted_rows w asset_id timestamp l t0).
Proof.
  intros Hnew. apply Forall_forall. intros p Hp.
  pose proof (inserted_rows_asset w asset_id timestamp l t0) as Has.
  rewrite Forall_forall in Has. destruct (Has p Hp) as [-> _].
  assert (bar_of p ∈ succeeded w l t0) as Hbar.
  { rewrite <- (inserted_rows_bars w asset_id timestamp). by apply list_elem_of_fmap_2. }
  rewrite Forall_forall in Hnew.
  apply (Hnew (bar_of p)).
  eapply elem_of_sublist; [done|apply succeeded_sublist].
Qed.

Lemma new_points_are_new asset_id data_points t :
  Forall (λ dp, dp_date dp ∉ select_dates asset_id t)
         (new_points asset_id data_points t).
Proof.
  apply Forall_forall. intros dp Hdp.
  apply list_elem_of_filter in Hdp as [Hnew _].
  by rewrite elem_of_list_to_set in Hnew.
Qed.

Lemma kept_rows_are_new asset_id rows t :
  Forall (λ dp, dp_date dp ∉ select_dates asset_id t)
         (data_point_of <$>
            kept_rows (list_to_set (select_dates asset_id t)) rows).
Proof.
  apply Forall_fmap, Forall_forall. intros row Hrow.
  apply list_elem_of_filter in Hrow as [[Hnew _] _].
  by rewrite elem_of_list_to_set in Hnew.
Qed.

Lemma kept_rows_sublist existing rows :
  data_point_of <$> kept_rows existing rows
    `sublist_of` data_point_of <$> filter complete rows.
Proof.
  apply fmap_sublist. unfold kept_rows.
  rewrite <- (list_filter_filter (λ row, Date row ∉ existing) complete).
  apply sublist_filter.
Qed.

Lemma run_bars_dates r : dp_date <$> run_bars r `sublist_of` run_dates r.
Proof.
  destruct r as [symbol data_points|symbol [e|rows]]; cbn; [done..|].
  rewrite <- list_fmap_compose. apply (fmap_sublist Date), sublist_filter.
Qed.

(** What a run leaves behind: the rows of some of its bars, all of them
    new for the resolved asset, appended to PriceData. *)
Lemma ingestion_run_shape w r s :
  saved (ingestion_run w r s) = saved s
  ∧ ∃ w' asset_id timestamp l t0,
      tables (ingestion_run w r s) =
        set_PriceData (λ p, p ++ inserted_rows w' asset_id timestamp l t0)
                      (tables s)
      ∧ Forall (λ dp, dp_date dp ∉ select_dates asset_id (tables s)) l
      ∧ l `sublist_of` run_bars r.
Proof.
  assert (∀ s' : St, saved s' = saved s → tables s' = tables s →
    saved s' = saved s
    ∧ ∃ w' asset_id timestamp l t0,
      tables s' =
        set_PriceData (λ p, p ++ inserted_rows w' asset_id timestamp l t0)
                      (tables s)
      ∧ Forall (λ dp, dp_date dp ∉ select_dates asset_id (tables s)) l
      ∧ l `sublist_of` run_bars r) as Hsame.
  { intros s' Hsaved Htables. split; [done|].
    exists w, "", 0%Z, [], 0. cbn. rewrite set_PriceData_nil.
    split_and!; [done|constructor|apply sublist_nil_l]. }
  destruct r as [symbol data_points|symbol answer]; cbn [ingestion_run].
  - rewrite update_daily_data_run.
    destruct data_points as [|dp0 dps]; [by apply Hsame|].
    destruct (exec_fault w (tick s)); [by apply Hsame|].
    destruct (falsy _); [by apply Hsame|].
    destruct (exec_fault w (S (tick s))); [by apply Hsame|].
    cbn zeta.
    destruct (new_points _ _ _) as [|n0 news] eqn:Hnew; [by apply Hsame|].
    rewrite <- Hnew. split; [done|].
    eexists w, _, _, _, _. split_and!; [done|apply new_points_are_new|].
    cbn [run_bars]. apply sublist_filter.
  - rewrite fetch_and_update_stock_run. cbn [with_history exec_fault history].
    destruct (exec_fault w (tick s)); [by apply Hsame|].
    destruct (falsy _); [by apply Hsame|].
    destruct answer as [e|[|row rows]]; [by apply Hsame..|].
    destruct (exec_fault w (S (tick s))); [by apply Hsame|].
    cbn zeta. split; [done|].
    eexists _, _, _, _, _. split_and!; [done|apply kept_rows_are_new|].
    cbn [run_bars]. apply kept_rows_sublist.
Qed.

(** ** C1: the stored dates of an asset *)

(** C1, as the code has it. Whatever the batch, every row a
    skip-on-duplicate run appends carries a date that was not stored for
    its asset when the run began: a bar whose date already exists is
    filtered out. The filter reads the stored dates once, before the
    batch, so the dates of an asset stay free of repetition over any
    number of runs provided no batch repeats a date within itself. *)
Theorem skip_on_duplicate_keeps_dates_unique w :
  (∀ r s, ∃ added,
     t_PriceData (tables (ingestion_run w r s))
       = t_PriceData (tables s) ++ added
     ∧ Forall (λ p, p_date p ∉ select_dates (p_assetId p) (tables s)) added)
  ∧ (∀ runs s,
       no_repeated_dates (tables s) →
       Forall (λ r, NoDup (run_dates r)) runs →
       no_repeated_dates (tables (ingestion_runs w runs s))).
Proof.
  split.
  - intros r s.
    destruct (ingestion_run_shape w r s)
      as (_ & w' & asset_id & ts & l & t0 & Htab & Hnew & _).
    exists (inserted_rows w' asset_id ts l t0). rewrite Htab.
    split; [done|]. by apply appended_rows_are_new.
  - intros runs. induction runs as [|r runs IH]; intros s Hinv Hruns; [done|].
    apply Forall_cons in Hruns as [Hr Hruns].
    cbn. apply IH; [|done].
    destruct (ingestion_run_shape w r s)
      as (_ & w' & asset_id & ts & l & t0 & Htab & Hnew & Hsub).
    rewrite Htab. apply append_keeps_dates_unique; [done| |done].
    eapply sublist_NoDup; [done|].
    etrans; [by apply fmap_sublist|apply run_bars_dates].
Qed.

(** C1 as stated fails: a batch that carries the same date twice passes
    the filter twice, and one run stores two rows for (AAPL, 2024-01-02). *)
Lemma repeated_date_within_a_batch :
  no_repeated_dates (tables (fresh_state aapl_only))
  ∧ ¬ no_repeated_dates
        (tables (ingestion_runs calm
                   [UpdateDailyData "AAPL" [sample_bar jan_2; sample_bar jan_2]]
                   (fresh_state aapl_only))).
Proof.
  split.
  - intros asset_id. constructor.
  - intros Hinv. specialize (Hinv "cmfuzaapl").
    vm_compute in Hinv. apply NoDup_cons in Hinv as [Hin _].
    apply Hin. left.
Qed.

(** ** C2: running the same batch again *)

Lemma select_asset_id_set_PriceData symbol f t :
  select_asset_id symbol (set_PriceData f t) = select_asset_id symbol t.
Proof. reflexivity. Qed.

(** A call on a batch whose dates are all stored already inserts
    nothing. *)
Lemma update_nothing_new w symbol data_points s :
  (falsy (select_asset_id symbol (tables s)) = false →
   ∀ dp, dp ∈ data_points →
     dp_date dp ∈ select_dates (resolved symbol (tables s)) (tables s)) →
  ∃ r s', FetchDailyData.update_daily_data w symbol data_points s = (r, s')
    ∧ tables s' = tables s ∧ saved s' = saved s
    ∧ (r = Ok 0
       ∨ ∃ e, r = Raise e
           ∧ (exec_fault w (tick s) = Some e
              ∨ exec_fault w (S (tick s)) = Some e)).
Proof.
  intros Hstored. rewrite update_daily_data_run.
  destruct data_points as [|dp0 dps]; [by eexists _, _; split_and!; [..|left]|].
  destruct (exec_fault w (tick s)) as [e|] eqn:Hf1.
  { eexists _, _. split_and!; [done..|]. right. eauto. }
  destruct (falsy _) eqn:Hfalsy.
  { eexists _, _. split_and!; [done..|]. by left. }
  destruct (exec_fault w (S (tick s))) as [e|] eqn:Hf2.
  { eexists _, _. split_and!; [done..|]. right. eauto. }
  cbn zeta.
  assert (new_points (resolved symbol (tables s)) (dp0 :: dps) (tables s) = [])
    as ->.
  { apply filter_none, Forall_forall. intros dp Hdp Hnew. apply Hnew.
    apply elem_of_list_to_set. by apply Hstored. }
  eexists _, _. split_and!; [done..|]. by left.
Qed.

(** C2, as the code has it. When no statement of the first call raised,
    a second call with the same batch on the state the first one left
    inserts no row, so the row count stays what it was after one run, and
    it returns 0, unless one of its own two lookups raises. *)
Theorem second_run_inserts_nothing w symbol data_points s n s1 :
  FetchDailyData.update_daily_data w symbol data_points s = (Ok n, s1) →
  (∀ k, tick s ≤ k < tick s1 → exec_fault w k = None) →
  ∃ r s2,
    FetchDailyData.update_daily_data w symbol data_points s1 = (r, s2)
    ∧ tables s2 = tables s1 ∧ saved s2 = saved s1
    ∧ length (t_PriceData (tables s2)) = length (t_PriceData (tables s1))
    ∧ (r = Ok 0
       ∨ ∃ e, r = Raise e
           ∧ (exec_fault w (tick s1) = Some e
              ∨ exec_fault w (S (tick s1)) = Some e)).
Proof.
  intros Hfirst Hcalm.
  cut (falsy (select_asset_id symbol (tables s1)) = false →
       ∀ dp, dp ∈ data_points →
         dp_date dp ∈ select_dates (resolved symbol (tables s1)) (tables s1)).
  { intros Hstored.
    destruct (update_nothing_new w symbol data_points s1 Hstored)
      as (r & s2 & Hrun & Htab & Hsaved & Hres).
    exists r, s2. split_and!; try done. by rewrite Htab. }
  rewrite update_daily_data_run in Hfirst.
  destruct data_points as [|dp0 dps]; [by intros _ dp Hdp; inv Hdp|].
  destruct (exec_fault w (tick s)) as [e|] eqn:Hf1; [done|].
  destruct (falsy (select_asset_id symbol (tables s))) eqn:Hfalsy.
  { injection Hfirst as _ <-. cbn. by rewrite Hfalsy. }
  destruct (exec_fault w (S (tick s))) as [e|] eqn:Hf2; [done|].
  cbn zeta in Hfirst.
  set (asset_id := resolved symbol (tables s)) in *.
  destruct (new_points asset_id (dp0 :: dps) (tables s))
    as [|n0 news] eqn:Hnew.
  - injection Hfirst as _ <-. cbn. intros _ dp Hdp.
    destruct (decide (dp_date dp ∈ select_dates asset_id (tables s)))
      as [|Hnot]; [done|].
    assert (dp ∈ new_points asset_id (dp0 :: dps) (tables s)) as Hin.
    { apply list_elem_of_filter. split; [|done].
      by rewrite elem_of_list_to_set. }
    rewrite Hnew in Hin. inv Hin.
  - rewrite <- Hnew in Hfirst. injection Hfirst as _ <-.
    cbn [tables tick] in *. intros _ dp Hdp.
    unfold resolved. rewrite select_asset_id_set_PriceData.
    fold (resolved symbol (tables s)). fold asset_id.
    rewrite select_dates_app, filter_same_asset, inserted_rows_dates.
    rewrite succeeded_all.
    2:{ intros j Hj. apply Hcalm. lia. }
    apply elem_of_app.
    destruct (decide (dp_date dp ∈ select_dates asset_id (tables s)))
      as [|Hnot]; [by left|right].
    apply list_elem_of_fmap_2, list_elem_of_filter. split; [|done].
    by rewrite elem_of_list_to_set.
Qed.

(** C2 as stated fails: the insert of the first run raises and is
    skipped, so the date is still absent and the second run inserts the
    row: it returns 1, and the table grows from 0 rows to 1. *)
Lemma second_run_inserts_after_a_failed_insert :
  (FetchDailyData.update_daily_data (one_fault 2 locked) "AAPL"
     [sample_bar jan_2] (fresh_state aapl_only)).1 = Ok 0
  ∧ length (t_PriceData (tables after_first_run)) = 0
  ∧ (FetchDailyData.update_daily_data (one_fault 2 locked) "AAPL"
       [sample_bar jan_2] after_first_run).1 = Ok 1
  ∧ length (t_PriceData
              (tables (FetchDailyData.update_daily_data (one_fault 2 locked)
                         "AAPL" [sample_bar jan_2] after_first_run).2)) = 1.
Proof. vm_compute. done. Qed.

(** ** The fetcher and the driver loop of fetch_daily_data.py *)

Lemma collect_data_points_spec rows : ∀ data_points,
  FetchDailyData.collect_data_points rows data_points
  = data_points ++ (data_point_of <$> filter complete rows).
Proof.
  induction rows as [|row rows IH]; intros acc;
    cbn [FetchDailyData.collect_data_points].
  - cbn. by rewrite app_nil_r.
  - rewrite filter_cons.
    destruct (decide (complete row)) as [Hc|Hc]; unfold complete in Hc.
    + rewrite Hc, IH, <- app_assoc. done.
    + apply not_false_is_true in Hc. rewrite Hc. apply IH.
Qed.

Lemma fetch_daily_data_for_symbol_run w symbol s :
  FetchDailyData.fetch_daily_data_for_symbol w symbol s =
  match history w symbol with
  | HistRaises e => (Ok [], say (ErrFetching symbol e) s)
  | Hist [] => (Ok [], say (WarnNoDataAvailable symbol) s)
  | Hist rows => (Ok (data_point_of <$> filter complete rows), s)
  end.
Proof.
  unfold FetchDailyData.fetch_daily_data_for_symbol, try_except.
  destruct (history w symbol) as [e|[|row rows]]; [reflexivity..|].
  rewrite ret_run. by rewrite collect_data_points_spec.
Qed.

Lemma fetch_daily_data_for_symbol_fetched w symbol s :
  ∃ s', FetchDailyData.fetch_daily_data_for_symbol w symbol s
          = (Ok (fetched w symbol), s')
        ∧ tables s' = tables s ∧ saved s' = saved s ∧ tick s' = tick s
        ∧ counters s' = counters s ∧ slept s' = slept s
        ∧ ∃ msgs, out s' = out s ++ msgs.
Proof.
  rewrite fetch_daily_data_for_symbol_run. unfold fetched.
  destruct (history w symbol) as [e|[|row rows]];
    eexists; split_and!; try done; try by eexists [_].
  exists []. by rewrite app_nil_r.
Qed.

Lemma update_daily_data_frame w symbol data_points s :
  ∃ r s', FetchDailyData.update_daily_data w symbol data_points s = (r, s')
    ∧ counters s' = counters s ∧ saved s' = saved s ∧ slept s' = slept s
    ∧ (∀ e, r = Raise e → tables s' = tables s).
Proof.
  rewrite update_daily_data_run.
  destruct data_points as [|dp0 dps]; [by eexists _, _|].
  destruct (exec_fault w (tick s)); [by eexists _, _|].
  destruct (falsy _); [by eexists _, _|].
  destruct (exec_fault w (S (tick s))); [by eexists _, _|].
  cbn zeta. destruct (new_points _ _ _); by eexists _, _.
Qed.

Lemma print_run m s : print m s = (Ok tt, say m s).
Proof. reflexivity. Qed.

Lemma add_failed_run s :
  add_failed s
  = (Ok tt, with_counters
              (λ c, mkCounters (total_inserted c) (successful_updates c)
                               (S (failed_updates c))) s).
Proof. reflexivity. Qed.

Lemma add_successful_run s :
  add_successful s
  = (Ok tt, with_counters
              (λ c, mkCounters (total_inserted c) (S (successful_updates c))
                               (failed_updates c)) s).
Proof. reflexivity. Qed.

Lemma add_inserted_run n s :
  add_inserted n s
  = (Ok tt, with_counters
              (λ c, mkCounters (total_inserted c + n) (successful_updates c)
                               (failed_updates c)) s).
Proof. reflexivity. Qed.

Lemma commit_run s :
  commit s
  = (Ok tt, mkSt (tables s) (tables s) (tick s) (slept s) (out s)
                 (counters s)).
Proof. reflexivity. Qed.

Ltac run_driver :=
  repeat progress
    (rewrite ?bind_run, ?ret_run, ?print_run, ?add_failed_run,
       ?add_successful_run, ?add_inserted_run, ?commit_run;
     cbv beta iota zeta).

(** The [try] block of one turn takes one of three courses: nothing
    fetched, the batch written, or an exception out of
    [update_daily_data]. *)
Lemma symbol_body_cases w n i symbol s :
  (fetched w symbol = []
   ∧ ∃ s', FetchDailyData.symbol_body w i symbol
              (say (Processing i n symbol) s) = (Ok tt, s')
        ∧ counters s' = one_more_failed (counters s)
        ∧ tables s' = tables s
        ∧ WarnNoDataReceived ∈ out s')
  ∨ (∃ inserted s2 s',
       fetched w symbol ≠ []
       ∧ FetchDailyData.update_daily_data w symbol (fetched w symbol)
           (at_update w n i symbol s) = (Ok inserted, s2)
       ∧ FetchDailyData.symbol_body w i symbol
           (say (Processing i n symbol) s) = (Ok tt, s')
       ∧ counters s' = one_more_successful inserted (counters s)
       ∧ tables s' = tables s2)
  ∨ (∃ e s2,
       fetched w symbol ≠ []
       ∧ FetchDailyData.update_daily_data w symbol (fetched w symbol)
           (at_update w n i symbol s) = (Raise e, s2)
       ∧ FetchDailyData.symbol_body w i symbol
           (say (Processing i n symbol) s) = (Raise e, s2)
       ∧ counters s2 = counters s
       ∧ tables s2 = tables s).
Proof.
  unfold at_update, FetchDailyData.symbol_body.
  run_driver.
  destruct (fetch_daily_data_for_symbol_fetched w symbol
              (say (Processing i n symbol) s))
    as (s1 & Hfetch & Htab & Hsaved & Htick & Hcnt & _ & _).
  rewrite Hfetch. cbn [snd]. run_driver.
  destruct (fetched w symbol) as [|dp0 dps] eqn:Hfetched.
  - left. split; [done|]. run_driver.
    case_bool_decide; run_driver; eexists;
      (split_and!; try done; cbn; try by rewrite ?Hcnt, ?Htab);
      rewrite !elem_of_app, !list_elem_of_singleton; auto.
  - right.
    destruct (update_daily_data_frame w symbol (dp0 :: dps) s1)
      as (r & s2 & Hup & Hcnt2 & _ & _ & Hraise).
    run_driver. rewrite Hup. destruct r as [inserted|e]; run_driver.
    + left. exists inserted, s2.
      case_bool_decide; run_driver; case_bool_decide; run_driver;
        eexists; (split_and!; try done); cbn; by rewrite Hcnt2, Hcnt.
    + right. exists e, s2. split_and!; try done.
      * by rewrite Hcnt2, Hcnt.
      * by rewrite (Hraise e), Htab.
Qed.

Lemma process_symbol_run w n i symbol s :
  FetchDailyData.process_symbol w n i symbol s =
  match FetchDailyData.symbol_body w i symbol (say (Processing i n symbol) s)
  with
  | (Ok _, s') => (Ok tt, s')
  | (Raise e, s2) =>
      (Ok tt, with_counters one_more_failed
                (say (ErrFailedToProcess symbol e) s2))
  end.
Proof.
  unfold FetchDailyData.process_symbol, try_except. run_driver.
  destruct (FetchDailyData.symbol_body _ _ _ _) as [[[]|e] s']; by run_driver.
Qed.

(** ** C7: one symbol's failure does not stop the run *)











(** With no commit raising this is the loop of [FetchDailyData]. *)
Lemma commits_succeed_process_symbols w n symbols : ∀ i s,
  FetchDailyDataCommits.process_symbols w commits_succeed n i symbols s
  = FetchDailyData.process_symbols w n i symbols s.
Proof.
  induction symbols as [|symbol symbols IH]; intros i s; [reflexivity|].
  cbn [FetchDailyDataCommits.process_symbols FetchDailyData.process_symbols].
  rewrite !bind_run.
  change (FetchDailyDataCommits.process_symbol w commits_succeed n i symbol s)
    with (FetchDailyData.process_symbol w n i symbol s).
  destruct (FetchDailyData.process_symbol w n i symbol s) as [[[]|e] s1];
    [apply IH|done].
Qed.

Lemma commits_succeed_main w s :
  FetchDailyDataCommits.main w commits_succeed None s
  = FetchDailyData.main w s.
Proof.
  unfold FetchDailyDataCommits.main, FetchDailyData.main.
  destruct (sqlite3_connect w s) as [[[]|e] s1]; [|done].
  unfold try_except. rewrite !bind_run.
  destruct (FetchDailyData.get_all_stock_symbols w s1) as [[symbols|e] s2];
    [|done].
  rewrite !bind_run. destruct (print _ s2) as [[[]|e] s3]; [|done].
  destruct symbols as [|symbol symbols]; [done|].
  rewrite !bind_run. destruct (reset_counters s3) as [[[]|e] s4]; [|done].
  rewrite !bind_run, commits_succeed_process_symbols.
  destruct (FetchDailyData.process_symbols _ _ _ _ _) as [[[]|e] s5]; done.
Qed.




(** The universe [A, B, C] where processing B raises: the rows of A and C
    are committed and the summary reports exactly one failure. *)
Example b_raises_a_and_c_are_ingested :
  (FetchDailyData.main (fault_at 6) (fresh_state abc)).1 = Ok tt
  ∧ (λ p, (p_assetId p, p_date p)) <$>
      t_PriceData (saved (FetchDailyData.main (fault_at 6) (fresh_state abc)).2)
    = [("cmfuzA", jan_2); ("cmfuzA", jan_3);
       ("cmfuzC", jan_2); ("cmfuzC", jan_3)]
  ∧ ErrFailedToProcess "B" locked
      ∈ out (FetchDailyData.main (fault_at 6) (fresh_state abc)).2
  ∧ Summary 3 2 1 4
      ∈ out (FetchDailyData.main (fault_at 6) (fresh_state abc)).2
  ∧ (FetchDailyData.main provider_down_for_B (fresh_state abc)).1 = Ok tt
  ∧ (λ p, (p_assetId p, p_date p)) <$>
      t_PriceData
        (saved (FetchDailyData.main provider_down_for_B (fresh_state abc)).2)
    = [("cmfuzA", jan_2); ("cmfuzA", jan_3);
       ("cmfuzC", jan_2); ("cmfuzC", jan_3)]
  ∧ Summary 3 2 1 4
      ∈ out (FetchDailyData.main provider_down_for_B (fresh_state abc)).2.
Proof.
  split_and!; try (vm_compute; reflexivity);
    apply (bool_decide_unpack _); vm_compute; exact I.
Qed.

(** ** C8: an empty answer and a failed call of the provider *)



(** ** C4: bars with missing values *)

Lemma fetched_provided w symbol :
  fetched w symbol = data_point_of <$> filter complete (provided w symbol).
Proof. unfold fetched, provided. by destruct (history w symbol). Qed.

Lemma inserted_from_complete w asset_id timestamp l t0 rows :
  l `sublist_of` data_point_of <$> filter complete rows →
  Forall (from_complete_row rows) (inserted_rows w asset_id timestamp l t0).
Proof.
  intros Hsub. apply Forall_forall. intros p Hp.
  assert (bar_of p ∈ succeeded w l t0) as Hbar.
  { rewrite <- (inserted_rows_bars w asset_id timestamp).
    by apply list_elem_of_fmap_2. }
  eapply elem_of_sublist in Hbar; [|apply succeeded_sublist].
  eapply elem_of_sublist in Hbar; [|done].
  apply list_elem_of_fmap in Hbar as (row & Hrow & Hin).
  apply list_elem_of_filter in Hin as [Hc Hin]. by exists row.
Qed.

Lemma complete_row_prices row :
  complete row →
  isna (dp_open (data_point_of row)) = false
  ∧ isna (dp_high (data_point_of row)) = false
  ∧ isna (dp_low (data_point_of row)) = false
  ∧ isna (dp_close (data_point_of row)) = false.
Proof.
  unfold complete, critical_nan. cbn. unfold float.
  destruct (isna (Open row)), (isna (Close row)), (isna (High row)),
    (isna (Low row)); done.
Qed.

Lemma at_update_tables w n i symbol s :
  tables (at_update w n i symbol s) = tables s.
Proof.
  unfold at_update.
  by destruct (fetch_daily_data_for_symbol_fetched w symbol
                 (say (Processing i n symbol) s)) as (s1 & -> & Htab & _).
Qed.

(** What one turn of the loop of fetch_daily_data.py appends. *)
Lemma process_symbol_appends w n i symbol s :
  ∃ w' asset_id timestamp l t0,
    tables (FetchDailyData.process_symbol w n i symbol s).2 =
      set_PriceData (λ p, p ++ inserted_rows w' asset_id timestamp l t0)
                    (tables s)
    ∧ l `sublist_of` fetched w symbol.
Proof.
  rewrite process_symbol_run.
  destruct (symbol_body_cases w n i symbol s)
    as [(_ & s' & -> & _ & Ht & _)|[(ins & s2 & s' & _ & Hup & -> & _ & Ht)
       |(e & s2 & _ & _ & -> & _ & Ht)]]; cbn [snd tables with_counters say].
  - exists w, "", 0%Z, [], 0. rewrite Ht, set_PriceData_nil.
    split; [done|apply sublist_nil_l].
  - destruct (ingestion_run_shape w
                (UpdateDailyData symbol (fetched w symbol))
                (at_update w n i symbol s))
      as (_ & w' & asset_id & ts & l & t0 & Htab & _ & Hsub).
    cbn [ingestion_run] in Htab. rewrite Hup in Htab. cbn [snd] in Htab.
    exists w', asset_id, ts, l, t0.
    by rewrite Ht, Htab, at_update_tables.
  - exists w, "", 0%Z, [], 0. rewrite Ht, set_PriceData_nil.
    split; [done|apply sublist_nil_l].
Qed.

Lemma update_daily_data_stores_all w symbol data_points s :
  (∀ k, exec_fault w k = None) →
  falsy (select_asset_id symbol (tables s)) = false →
  ∃ n s' added,
    FetchDailyData.update_daily_data w symbol data_points s = (Ok n, s')
    ∧ t_PriceData (tables s') = t_PriceData (tables s) ++ added
    ∧ bar_of <$> added
      = new_points (resolved symbol (tables s)) data_points (tables s).
Proof.
  intros Hcalm Hfound. rewrite update_daily_data_run.
  destruct data_points as [|dp0 dps].
  { exists 0, s, []. by rewrite app_nil_r. }
  rewrite !Hcalm, Hfound. cbn zeta.
  destruct (new_points _ _ _) as [|n0 news] eqn:Hnew.
  { eexists 0, _, []. cbn. by rewrite app_nil_r. }
  rewrite <- Hnew. eexists _, _, _. split_and!; [done..|].
  rewrite inserted_rows_bars. apply succeeded_all. intros; apply Hcalm.
Qed.

(** With no statement raising and the asset known, a turn stores every
    fetched bar that passes the duplicate filter. *)
Lemma process_symbol_stores_all w n i symbol s :
  (∀ k, exec_fault w k = None) →
  falsy (select_asset_id symbol (tables s)) = false →
  ∃ added,
    t_PriceData (tables (FetchDailyData.process_symbol w n i symbol s).2)
      = t_PriceData (tables s) ++ added
    ∧ bar_of <$> added
      = new_points (resolved symbol (tables s)) (fetched w symbol) (tables s).
Proof.
  intros Hcalm Hfound. rewrite process_symbol_run.
  pose proof (at_update_tables w n i symbol s) as Hat.
  rewrite <- Hat in Hfound.
  destruct (update_daily_data_stores_all w symbol (fetched w symbol)
              (at_update w n i symbol s) Hcalm Hfound)
    as (k & s3 & added & Hup3 & Htab3 & Hbars3).
  rewrite Hat in Htab3, Hbars3.
  destruct (symbol_body_cases w n i symbol s)
    as [(Hnone & s' & -> & _ & Ht & _)|[(ins & s2 & s' & _ & Hup & -> & _ & Ht)
       |(e & s2 & _ & Hup & _)]]; cbn [snd tables with_counters say].
  - exists []. rewrite Ht, Hnone, app_nil_r. done.
  - rewrite Hup in Hup3. injection Hup3 as _ ->.
    exists added. by rewrite Ht.
  - by rewrite Hup in Hup3.
Qed.

Lemma fetch_and_update_stock_appends w symbol s :
  ∃ asset_id timestamp l t0,
    tables (FetchDailySimple.fetch_and_update_stock w symbol s).2 =
      set_PriceData (λ p, p ++ inserted_rows w asset_id timestamp l t0)
                    (tables s)
    ∧ l `sublist_of` fetched w symbol.
Proof.
  rewrite fetch_and_update_stock_run, fetched_provided. unfold provided.
  assert (∀ rows, ∃ asset_id timestamp l t0,
    tables s =
      set_PriceData (λ p, p ++ inserted_rows w asset_id timestamp l t0)
                    (tables s)
    ∧ l `sublist_of` data_point_of <$> filter complete rows) as Hsame.
  { intros rows. exists "", 0%Z, [], 0. cbn. rewrite set_PriceData_nil.
    split; [done|apply sublist_nil_l]. }
  destruct (exec_fault w (tick s)); [apply Hsame|].
  destruct (falsy _); [apply Hsame|].
  destruct (history w symbol) as [e|[|row rows]]; [apply Hsame..|].
  destruct (exec_fault w (S (tick s))); [apply Hsame|].
  cbn zeta. eexists _, _, _, _. split; [done|]. apply kept_rows_sublist.
Qed.

Lemma fetch_and_update_stock_stores_all w symbol s :
  (∀ k, exec_fault w k = None) →
  falsy (select_asset_id symbol (tables s)) = false →
  ∃ added,
    t_PriceData (tables (FetchDailySimple.fetch_and_update_stock w symbol s).2)
      = t_PriceData (tables s) ++ added
    ∧ bar_of <$> added
      = data_point_of <$>
          kept_rows (list_to_set
                       (select_dates (resolved symbol (tables s)) (tables s)))
                    (provided w symbol).
Proof.
  intros Hcalm Hfound. rewrite fetch_and_update_stock_run.
  rewrite !Hcalm, Hfound. unfold provided.
  destruct (history w symbol) as [e|[|row rows]];
    [exists []; by rewrite app_nil_r..|].
  cbn zeta. generalize (kept_rows
    (list_to_set (select_dates (resolved symbol (tables s)) (tables s)))
    (row :: rows)).
  intros kept. eexists. split; [done|].
  rewrite inserted_rows_bars. apply succeeded_all. intros; apply Hcalm.
Qed.

(** C4, as the code has it, for the stock variants fetch_daily_data.py
    (a turn of the loop of [main]) and fetch_daily_simple.py
    ([fetch_and_update_stock]). Every row a call appends to PriceData
    carries the values of a raw row of the provider whose open, high, low
    and close are all present, so a bar with a missing price is never
    stored, and its volume is 0 when the raw volume is missing. When no
    statement raises and the asset is known, every raw row with its four
    prices present and a date not yet stored is stored, a missing volume
    included. *)
Theorem stock_variants_filter_nan w symbol s s' :
  (∃ n i, s' = (FetchDailyData.process_symbol w n i symbol s).2)
  ∨ s' = (FetchDailySimple.fetch_and_update_stock w symbol s).2 →
  ∃ added,
    t_PriceData (tables s') = t_PriceData (tables s) ++ added
    ∧ Forall (λ p,
        isna (p_open p) = false ∧ isna (p_high p) = false
        ∧ isna (p_low p) = false ∧ isna (p_close p) = false
        ∧ ∃ row, row ∈ provided w symbol ∧ complete row
                 ∧ bar_of p = data_point_of row
                 ∧ (isna (Volume row) = true → p_volume p = 0%Z)) added
    ∧ ((∀ k, exec_fault w k = None) →
       falsy (select_asset_id symbol (tables s)) = false →
       ∀ row, row ∈ provided w symbol → complete row →
         Date row ∉ select_dates (resolved symbol (tables s)) (tables s) →
         ∃ p, p ∈ added ∧ bar_of p = data_point_of row
              ∧ (isna (Volume row) = true → p_volume p = 0%Z)).
Proof.
  assert (∀ row p, bar_of p = data_point_of row →
            isna (Volume row) = true → p_volume p = 0%Z) as Hvol.
  { intros row p Hbar Hna. change (dp_volume (bar_of p) = 0%Z).
    rewrite Hbar. cbn. by destruct (Volume row). }
  assert (∀ w' asset_id ts l t0,
            l `sublist_of` fetched w symbol →
            Forall (λ p,
              isna (p_open p) = false ∧ isna (p_high p) = false
              ∧ isna (p_low p) = false ∧ isna (p_close p) = false
              ∧ ∃ row, row ∈ provided w symbol ∧ complete row
                       ∧ bar_of p = data_point_of row
                       ∧ (isna (Volume row) = true → p_volume p = 0%Z))
              (inserted_rows w' asset_id ts l t0)) as Hrows.
  { intros w' asset_id ts l t0 Hsub. rewrite fetched_provided in Hsub.
    eapply Forall_impl; [by apply inserted_from_complete|].
    intros p (row & Hin & Hc & Hbar).
    destruct (complete_row_prices row Hc) as (Ho & Hh & Hl & Hcl).
    rewrite <- Hbar in Ho, Hh, Hl, Hcl. split_and!; try done.
    exists row. split_and!; try done. by apply Hvol. }
  intros [(n & i & ->)| ->].
  - destruct (process_symbol_appends w n i symbol s)
      as (w' & asset_id & ts & l & t0 & Htab & Hsub).
    exists (inserted_rows w' asset_id ts l t0). rewrite Htab.
    split_and!; [done|by apply Hrows|].
    intros Hcalm Hfound row Hin Hc Hnew.
    destruct (process_symbol_stores_all w n i symbol s Hcalm Hfound)
      as (added & Heq & Hbars).
    rewrite Htab in Heq. apply app_inv_head in Heq. subst added.
    assert (data_point_of row
              ∈ bar_of <$> inserted_rows w' asset_id ts l t0) as Hp.
    { rewrite Hbars. apply list_elem_of_filter. split.
      - by rewrite elem_of_list_to_set.
      - rewrite fetched_provided. apply list_elem_of_fmap_2.
        by apply list_elem_of_filter. }
    apply list_elem_of_fmap in Hp as (p & Hbar & Hp).
    exists p. split_and!; [done|done|]. by apply Hvol.
  - destruct (fetch_and_update_stock_appends w symbol s)
      as (asset_id & ts & l & t0 & Htab & Hsub).
    exists (inserted_rows w asset_id ts l t0). rewrite Htab.
    split_and!; [done|by apply Hrows|].
    intros Hcalm Hfound row Hin Hc Hnew.
    destruct (fetch_and_update_stock_stores_all w symbol s Hcalm Hfound)
      as (added & Heq & Hbars).
    rewrite Htab in Heq. apply app_inv_head in Heq. subst added.
    assert (data_point_of row
              ∈ bar_of <$> inserted_rows w asset_id ts l t0) as Hp.
    { rewrite Hbars. apply list_elem_of_fmap_2, list_elem_of_filter.
      split; [|done]. split; [|done]. by rewrite elem_of_list_to_set. }
    apply list_elem_of_fmap in Hp as (p & Hbar & Hp).
    exists p. split_and!; [done|done|]. by apply Hvol.
Qed.

(** ** The crypto writer *)

Lemma set_CryptocurrencyPrice_compose f g t :
  set_CryptocurrencyPrice f (set_CryptocurrencyPrice g t)
  = set_CryptocurrencyPrice (λ l, f (g l)) t.
Proof. reflexivity. Qed.

Lemma set_CryptocurrencyPrice_id t : set_CryptocurrencyPrice (λ l, l) t = t.
Proof. by destruct t. Qed.

Lemma store_rows_all_run w crypto_info crypto_id rows : ∀ k s,
  FetchAllCryptoData.store_rows w crypto_info crypto_id rows k s
  = (Ok (k + crypto_count w rows (tick s)),
     after_store_rows w crypto_info crypto_id rows s).
Proof.
  induction rows as [|row rows IH]; intros k s.
  - cbn. unfold after_store_rows. cbn.
    rewrite set_CryptocurrencyPrice_id, app_nil_r, !Nat.add_0_r.
    by destruct s.
  - cbn [FetchAllCryptoData.store_rows].
    unfold generate_cuid, try_except, timestamp_ms, execute_update.
    rewrite !bind_run.
    destruct (exec_fault w (tick s)) as [e|] eqn:Hf.
    + rewrite bind_run, print_run, ret_run, IH.
      unfold after_store_rows. cbn. rewrite Hf.
      by rewrite <- app_assoc, !Nat.add_succ_r.
    + rewrite !ret_run, IH. unfold after_store_rows. cbn. rewrite Hf.
      by rewrite !Nat.add_succ_r.
Qed.

Lemma store_rows_run w crypto_info crypto_id rows : ∀ s,
  FetchCryptoData.store_rows w crypto_info crypto_id rows s
  = (Ok tt, after_store_rows w crypto_info crypto_id rows s).
Proof.
  induction rows as [|row rows IH]; intros s.
  - cbn. unfold after_store_rows. cbn.
    rewrite set_CryptocurrencyPrice_id, app_nil_r, !Nat.add_0_r.
    by destruct s.
  - cbn [FetchCryptoData.store_rows].
    unfold generate_cuid, try_except, timestamp_ms, execute_update.
    rewrite !bind_run.
    destruct (exec_fault w (tick s)) as [e|] eqn:Hf.
    + rewrite print_run, IH.
      unfold after_store_rows. cbn. rewrite Hf.
      by rewrite <- app_assoc, !Nat.add_succ_r.
    + rewrite IH. unfold after_store_rows. cbn. rewrite Hf.
      by rewrite !Nat.add_succ_r.
Qed.

Lemma fetch_and_store_all_run w crypto_info crypto_id s :
  FetchAllCryptoData.fetch_and_store_crypto_data w crypto_info crypto_id s =
  match history w (ci_symbol crypto_info) with
  | HistRaises e =>
      (Ok false,
       (rollback (say (ErrFetching (ci_symbol crypto_info) e) s)).2)
  | Hist [] => (Ok false, say (NoDataFor (ci_symbol crypto_info)) s)
  | Hist rows =>
      (Ok true,
       say (StoredDays (crypto_count w rows (tick s)) (ci_name crypto_info))
         (commit (after_store_rows w crypto_info crypto_id rows s)).2)
  end.
Proof.
  unfold FetchAllCryptoData.fetch_and_store_crypto_data, try_except.
  destruct (history w (ci_symbol crypto_info)) as [e|[|row rows]];
    [reflexivity..|].
  rewrite bind_run, store_rows_all_run. reflexivity.
Qed.

Lemma fetch_and_store_run w crypto_info crypto_id s :
  FetchCryptoData.fetch_and_store_crypto_data w crypto_info crypto_id s =
  match history w (ci_symbol crypto_info) with
  | HistRaises e =>
      (Ok tt, (rollback (say (ErrFetching (ci_symbol crypto_info) e) s)).2)
  | Hist [] => (Ok tt, say (NoDataFor (ci_symbol crypto_info)) s)
  | Hist rows =>
      (Ok tt,
       say (StoredDays (length rows) (ci_name crypto_info))
         (commit (after_store_rows w crypto_info crypto_id rows s)).2)
  end.
Proof.
  unfold FetchCryptoData.fetch_and_store_crypto_data, try_except.
  destruct (history w (ci_symbol crypto_info)) as [e|[|row rows]];
    [reflexivity..|].
  rewrite bind_run, store_rows_run. reflexivity.
Qed.

Lemma replace_same_key crypto_id date r tbl :
  has_key crypto_id date r →
  filter (has_key crypto_id date) (insert_or_replace r tbl) = [r].
Proof.
  intros [Hid Hdate]. unfold insert_or_replace.
  rewrite filter_app, filter_cons_True, filter_nil by done.
  rewrite filter_none; [done|].
  apply Forall_forall. intros old Hold [Hid' Hdate'].
  apply list_elem_of_filter in Hold as [Hno _]. apply Hno.
  split; congruence.
Qed.

Lemma replace_other_key crypto_id date r tbl :
  ¬ has_key crypto_id date r →
  filter (has_key crypto_id date) (insert_or_replace r tbl)
  = filter (has_key crypto_id date) tbl.
Proof.
  intros Hother. unfold insert_or_replace.
  rewrite filter_app, filter_cons_False, filter_nil, app_nil_r by done.
  induction tbl as [|old tbl IH]; [done|].
  rewrite (filter_cons (λ old, ¬ same_key r old)).
  destruct (decide (¬ same_key r old)) as [Hkeep|Hdrop].
  - rewrite !filter_cons, IH. done.
  - rewrite IH, filter_cons_False; [done|].
    intros [Hid Hdate]. apply Hdrop. intros [Hid' Hdate'].
    apply Hother. split; congruence.
Qed.

Lemma stored_crypto_app w crypto_id pre : ∀ post t tbl,
  stored_crypto w crypto_id (pre ++ post) t tbl
  = stored_crypto w crypto_id post (t + length pre)
      (stored_crypto w crypto_id pre t tbl).
Proof.
  induction pre as [|row pre IH]; intros post t tbl.
  - cbn. by rewrite Nat.add_0_r.
  - cbn. destruct (exec_fault w t); rewrite IH; by rewrite Nat.add_succ_comm.
Qed.

Lemma stored_crypto_other_dates w crypto_id date post : ∀ t tbl,
  date ∉ Date <$> post →
  filter (has_key crypto_id date) (stored_crypto w crypto_id post t tbl)
  = filter (has_key crypto_id date) tbl.
Proof.
  induction post as [|row post IH]; intros t tbl Hdate; [done|].
  cbn in *. apply not_elem_of_cons in Hdate as [Hne Hdate].
  destruct (exec_fault w t); rewrite IH by done; [done|].
  apply replace_other_key. intros [_ Hd]. cbn in Hd. congruence.
Qed.

(** C3. The crypto writer replaces: when the frame holds a bar for a date,
    its statement does not raise and no later bar of the frame has the
    same date, then after [fetch_and_store_crypto_data] exactly one
    CryptocurrencyPrice row exists for that cryptocurrency and date,
    whatever was stored for them before, and it carries the open, high,
    low, close and volume just fetched; the change is committed. Both
    scripts, fetch_all_crypto_data.py and fetch_crypto_data.py, leave the
    same tables. *)
Theorem crypto_reingest_replaces w crypto_info crypto_id s pre row post :
  history w (ci_symbol crypto_info) = Hist (pre ++ row :: post) →
  exec_fault w (tick s + length pre) = None →
  Date row ∉ Date <$> post →
  ∃ s' price_id created,
    FetchAllCryptoData.fetch_and_store_crypto_data w crypto_info crypto_id s
      = (Ok true, s')
    ∧ filter (has_key crypto_id (Date row))
             (t_CryptocurrencyPrice (tables s'))
      = [mkCryptocurrencyPrice price_id crypto_id (Date row) (Open row)
           (High row) (Low row) (Close row) (Volume row) None created]
    ∧ saved s' = tables s'
    ∧ tables (FetchCryptoData.fetch_and_store_crypto_data w crypto_info
                crypto_id s).2 = tables s'.
Proof.
  intros Hhist Hok Hlast.
  rewrite fetch_and_store_all_run, fetch_and_store_run, Hhist.
  assert (∃ r0 rs, pre ++ row :: post = r0 :: rs) as (r0 & rs & Hrows)
    by (destruct pre; eauto).
  rewrite Hrows. cbv iota. rewrite <- Hrows. clear r0 rs Hrows.
  eexists _, (uuid4 w (tick s + length pre)), (now_ms w (tick s + length pre)).
  split_and!; [done| |done|done].
  cbn [commit snd say tables after_store_rows set_CryptocurrencyPrice
       t_CryptocurrencyPrice].
  rewrite stored_crypto_app. cbn [stored_crypto]. rewrite Hok.
  rewrite stored_crypto_other_dates by done.
  by apply replace_same_key.
Qed.

(** C4 as stated fails in the crypto variant, which checks no value: the
    bar with a missing close is bound and stored, and the bar whose
    volume alone is missing is stored with a missing volume, not with 0;
    where the store rejects the statement the second bar is not stored
    at all. *)
Lemma crypto_variant_does_not_filter_nan :
  (λ p, (cp_date p, cp_close p, cp_volume p)) <$>
    t_CryptocurrencyPrice
      (saved (FetchAllCryptoData.fetch_and_store_crypto_data gaps btc "btc"
                (fresh_state no_tables)).2)
  = [(jan_2, NaN, Num 1000); (jan_3, Num 11, NaN)]
  ∧ t_CryptocurrencyPrice
      (saved (FetchAllCryptoData.fetch_and_store_crypto_data gaps_rejected
                btc "btc" (fresh_state no_tables)).2)
    = []
  ∧ (λ p, (cp_date p, cp_close p, cp_volume p)) <$>
      t_CryptocurrencyPrice
        (saved (FetchCryptoData.fetch_and_store_crypto_data gaps btc "btc"
                  (fresh_state no_tables)).2)
    = [(jan_2, NaN, Num 1000); (jan_3, Num 11, NaN)].
Proof. vm_compute. done. Qed.

(** ** C6: the symbol resolver *)

Lemma get_or_create_asset_run w symbol s :
  ImportStocksFast.get_or_create_asset w symbol s =
  match exec_fault w (tick s) with
  | Some e => (Raise e, step_tick s)
  | None =>
    match select_asset_id symbol (tables s) with
    | Some id => (Ok id, step_tick s)
    | None =>
      match exec_fault w (S (tick s)) with
      | Some e => (Raise e, step_tick (step_tick s))
      | None =>
        (Ok (a_id (new_asset w symbol symbol (S (tick s)))),
         step_tick (step_tick
           (with_tables
              (set_Asset (λ l, l ++ [new_asset w symbol symbol (S (tick s))]))
              s)))
      end
    end
  end.
Proof.
  unfold ImportStocksFast.get_or_create_asset, execute_query, timestamp_ms,
    generate_asset_id, insert_Asset, execute_update.
  run. destruct (exec_fault w (tick s)); [done|].
  destruct (select_asset_id symbol (tables s)); [done|].
  run. by destruct (exec_fault w (S (tick s))).
Qed.

Lemma add_stock_to_database_run w symbol name s :
  AddMissingStocks.add_stock_to_database w symbol name s =
  match exec_fault w (tick s) with
  | Some e => (Raise e, step_tick s)
  | None =>
    match select_asset_id symbol (tables s) with
    | Some id =>
      match exec_fault w (S (tick s)) with
      | Some e => (Raise e, step_tick (say (AlreadyExists symbol) (step_tick s)))
      | None => (Ok id, step_tick (say (AlreadyExists symbol) (step_tick s)))
      end
    | None =>
      match exec_fault w (S (tick s)) with
      | Some e => (Raise e, step_tick (step_tick s))
      | None =>
        (Ok (a_id (new_asset w symbol name (S (tick s)))),
         say (AddedStock symbol name)
           (step_tick (step_tick
              (with_tables
                 (set_Asset (λ l, l ++ [new_asset w symbol name (S (tick s))]))
                 s))))
      end
    end
  end.
Proof.
  unfold AddMissingStocks.add_stock_to_database, execute_query, timestamp_ms,
    generate_asset_id, insert_Asset, execute_update.
  run. destruct (exec_fault w (tick s)); [done|].
  destruct (select_asset_id symbol (tables s)) eqn:Hsel.
  - run. rewrite print_run. run. cbn [say tick tables step_tick].
    destruct (exec_fault w (S (tick s))); [done|]. by rewrite Hsel.
  - run. destruct (exec_fault w (S (tick s))); [done|].
    by rewrite bind_run, print_run.
Qed.

Lemma select_asset_some symbol t a :
  a ∈ t_Asset t → a_symbol a = symbol →
  ∃ a', select_asset symbol t = Some a' ∧ a' ∈ t_Asset t ∧ a_symbol a' = symbol.
Proof.
  intros Hin Hsym. unfold select_asset.
  destruct (filter _ _) as [|a' l] eqn:Hfil.
  - assert (a ∈ filter (λ a, a_symbol a = symbol) (t_Asset t)) as Hin'
      by by apply list_elem_of_filter.
    rewrite Hfil in Hin'. inv Hin'.
  - assert (a' ∈ filter (λ a, a_symbol a = symbol) (t_Asset t)) as Hin'
      by (rewrite Hfil; left).
    apply list_elem_of_filter in Hin' as [? ?]. by exists a'.
Qed.

Lemma select_asset_id_appended symbol t a :
  a_symbol a = symbol →
  select_asset_id symbol t = None →
  select_asset_id symbol (set_Asset (λ l, l ++ [a]) t) = Some (a_id a).
Proof.
  intros Hsym Hnone. unfold select_asset_id, select_asset in *. cbn.
  rewrite filter_app.
  destruct (filter _ (t_Asset t)); [|done].
  by rewrite filter_cons_True.
Qed.

(** C6. The resolver is idempotent. When an Asset row with the symbol
    exists, [get_or_create_asset] returns the id of the row the lookup
    finds and changes no table. When none exists and neither statement
    raises, it appends exactly one Asset row, for that symbol, and returns
    the id it generated for it. A second call with the same symbol on the
    state the first one left inserts nothing and returns the same id.
    [add_stock_to_database] of add_missing_stocks.py behaves the same. *)
Theorem resolver_is_idempotent w symbol name s :
  (∀ a, a ∈ t_Asset (tables s) → a_symbol a = symbol →
     exec_fault w (tick s) = None → exec_fault w (S (tick s)) = None →
     ∃ a' s' s'',
       a' ∈ t_Asset (tables s) ∧ a_symbol a' = symbol
       ∧ select_asset symbol (tables s) = Some a'
       ∧ ImportStocksFast.get_or_create_asset w symbol s = (Ok (a_id a'), s')
       ∧ tables s' = tables s
       ∧ AddMissingStocks.add_stock_to_database w symbol name s
         = (Ok (a_id a'), s'')
       ∧ tables s'' = tables s)
  ∧ (no_asset_row symbol (tables s) →
     exec_fault w (tick s) = None → exec_fault w (S (tick s)) = None →
     ∃ s' s'',
       ImportStocksFast.get_or_create_asset w symbol s
         = (Ok (a_id (new_asset w symbol symbol (S (tick s)))), s')
       ∧ tables s'
         = set_Asset (λ l, l ++ [new_asset w symbol symbol (S (tick s))])
                     (tables s)
       ∧ AddMissingStocks.add_stock_to_database w symbol name s
         = (Ok (a_id (new_asset w symbol name (S (tick s)))), s'')
       ∧ tables s''
         = set_Asset (λ l, l ++ [new_asset w symbol name (S (tick s))])
                     (tables s))
  ∧ (∀ id s1,
       ImportStocksFast.get_or_create_asset w symbol s = (Ok id, s1) →
       exec_fault w (tick s1) = None →
       ∃ s2, ImportStocksFast.get_or_create_asset w symbol s1 = (Ok id, s2)
             ∧ tables s2 = tables s1)
  ∧ (∀ id s1,
       AddMissingStocks.add_stock_to_database w symbol name s = (Ok id, s1) →
       exec_fault w (tick s1) = None → exec_fault w (S (tick s1)) = None →
       ∃ s2, AddMissingStocks.add_stock_to_database w symbol name s1
               = (Ok id, s2)
             ∧ tables s2 = tables s1).
Proof.
  split_and!.
  - intros a Hin Hsym Hf1 Hf2.
    destruct (select_asset_some symbol (tables s) a Hin Hsym)
      as (a' & Hsel & Hin' & Hsym').
    rewrite get_or_create_asset_run, add_stock_to_database_run, Hf1, Hf2.
    unfold select_asset_id. rewrite Hsel. cbn [fmap option_fmap option_map].
    by eexists a', _, _.
  - intros Hno Hf1 Hf2.
    rewrite get_or_create_asset_run, add_stock_to_database_run, Hf1, Hf2.
    rewrite (select_asset_id_none _ _ Hno). by eexists _, _.
  - intros id s1 Hfirst Hf. rewrite get_or_create_asset_run in Hfirst.
    rewrite get_or_create_asset_run, Hf.
    destruct (exec_fault w (tick s)); [done|].
    destruct (select_asset_id symbol (tables s)) as [id0|] eqn:Hsel.
    + injection Hfirst as <- <-. cbn [tables step_tick]. rewrite Hsel.
      by eexists.
    + destruct (exec_fault w (S (tick s))); [done|].
      injection Hfirst as <- <-. cbn [tables step_tick with_tables].
      rewrite (select_asset_id_appended symbol) by done. by eexists.
  - intros id s1 Hfirst Hf1 Hf2. rewrite add_stock_to_database_run in Hfirst.
    rewrite add_stock_to_database_run, Hf1, Hf2.
    destruct (exec_fault w (tick s)); [done|].
    destruct (select_asset_id symbol (tables s)) as [id0|] eqn:Hsel.
    + destruct (exec_fault w (S (tick s))); [done|].
      injection Hfirst as <- <-. cbn [tables step_tick say]. rewrite Hsel.
      by eexists.
    + destruct (exec_fault w (S (tick s))); [done|].
      injection Hfirst as <- <-. cbn [tables step_tick with_tables say].
      rewrite (select_asset_id_appended symbol) by done. by eexists.
Qed.

(** ** C9: waiting for a locked database *)

Lemma attempt_run w s :
  attempt w s =
  match exec_fault w (tick s) with
  | Some e => (Raise e, step_tick s)
  | None =>
    match exec_fault w (S (tick s)) with
    | Some e =>
        (Raise e, step_tick (step_tick (with_tables (λ _, saved s) s)))
    | None => (Ok tt, step_tick (step_tick (with_tables (λ _, saved s) s)))
    end
  end.
Proof.
  unfold attempt, sqlite3_connect, execute_query. run.
  destruct (exec_fault w (tick s)); [done|]. run.
  by destruct (exec_fault w (S (tick s))).
Qed.

Lemma attempt_outcome w s :
  (attempt w s).1
  = match attempt_fault w (tick s) with
    | Some e => Raise e
    | None => Ok tt
    end
  ∧ tick (attempt w s).2 = tick s + attempt_calls w (tick s)
  ∧ saved (attempt w s).2 = saved s
  ∧ slept (attempt w s).2 = slept s
  ∧ out (attempt w s).2 = out s
  ∧ counters (attempt w s).2 = counters s.
Proof.
  rewrite attempt_run. unfold attempt_fault, attempt_calls.
  destruct (exec_fault w (tick s)).
  { cbn. split_and!; try done. lia. }
  destruct (exec_fault w (S (tick s))); cbn; split_and!; try done; lia.
Qed.

Lemma wait_for_database_from_step w max_retries i remaining s :
  FetchDailySimple.wait_for_database_from w max_retries i (S remaining) s =
  match attempt w s with
  | (Ok conn, s') => (Ok conn, s')
  | (Raise e, s') =>
      if retried e then
        FetchDailySimple.wait_for_database_from w max_retries (S i) remaining
          (sleep 2 (say (DatabaseLocked (i + 1) max_retries) s')).2
      else (Raise e, s')
  end.
Proof.
  cbn [FetchDailySimple.wait_for_database_from]. fold (attempt w).
  by destruct (attempt w s) as [[[]|[msg|msg]] s'].
Qed.

(** A run of locked attempts is retried through. *)
Lemma wait_through_locked w max_retries k : ∀ i rest s,
  locked_attempts w (tick s) k = true →
  FetchDailySimple.wait_for_database_from w max_retries i (k + rest) s
  = FetchDailySimple.wait_for_database_from w max_retries (i + k) rest
      (after_locked w max_retries i k s).
Proof.
  induction k as [|k IH]; intros i rest s Hlocked.
  - cbn. by rewrite Nat.add_0_r.
  - cbn [Nat.add]. rewrite wait_for_database_from_step.
    cbn [locked_attempts] in Hlocked.
    destruct (attempt_outcome w s) as (Hres & Htick & _).
    destruct (attempt w s) as [r s'] eqn:Hattempt. cbn [fst snd] in *.
    destruct (attempt_fault w (tick s)) as [e|]; [|done].
    apply andb_prop in Hlocked as [Hretried Hlocked].
    subst r. rewrite Hretried. cbn [after_locked]. rewrite Hattempt.
    cbn [snd]. rewrite IH; [by rewrite Nat.add_succ_comm|].
    cbn. by rewrite Htick.
Qed.

Lemma locked_messages_succ max_retries i k :
  locked_messages max_retries i (S k)
  = DatabaseLocked (i + 1) max_retries :: locked_messages max_retries (S i) k.
Proof.
  unfold locked_messages. cbn [seq fmap list_fmap].
  rewrite Nat.add_0_r. f_equal.
  rewrite <- seq_shift, <- list_fmap_compose.
  apply list_fmap_ext. intros _ j _. cbn. f_equal. lia.
Qed.

Lemma after_locked_facts w max_retries k : ∀ i s,
  out (after_locked w max_retries i k s)
    = out s ++ locked_messages max_retries i k
  ∧ (slept (after_locked w max_retries i k s)
       == slept s + inject_Z (2 * Z.of_nat k))%Q
  ∧ saved (after_locked w max_retries i k s) = saved s
  ∧ counters (after_locked w max_retries i k s) = counters s.
Proof.
  induction k as [|k IH]; intros i s.
  - cbn. rewrite app_nil_r. split_and!; try done.
    change (inject_Z (2 * Z.of_nat 0)) with 0%Q. ring.
  - cbn [after_locked].
    destruct (attempt_outcome w s) as (_ & _ & Hsaved & Hslept & Hout & Hcnt).
    destruct (IH (S i)
                (sleep 2 (say (DatabaseLocked (i + 1) max_retries)
                            (attempt w s).2)).2)
      as (IHout & IHslept & IHsaved & IHcnt).
    rewrite IHout, IHslept, IHsaved, IHcnt. cbn [sleep say snd out slept
      saved counters].
    rewrite Hout, Hslept, Hsaved, Hcnt, locked_messages_succ, <- app_assoc.
    split_and!; try done.
    rewrite Nat2Z.inj_succ, <- Z.add_1_r, Z.mul_add_distr_l, inject_Z_plus.
    change (inject_Z (2 * 1)) with 2%Q. ring.
Qed.

Lemma main_when_wait_raises w s e s1 :
  FetchDailySimple.wait_for_database w 10 s = (Raise e, s1) →
  FetchDailySimple.main w s = (Ok 1, say (ErrTop e) s1).
Proof. intros Hwait. unfold FetchDailySimple.main. by rewrite Hwait. Qed.

(** C9. [wait_for_database] makes at most 10 attempts. An attempt that
    raises sqlite3.OperationalError with "database is locked" in its text
    is followed by a sleep of two seconds and the next attempt. When all
    10 attempts fail so, the function raises, [main] catches it and its
    value, the exit status of the process, is 1, with nothing written. An
    error that is not the locked error is raised at once, with no sleep
    after it and no further attempt, and ends the run with status 1 too.
    When an attempt succeeds the function returns the connection. *)
Theorem locked_database_is_retried_then_fatal w s :
  (locked_attempts w (tick s) 10 = true →
     ∃ s1 s2,
       FetchDailySimple.wait_for_database w 10 s
         = (Raise (Error "Database remained locked after all retries"), s1)
       ∧ out s1 = out s ++ locked_messages 10 0 10
       ∧ (slept s1 == slept s + 20)%Q
       ∧ FetchDailySimple.main w s = (Ok 1, s2)
       ∧ saved s2 = saved s)
  ∧ (∀ k e, k < 10 →
       locked_attempts w (tick s) k = true →
       attempt_fault w (tick (after_locked w 10 0 k s)) = Some e →
       retried e = false →
       ∃ s1 s2,
         FetchDailySimple.wait_for_database w 10 s = (Raise e, s1)
         ∧ out s1 = out s ++ locked_messages 10 0 k
         ∧ (slept s1 == slept s + inject_Z (2 * Z.of_nat k))%Q
         ∧ FetchDailySimple.main w s = (Ok 1, s2)
         ∧ saved s2 = saved s)
  ∧ (∀ k, k < 10 →
       locked_attempts w (tick s) k = true →
       attempt_fault w (tick (after_locked w 10 0 k s)) = None →
       ∃ s1,
         FetchDailySimple.wait_for_database w 10 s = (Ok tt, s1)
         ∧ out s1 = out s ++ locked_messages 10 0 k
         ∧ (slept s1 == slept s + inject_Z (2 * Z.of_nat k))%Q).
Proof.
  unfold FetchDailySimple.wait_for_database. split_and!.
  - intros Hlocked.
    pose proof (wait_through_locked w 10 10 0 0 s Hlocked) as Hwait.
    cbn [Nat.add] in Hwait.
    destruct (after_locked_facts w 10 10 0 s) as (Hout & Hslept & Hsaved & _).
    eexists _, _. split_and!; [exact Hwait|done|done| |].
    + by apply main_when_wait_raises.
    + done.
  - intros k e Hk Hlocked Hfault Hnot.
    pose proof (wait_through_locked w 10 k 0 (10 - k) s Hlocked) as Hwait.
    replace (k + (10 - k)) with 10 in Hwait by lia.
    destruct (10 - k) as [|rest] eqn:Hrest; [lia|].
    rewrite (wait_for_database_from_step w 10 (0 + k) rest) in Hwait.
    destruct (attempt_outcome w (after_locked w 10 0 k s))
      as (Hres & _ & Hsaved' & Hslept' & Hout' & _).
    destruct (attempt w (after_locked w 10 0 k s)) as [r s1].
    cbn [fst snd] in *. rewrite Hfault in Hres. subst r.
    rewrite Hnot in Hwait.
    destruct (after_locked_facts w 10 k 0 s) as (Hout & Hslept & Hsaved & _).
    eexists s1, _. split_and!; [exact Hwait|congruence| | |].
    + by rewrite Hslept'.
    + by apply main_when_wait_raises.
    + cbn. congruence.
  - intros k Hk Hlocked Hfault.
    pose proof (wait_through_locked w 10 k 0 (10 - k) s Hlocked) as Hwait.
    replace (k + (10 - k)) with 10 in Hwait by lia.
    destruct (10 - k) as [|rest] eqn:Hrest; [lia|].
    rewrite (wait_for_database_from_step w 10 (0 + k) rest) in Hwait.
    destruct (attempt_outcome w (after_locked w 10 0 k s))
      as (Hres & _ & Hsaved' & Hslept' & Hout' & _).
    destruct (attempt w (after_locked w 10 0 k s)) as [r s1].
    cbn [fst snd] in *. rewrite Hfault in Hres. subst r.
    destruct (after_locked_facts w 10 k 0 s) as (Hout & Hslept & Hsaved & _).
    exists s1. split_and!; [exact Hwait|congruence|].
    by rewrite Hslept'.
Qed.

(** ** The theorems at concrete inputs *)

(** C1 at two runs on AAPL, the second repeating the date of the first. *)
Lemma skip_on_duplicate_witness :
  no_repeated_dates (tables (fresh_state aapl_only))
  ∧ Forall (λ r, NoDup (run_dates r)) two_runs
  ∧ no_repeated_dates
      (tables (ingestion_runs calm two_runs (fresh_state aapl_only))).
Proof.
  assert (no_repeated_dates (tables (fresh_state aapl_only))) as Hinv.
  { intros asset_id. constructor. }
  assert (Forall (λ r, NoDup (run_dates r)) two_runs) as Hruns.
  { apply (bool_decide_unpack _). vm_compute. exact I. }
  split; [exact Hinv|]. split; [exact Hruns|].
  exact (proj2 (skip_on_duplicate_keeps_dates_unique calm) two_runs
           (fresh_state aapl_only) Hinv Hruns).
Defined.

(** C2 at a first run in which nothing raises. *)
Lemma second_run_witness :
  FetchDailyData.update_daily_data calm "AAPL" [sample_bar jan_2]
    (fresh_state aapl_only) = (Ok 1, after_clean_run)
  ∧ (∀ k, tick (fresh_state aapl_only) ≤ k < tick after_clean_run →
       exec_fault calm k = None)
  ∧ ∃ r s2,
      FetchDailyData.update_daily_data calm "AAPL" [sample_bar jan_2]
        after_clean_run = (r, s2)
      ∧ tables s2 = tables after_clean_run
      ∧ saved s2 = saved after_clean_run
      ∧ length (t_PriceData (tables s2))
        = length (t_PriceData (tables after_clean_run))
      ∧ (r = Ok 0
         ∨ ∃ e, r = Raise e
             ∧ (exec_fault calm (tick after_clean_run) = Some e
                ∨ exec_fault calm (S (tick after_clean_run)) = Some e)).
Proof.
  assert (FetchDailyData.update_daily_data calm "AAPL" [sample_bar jan_2]
            (fresh_state aapl_only) = (Ok 1, after_clean_run)) as Hfirst.
  { vm_compute. reflexivity. }
  assert (∀ k, tick (fresh_state aapl_only) ≤ k < tick after_clean_run →
            exec_fault calm k = None) as Hcalm.
  { intros k _. reflexivity. }
  split; [exact Hfirst|]. split; [exact Hcalm|].
  exact (second_run_inserts_nothing calm "AAPL" [sample_bar jan_2]
           (fresh_state aapl_only) 1 after_clean_run Hfirst Hcalm).
Defined.

(** C5 at the batch of 10 whose fifth insert raises. *)
Lemma partial_failure_witness :
  exec_fault (one_fault 6 (Error "constraint failed"))
    (tick (fresh_state aapl_only)) = None
  ∧ falsy (select_asset_id "AAPL" (tables (fresh_state aapl_only))) = false
  ∧ exec_fault (one_fault 6 (Error "constraint failed"))
      (S (tick (fresh_state aapl_only))) = None
  ∧ ∃ added s',
      FetchDailyData.update_daily_data
        (one_fault 6 (Error "constraint failed")) "AAPL" ten_bars
        (fresh_state aapl_only) = (Ok (length added), s')
      ∧ t_PriceData (tables s')
        = t_PriceData (tables (fresh_state aapl_only)) ++ added
      ∧ bar_of <$> added
        = succeeded (one_fault 6 (Error "constraint failed"))
            (new_points (resolved "AAPL" (tables (fresh_state aapl_only)))
               ten_bars (tables (fresh_state aapl_only)))
            (S (S (tick (fresh_state aapl_only))))
      ∧ length added = 9.
Proof.
  split; [reflexivity|]. split; [reflexivity|]. split; [reflexivity|].
  destruct (partial_failure_isolation
              (one_fault 6 (Error "constraint failed")) "AAPL" ten_bars
              (fresh_state aapl_only) eq_refl eq_refl eq_refl)
    as (added & s' & Hrun & Htab & Hbars & _).
  exists added, s'. split; [exact Hrun|]. split; [exact Htab|].
  split; [exact Hbars|].
  rewrite <- (length_fmap bar_of), Hbars. vm_compute. reflexivity.
Defined.

Lemma msft_unknown : no_asset_row "MSFT" aapl_only.
Proof.
  intros a Ha. apply list_elem_of_singleton in Ha. by subst.
Qed.

(** C10 at a symbol the store does not know. *)
Lemma unknown_symbol_witness :
  no_asset_row "MSFT" (tables (fresh_state aapl_only))
  ∧ no_asset_row "MSFT" (saved (fresh_state aapl_only))
  ∧ (∃ r s',
       FetchDailyData.update_daily_data calm "MSFT" [sample_bar jan_2]
         (fresh_state aapl_only) = (r, s')
       ∧ tables s' = tables (fresh_state aapl_only)
       ∧ saved s' = saved (fresh_state aapl_only)
       ∧ (exec_fault calm (tick (fresh_state aapl_only)) = None → r = Ok 0)
       ∧ (∀ e, r = Raise e →
            [sample_bar jan_2] ≠ []
            ∧ exec_fault calm (tick (fresh_state aapl_only)) = Some e))
  ∧ (∃ s',
       FetchDailyWal.update_stock_data calm "MSFT" [sample_bar jan_2]
         (fresh_state aapl_only) = (Ok 0, s')
       ∧ saved s' = saved (fresh_state aapl_only))
  ∧ (∃ s',
       FetchDailySimple.fetch_and_update_stock calm "MSFT"
         (fresh_state aapl_only) = (Ok 0, s')
       ∧ tables s' = tables (fresh_state aapl_only)
       ∧ saved s' = saved (fresh_state aapl_only)).
Proof.
  split; [exact msft_unknown|]. split; [exact msft_unknown|].
  exact (unknown_symbol_returns_zero_store_unchanged calm "MSFT"
           [sample_bar jan_2] (fresh_state aapl_only)
           msft_unknown msft_unknown).
Defined.

(** C3 at a date that is already stored. *)
Lemma crypto_reingest_witness :
  history two_bars (ci_symbol btc) = Hist ([] ++ raw_bar jan_2 :: [raw_bar jan_3])
  ∧ exec_fault two_bars (tick (fresh_state stale_btc) + length (@nil RawRow))
    = None
  ∧ (Date (raw_bar jan_2) ∉ Date <$> [raw_bar jan_3])
  ∧ filter (has_key "btc" jan_2)
           (t_CryptocurrencyPrice (tables (fresh_state stale_btc)))
    = [mkCryptocurrencyPrice "old" "btc" jan_2 (Num 4) (Num 6) (Num 3)
         (Num 5) (Num 700) None 0]
  ∧ ∃ s' price_id created,
      FetchAllCryptoData.fetch_and_store_crypto_data two_bars btc "btc"
        (fresh_state stale_btc) = (Ok true, s')
      ∧ filter (has_key "btc" (Date (raw_bar jan_2)))
               (t_CryptocurrencyPrice (tables s'))
        = [mkCryptocurrencyPrice price_id "btc" (Date (raw_bar jan_2))
             (Open (raw_bar jan_2)) (High (raw_bar jan_2))
             (Low (raw_bar jan_2)) (Close (raw_bar jan_2))
             (Volume (raw_bar jan_2)) None created]
      ∧ saved s' = tables s'
      ∧ tables (FetchCryptoData.fetch_and_store_crypto_data two_bars btc
                  "btc" (fresh_state stale_btc)).2 = tables s'.
Proof.
  assert (Date (raw_bar jan_2) ∉ Date <$> [raw_bar jan_3]) as Hlast.
  { apply (bool_decide_unpack _). vm_compute. exact I. }
  split; [reflexivity|]. split; [reflexivity|]. split; [exact Hlast|].
  split; [vm_compute; reflexivity|].
  exact (crypto_reingest_replaces two_bars btc "btc" (fresh_state stale_btc)
           [] (raw_bar jan_2) [raw_bar jan_3] eq_refl eq_refl Hlast).
Defined.

(** C4 at a frame with a missing close and a missing volume. *)
Lemma stock_variants_witness :
  ((∃ n i,
      (FetchDailySimple.fetch_and_update_stock gaps "AAPL"
         (fresh_state aapl_only)).2
      = (FetchDailyData.process_symbol gaps n i "AAPL"
           (fresh_state aapl_only)).2)
   ∨ (FetchDailySimple.fetch_and_update_stock gaps "AAPL"
        (fresh_state aapl_only)).2
     = (FetchDailySimple.fetch_and_update_stock gaps "AAPL"
          (fresh_state aapl_only)).2)
  ∧ ∃ added,
      t_PriceData
        (tables (FetchDailySimple.fetch_and_update_stock gaps "AAPL"
                   (fresh_state aapl_only)).2)
      = t_PriceData (tables (fresh_state aapl_only)) ++ added
      ∧ Forall (λ p,
          isna (p_open p) = false ∧ isna (p_high p) = false
          ∧ isna (p_low p) = false ∧ isna (p_close p) = false
          ∧ ∃ row, row ∈ provided gaps "AAPL" ∧ complete row
                   ∧ bar_of p = data_point_of row
                   ∧ (isna (Volume row) = true → p_volume p = 0%Z)) added
      ∧ ((∀ k, exec_fault gaps k = None) →
         falsy (select_asset_id "AAPL" (tables (fresh_state aapl_only)))
           = false →
         ∀ row, row ∈ provided gaps "AAPL" → complete row →
           Date row ∉ select_dates
                        (resolved "AAPL" (tables (fresh_state aapl_only)))
                        (tables (fresh_state aapl_only)) →
           ∃ p, p ∈ added ∧ bar_of p = data_point_of row
                ∧ (isna (Volume row) = true → p_volume p = 0%Z)).
Proof.
  assert ((∃ n i,
      (FetchDailySimple.fetch_and_update_stock gaps "AAPL"
         (fresh_state aapl_only)).2
      = (FetchDailyData.process_symbol gaps n i "AAPL"
           (fresh_state aapl_only)).2)
   ∨ (FetchDailySimple.fetch_and_update_stock gaps "AAPL"
        (fresh_state aapl_only)).2
     = (FetchDailySimple.fetch_and_update_stock gaps "AAPL"
          (fresh_state aapl_only)).2) as Hvariant.
  { right. reflexivity. }
  split; [exact Hvariant|].
  exact (stock_variants_filter_nan gaps "AAPL" (fresh_state aapl_only) _
           Hvariant).
Defined.

(** C6 at AAPL, which the store knows, and at MSFT, which it does not. *)
Lemma resolver_witness :
  (aapl ∈ t_Asset (tables (fresh_state aapl_only))
   ∧ a_symbol aapl = "AAPL"
   ∧ exec_fault calm (tick (fresh_state aapl_only)) = None
   ∧ exec_fault calm (S (tick (fresh_state aapl_only))) = None
   ∧ ∃ a' s' s'',
       a' ∈ t_Asset (tables (fresh_state aapl_only))
       ∧ a_symbol a' = "AAPL"
       ∧ select_asset "AAPL" (tables (fresh_state aapl_only)) = Some a'
       ∧ ImportStocksFast.get_or_create_asset calm "AAPL"
           (fresh_state aapl_only) = (Ok (a_id a'), s')
       ∧ tables s' = tables (fresh_state aapl_only)
       ∧ AddMissingStocks.add_stock_to_database calm "AAPL" "Apple Inc."
           (fresh_state aapl_only) = (Ok (a_id a'), s'')
       ∧ tables s'' = tables (fresh_state aapl_only))
  ∧ (no_asset_row "MSFT" (tables (fresh_state aapl_only))
     ∧ ∃ s' s'',
         ImportStocksFast.get_or_create_asset calm "MSFT"
           (fresh_state aapl_only)
         = (Ok (a_id (new_asset calm "MSFT" "MSFT"
                        (S (tick (fresh_state aapl_only))))), s')
         ∧ tables s'
           = set_Asset
               (λ l, l ++ [new_asset calm "MSFT" "MSFT"
                             (S (tick (fresh_state aapl_only)))])
               (tables (fresh_state aapl_only))
         ∧ AddMissingStocks.add_stock_to_database calm "MSFT" "Microsoft"
             (fresh_state aapl_only)
           = (Ok (a_id (new_asset calm "MSFT" "Microsoft"
                          (S (tick (fresh_state aapl_only))))), s'')
         ∧ tables s''
           = set_Asset
               (λ l, l ++ [new_asset calm "MSFT" "Microsoft"
                             (S (tick (fresh_state aapl_only)))])
               (tables (fresh_state aapl_only)))
  ∧ (ImportStocksFast.get_or_create_asset calm "MSFT" (fresh_state aapl_only)
     = (Ok (a_id (new_asset calm "MSFT" "MSFT" 1)), after_msft)
     ∧ exec_fault calm (tick after_msft) = None
     ∧ ∃ s2,
         ImportStocksFast.get_or_create_asset calm "MSFT" after_msft
         = (Ok (a_id (new_asset calm "MSFT" "MSFT" 1)), s2)
         ∧ tables s2 = tables after_msft).
Proof.
  assert (aapl ∈ t_Asset (tables (fresh_state aapl_only))) as Hin.
  { apply list_elem_of_singleton. reflexivity. }
  assert (ImportStocksFast.get_or_create_asset calm "MSFT"
            (fresh_state aapl_only)
          = (Ok (a_id (new_asset calm "MSFT" "MSFT" 1)), after_msft))
    as Hfirst.
  { vm_compute. reflexivity. }
  split; [|split].
  - split; [exact Hin|]. split; [reflexivity|]. split; [reflexivity|].
    split; [reflexivity|].
    exact (proj1 (resolver_is_idempotent calm "AAPL" "Apple Inc."
                    (fresh_state aapl_only))
             aapl Hin eq_refl eq_refl eq_refl).
  - split; [exact msft_unknown|].
    exact (proj1 (proj2 (resolver_is_idempotent calm "MSFT" "Microsoft"
                           (fresh_state aapl_only)))
             msft_unknown eq_refl eq_refl).
  - split; [exact Hfirst|]. split; [reflexivity|].
    exact (proj1 (proj2 (proj2 (resolver_is_idempotent calm "MSFT" "Microsoft"
                                  (fresh_state aapl_only))))
             _ after_msft Hfirst eq_refl).
Defined.



(** C9 at a store that stays locked, at one that cannot be opened, and at
    one that is locked for the first attempt only. *)
Lemma locked_database_witness :
  (locked_attempts always_locked (tick (fresh_state abc)) 10 = true
   ∧ ∃ s1 s2,
       FetchDailySimple.wait_for_database always_locked 10 (fresh_state abc)
       = (Raise (Error "Database remained locked after all retries"), s1)
       ∧ out s1 = out (fresh_state abc) ++ locked_messages 10 0 10
       ∧ (slept s1 == slept (fresh_state abc) + 20)%Q
       ∧ FetchDailySimple.main always_locked (fresh_state abc) = (Ok 1, s2)
       ∧ saved s2 = saved (fresh_state abc))
  ∧ (0 < 10
     ∧ locked_attempts never_opens (tick (fresh_state abc)) 0 = true
     ∧ attempt_fault never_opens
         (tick (after_locked never_opens 10 0 0 (fresh_state abc)))
       = Some unreadable
     ∧ retried unreadable = false
     ∧ ∃ s1 s2,
         FetchDailySimple.wait_for_database never_opens 10 (fresh_state abc)
         = (Raise unreadable, s1)
         ∧ out s1 = out (fresh_state abc) ++ locked_messages 10 0 0
         ∧ (slept s1
            == slept (fresh_state abc) + inject_Z (2 * Z.of_nat 0))%Q
         ∧ FetchDailySimple.main never_opens (fresh_state abc) = (Ok 1, s2)
         ∧ saved s2 = saved (fresh_state abc))
  ∧ (1 < 10
     ∧ locked_attempts (fault_at 0) (tick (fresh_state abc)) 1 = true
     ∧ attempt_fault (fault_at 0)
         (tick (after_locked (fault_at 0) 10 0 1 (fresh_state abc))) = None
     ∧ ∃ s1,
         FetchDailySimple.wait_for_database (fault_at 0) 10 (fresh_state abc)
         = (Ok tt, s1)
         ∧ out s1 = out (fresh_state abc) ++ locked_messages 10 0 1
         ∧ (slept s1
            == slept (fresh_state abc) + inject_Z (2 * Z.of_nat 1))%Q).
Proof.
  assert (locked_attempts always_locked (tick (fresh_state abc)) 10 = true)
    as Hlocked by (vm_compute; reflexivity).
  assert (attempt_fault never_opens
            (tick (after_locked never_opens 10 0 0 (fresh_state abc)))
          = Some unreadable) as Hfault by (vm_compute; reflexivity).
  assert (retried unreadable = false) as Hnot by (vm_compute; reflexivity).
  assert (locked_attempts (fault_at 0) (tick (fresh_state abc)) 1 = true)
    as Hone by (vm_compute; reflexivity).
  assert (attempt_fault (fault_at 0)
            (tick (after_locked (fault_at 0) 10 0 1 (fresh_state abc)))
          = None) as Hfree by (vm_compute; reflexivity).
  assert (0 < 10) as H0 by lia.
  assert (1 < 10) as H1 by lia.
  split; [|split].
  - split; [exact Hlocked|].
    exact (proj1 (locked_database_is_retried_then_fatal always_locked
                    (fresh_state abc)) Hlocked).
  - split; [exact H0|]. split; [reflexivity|]. split; [exact Hfault|].
    split; [exact Hnot|].
    exact (proj1 (proj2 (locked_database_is_retried_then_fatal never_opens
                           (fresh_state abc)))
             0 unreadable H0 eq_refl Hfault Hnot).
  - split; [exact H1|]. split; [exact Hone|]. split; [exact Hfree|].
    exact (proj2 (proj2 (locked_database_is_retried_then_fatal (fault_at 0)
                           (fresh_state abc)))
             1 H1 Hone Hfree).
Defined.

(** * Further properties of the scripts

    What the functions around the ingestion procedure do: the fetchers,
    the drivers and their exit status, the writers of the other variants
    and the crypto scripts. Here [sqlite3.connect] and [cursor.execute]
    raise when the world says so, while [conn.commit], [conn.rollback],
    [conn.close] and [time.sleep] do not raise; a commit that raises is
    the matter of [FetchDailyDataCommits] alone. *)

(** ** The fetchers *)

Lemma fetch_stock_data_run w symbol s :
  FetchDailyWal.fetch_stock_data w symbol s =
  match history w symbol with
  | HistRaises e => (Ok [], say (ErrFetching symbol e) s)
  | Hist rows => (Ok (data_point_of <$> filter complete rows), s)
  end.
Proof.
  unfold FetchDailyWal.fetch_stock_data, try_except.
  destruct (history w symbol) as [e|[|row rows]]; [reflexivity..|].
  rewrite ret_run. by rewrite collect_data_points_spec.
Qed.

(** X1. The fetchers of fetch_daily_data.py and fetch_daily_wal.py never
    raise and touch neither the tables nor the statement count. Both
    return the same list: one data point for each row of the frame whose
    open, high, low and close are all present, in the order of the frame,
    and the empty list when the provider raises, with the error printed. *)
Theorem fetchers_return_the_complete_bars w symbol s :
  ∃ l s1 s2,
    FetchDailyData.fetch_daily_data_for_symbol w symbol s = (Ok l, s1)
    ∧ FetchDailyWal.fetch_stock_data w symbol s = (Ok l, s2)
    ∧ l = data_point_of <$> filter complete (provided w symbol)
    ∧ Forall priced l
    ∧ dp_date <$> l `sublist_of` Date <$> provided w symbol
    ∧ (tables s1 = tables s ∧ saved s1 = saved s ∧ tick s1 = tick s)
    ∧ (tables s2 = tables s ∧ saved s2 = saved s ∧ tick s2 = tick s)
    ∧ (∀ e, history w symbol = HistRaises e →
         l = [] ∧ out s1 = out s ++ [ErrFetching symbol e]
         ∧ out s2 = out s ++ [ErrFetching symbol e]).
Proof.
  rewrite fetch_daily_data_for_symbol_run, fetch_stock_data_run.
  assert (Forall priced (data_point_of <$> filter complete (provided w symbol)))
    as Hpriced.
  { apply Forall_fmap, Forall_forall. intros row Hrow.
    apply list_elem_of_filter in Hrow as [Hc _].
    by apply complete_row_prices. }
  assert (dp_date <$> (data_point_of <$> filter complete (provided w symbol))
          `sublist_of` Date <$> provided w symbol) as Hsub.
  { rewrite <- list_fmap_compose. apply (fmap_sublist Date), sublist_filter. }
  revert Hpriced Hsub. unfold provided.
  destruct (history w symbol) as [e|[|row rows]]; intros Hpriced Hsub;
    eexists _, _, _; split_and!; try done.
  by intros e' [= <-].
Qed.

(** ** The driver loop of fetch_daily_data.py *)

Lemma symbol_body_run w i symbol s :
  FetchDailyData.symbol_body w i symbol s =
  let s1 := (FetchDailyData.fetch_daily_data_for_symbol w symbol s).2 in
  match fetched w symbol with
  | [] =>
      (Ok tt, commit_if_tenth i
                (with_counters one_more_failed (say WarnNoDataReceived s1)))
  | data_points =>
      match FetchDailyData.update_daily_data w symbol data_points s1 with
      | (Raise e, s2) => (Raise e, s2)
      | (Ok inserted, s2) =>
          (Ok tt, commit_if_tenth i
                    (with_counters (one_more_successful inserted)
                       (say (turn_message inserted) s2)))
      end
  end.
Proof.
  unfold FetchDailyData.symbol_body, commit_if_tenth, turn_message.
  run_driver.
  destruct (fetch_daily_data_for_symbol_fetched w symbol s)
    as (s1 & Hfetch & _).
  rewrite Hfetch. cbn [snd]. run_driver.
  destruct (fetched w symbol) as [|dp0 dps].
  - run_driver. by case_bool_decide; run_driver.
  - run_driver.
    destruct (FetchDailyData.update_daily_data w symbol (dp0 :: dps) s1)
      as [[inserted|e] s2]; run_driver; [|done].
    case_bool_decide; run_driver; by case_bool_decide; run_driver.
Qed.

Lemma update_daily_data_appends w symbol data_points s :
  ∃ r s' added,
    FetchDailyData.update_daily_data w symbol data_points s = (r, s')
    ∧ tables s' = set_PriceData (λ p, p ++ added) (tables s)
    ∧ saved s' = saved s ∧ counters s' = counters s
    ∧ (∀ n, r = Ok n → n = length added)
    ∧ (∀ e, r = Raise e → added = []).
Proof.
  rewrite update_daily_data_run.
  assert (∀ (r : Res nat) s', tables s' = tables s → saved s' = saved s →
            counters s' = counters s → (∀ n, r = Ok n → n = 0) →
            ∃ r0 s0 added, (r, s') = (r0, s0)
              ∧ tables s0 = set_PriceData (λ p, p ++ added) (tables s)
              ∧ saved s0 = saved s ∧ counters s0 = counters s
              ∧ (∀ n, r0 = Ok n → n = length added)
              ∧ (∀ e, r0 = Raise e → added = [])) as Hsame.
  { intros r s' Ht Hs Hc Hr. exists r, s', [].
    rewrite set_PriceData_nil. by split_and!. }
  destruct data_points as [|dp0 dps];
    [apply Hsame; try done; by intros n [= <-]|].
  destruct (exec_fault w (tick s)); [by apply Hsame|].
  destruct (falsy _); [apply Hsame; try done; by intros n [= <-]|].
  destruct (exec_fault w (S (tick s))); [by apply Hsame|].
  cbn zeta.
  destruct (new_points _ _ _) as [|n0 news] eqn:Hnew;
    [apply Hsame; try done; by intros n [= <-]|].
  eexists _, _, _. split_and!; try done. by intros n [= <-].
Qed.

(** What one turn does to the tables, the committed tables and the
    counters. *)
Lemma process_symbol_accounts w n i symbol s :
  ∃ s' added,
    FetchDailyData.process_symbol w n i symbol s = (Ok tt, s')
    ∧ tables s' = set_PriceData (λ p, p ++ added) (tables s)
    ∧ total_inserted (counters s')
      = total_inserted (counters s) + length added
    ∧ counted s' = S (counted s)
    ∧ (i mod 10 ≠ 0 → saved s' = saved s)
    ∧ (saved s' = saved s ∨ saved s' = tables s')
    ∧ (i mod 10 = 0 →
       (∀ e s2, FetchDailyData.symbol_body w i symbol
                  (say (Processing i n symbol) s) ≠ (Raise e, s2)) →
       saved s' = tables s')
    ∧ (∀ e s2, FetchDailyData.symbol_body w i symbol
                 (say (Processing i n symbol) s) = (Raise e, s2) →
       saved s' = saved s ∧ added = []).
Proof.
  rewrite process_symbol_run, symbol_body_run. cbn zeta.
  destruct (fetch_daily_data_for_symbol_fetched w symbol
              (say (Processing i n symbol) s))
    as (s1 & Hfetch & Ht1 & Hs1 & _ & Hc1 & _ & _).
  rewrite Hfetch. cbn [snd]. cbn [say tables saved counters] in Ht1, Hs1, Hc1.
  destruct (fetched w symbol) as [|dp0 dps].
  - exists (commit_if_tenth i
              (with_counters one_more_failed (say WarnNoDataReceived s1))), [].
    rewrite set_PriceData_nil. unfold commit_if_tenth, counted.
    case_bool_decide;
      cbn [say commit snd with_counters tables saved counters
           one_more_failed total_inserted successful_updates failed_updates];
      rewrite ?Ht1, ?Hs1, ?Hc1; split_and!; try done; try lia; auto.
  - destruct (update_daily_data_appends w symbol (dp0 :: dps) s1)
      as (r & s2 & added & Hup & Ht2 & Hs2 & Hc2 & Hok & Hraise).
    rewrite Hup. destruct r as [inserted|e].
    + rewrite (Hok inserted eq_refl).
      exists (commit_if_tenth i
                (with_counters (one_more_successful (length added))
                   (say (turn_message (length added)) s2))), added.
      unfold commit_if_tenth, counted.
      case_bool_decide;
        cbn [say commit snd with_counters tables saved counters
             one_more_successful total_inserted successful_updates
             failed_updates];
        rewrite ?Ht2, ?Hs2, ?Hc2, ?Ht1, ?Hs1, ?Hc1;
        split_and!; try done; try lia; auto.
    + rewrite (Hraise e eq_refl) in *. rewrite set_PriceData_nil in Ht2.
      exists (with_counters one_more_failed
                (say (ErrFailedToProcess symbol e) s2)), [].
      rewrite set_PriceData_nil. unfold counted.
      cbn [say with_counters tables saved counters one_more_failed
           total_inserted successful_updates failed_updates].
      rewrite ?Ht2, ?Hs2, ?Hc2, ?Ht1, ?Hs1, ?Hc1.
      split_and!; try done; try lia; auto.
      intros _ Hnever. by destruct (Hnever e s2).
Qed.

Lemma process_symbols_accounts w n symbols : ∀ i s,
  ∃ s' added,
    FetchDailyData.process_symbols w n i symbols s = (Ok tt, s')
    ∧ tables s' = set_PriceData (λ p, p ++ added) (tables s)
    ∧ total_inserted (counters s')
      = total_inserted (counters s) + length added
    ∧ counted s' = counted s + length symbols.
Proof.
  induction symbols as [|symbol symbols IH]; intros i s.
  - exists s, []. rewrite set_PriceData_nil. cbn. split_and!; try done; lia.
  - cbn [FetchDailyData.process_symbols]. rewrite bind_run.
    destruct (process_symbol_accounts w n i symbol s)
      as (s1 & a1 & -> & Ht1 & Hi1 & Hc1 & _).
    destruct (IH (S i) s1) as (s' & a2 & -> & Ht & Hi & Hc).
    exists s', (a1 ++ a2).
    rewrite Ht, Ht1, set_PriceData_app, Hi, Hi1, Hc, Hc1, length_app. cbn.
    split_and!; try done; lia.
Qed.

(** X2. [main] of fetch_daily_data.py, when the connection opens, the
    symbol query does not raise and finds a stock: it returns normally,
    its last line is the summary, in which the successes and the failures
    add up to the number of symbols and the total is the number of
    PriceData rows the run appended; those rows are committed and nothing
    else is. *)
Theorem main_summary_counts_what_was_committed w s :
  exec_fault w (tick s) = None →
  exec_fault w (S (tick s)) = None →
  FetchDailyData.select_stock_symbols (saved s) ≠ [] →
  ∃ s' successful failed added,
    FetchDailyData.main w s = (Ok tt, s')
    ∧ last (out s')
      = Some (Summary (length (FetchDailyData.select_stock_symbols (saved s)))
                successful failed (length added))
    ∧ successful + failed
      = length (FetchDailyData.select_stock_symbols (saved s))
    ∧ saved s' = set_PriceData (λ p, p ++ added) (saved s)
    ∧ tables s' = saved s'.
Proof.
  intros Hconnect Hquery Hsome.
  unfold FetchDailyData.main, sqlite3_connect, try_except,
    FetchDailyData.get_all_stock_symbols, execute_query.
  rewrite Hconnect. run. rewrite Hquery. run.
  destruct (FetchDailyData.select_stock_symbols (saved s))
    as [|symbol symbols] eqn:Hsym; [done|].
  rewrite <- Hsym. clear Hsome.
  set (n := length (FetchDailyData.select_stock_symbols (saved s))).
  rewrite print_run. run. unfold reset_counters. run.
  match goal with |- context [FetchDailyData.process_symbols w n 1 ?l ?s0] =>
    destruct (process_symbols_accounts w n l 1 s0)
      as (s1 & added & Hloop & Ht & Hi & Hc) end.
  rewrite Hloop. run. rewrite commit_run. run. unfold print_summary.
  rewrite print_run. unfold close, rollback.
  cbn [say tables saved out counters tick slept] in *.
  unfold counted in Hc. cbn in Hi, Hc.
  eexists _, (successful_updates (counters s1)),
    (failed_updates (counters s1)), added.
  split_and!; [done| | |done..].
  - cbn. by rewrite last_snoc, Hi.
  - done.
Qed.

(** X3. [main] of fetch_daily_data.py before its loop. A connection that
    cannot be opened is printed and [main] returns normally, the store
    untouched. An exception of the symbol query is printed, rolled back
    and raised again, the connection closed. With no stock in the Asset
    table [main] prints that and returns, nothing written. *)
Theorem main_failures_before_the_loop w s :
  (∀ e, exec_fault w (tick s) = Some e →
     FetchDailyData.main w s = (Ok tt, say (ErrTop e) (step_tick s)))
  ∧ (∀ e, exec_fault w (tick s) = None →
       exec_fault w (S (tick s)) = Some e →
       ∃ s', FetchDailyData.main w s = (Raise e, s')
             ∧ tables s' = saved s ∧ saved s' = saved s
             ∧ out s' = out s ++ [ErrFatal e])
  ∧ (exec_fault w (tick s) = None →
     exec_fault w (S (tick s)) = None →
     FetchDailyData.select_stock_symbols (saved s) = [] →
     ∃ s', FetchDailyData.main w s = (Ok tt, s')
           ∧ tables s' = saved s ∧ saved s' = saved s
           ∧ out s' = out s ++ [FoundSymbols 0; NoStocksFound]).
Proof.
  unfold FetchDailyData.main, sqlite3_connect, try_except,
    FetchDailyData.get_all_stock_symbols, execute_query.
  split_and!.
  - intros e ->. by rewrite print_run.
  - intros e -> Hquery. run. rewrite Hquery.
    unfold close, rollback. run. rewrite !print_run. run.
    eexists. by split_and!.
  - intros -> Hquery Hnone. run. rewrite Hquery, Hnone. run.
    rewrite !print_run. unfold close, rollback. run.
    eexists. split_and!; try done. cbn. by rewrite <- app_assoc.
Qed.

(** X4. A turn of the loop of fetch_daily_data.py commits only when its
    index is a multiple of 10, and then only when its [try] block did not
    raise: the [conn.commit()] is the last statement of the block, so an
    exception of [update_daily_data] at turn 10, 20, ... skips it and the
    rows inserted so far stay uncommitted until a later commit. *)
Theorem a_turn_commits_only_at_a_multiple_of_ten w n i symbol s :
  ∃ s',
    FetchDailyData.process_symbol w n i symbol s = (Ok tt, s')
    ∧ (i mod 10 ≠ 0 → saved s' = saved s)
    ∧ (i mod 10 = 0 →
       (∀ e s2, FetchDailyData.symbol_body w i symbol
                  (say (Processing i n symbol) s) ≠ (Raise e, s2)) →
       saved s' = tables s')
    ∧ (∀ e s2, FetchDailyData.symbol_body w i symbol
                 (say (Processing i n symbol) s) = (Raise e, s2) →
       saved s' = saved s ∧ tables s' = tables s).
Proof.
  destruct (process_symbol_accounts w n i symbol s)
    as (s' & added & Hrun & Ht & _ & _ & Hother & _ & Htenth & Hraise).
  exists s'. split_and!; try done.
  intros e s2 Hbody. destruct (Hraise e s2 Hbody) as [Hs ->].
  by rewrite Ht, set_PriceData_nil.
Qed.

(** X2 at three stocks, each answered with two bars. *)
Lemma main_summary_witness :
  exec_fault two_bars (tick (fresh_state abc)) = None
  ∧ exec_fault two_bars (S (tick (fresh_state abc))) = None
  ∧ FetchDailyData.select_stock_symbols (saved (fresh_state abc)) ≠ []
  ∧ ∃ s' successful failed added,
      FetchDailyData.main two_bars (fresh_state abc) = (Ok tt, s')
      ∧ last (out s')
        = Some (Summary
                  (length (FetchDailyData.select_stock_symbols
                             (saved (fresh_state abc))))
                  successful failed (length added))
      ∧ successful + failed
        = length (FetchDailyData.select_stock_symbols
                    (saved (fresh_state abc)))
      ∧ saved s' = set_PriceData (λ p, p ++ added) (saved (fresh_state abc))
      ∧ tables s' = saved s'.
Proof.
  assert (FetchDailyData.select_stock_symbols (saved (fresh_state abc)) ≠ [])
    as Hsome by (vm_compute; discriminate).
  split; [reflexivity|]. split; [reflexivity|]. split; [exact Hsome|].
  exact (main_summary_counts_what_was_committed two_bars (fresh_state abc)
           eq_refl eq_refl Hsome).
Defined.

(** ** fetch_daily_simple.py: the writer, the driver and the exit status *)

Lemma fetch_and_update_stock_total w symbol s :
  ∃ added s',
    FetchDailySimple.fetch_and_update_stock w symbol s
      = (Ok (length added), s')
    ∧ tables s' = set_PriceData (λ p, p ++ added) (tables s)
    ∧ saved s' = saved s ∧ counters s' = counters s ∧ slept s' = slept s
    ∧ Forall (λ p, p_assetId p = resolved symbol (tables s)) added
    ∧ (∀ e, exec_fault w (tick s) = Some e
            ∨ (exec_fault w (tick s) = None
               ∧ falsy (select_asset_id symbol (tables s)) = false
               ∧ history w symbol = HistRaises e) →
         added = [] ∧ last (out s') = Some (ErrFailedToProcess symbol e)).
Proof.
  rewrite fetch_and_update_stock_run.
  destruct (exec_fault w (tick s)) as [e|] eqn:Hf.
  { exists [], (say (ErrFailedToProcess symbol e) (step_tick s)).
    rewrite set_PriceData_nil. split_and!; try done.
    intros e' [[= <-]|[? _]]; [|done]. cbn. by rewrite last_snoc. }
  destruct (falsy _) eqn:Hfalsy.
  { exists [], (say (WarnAssetNotFound symbol) (step_tick s)).
    rewrite set_PriceData_nil. split_and!; try done.
    by intros e' [?|(_ & ? & _)]. }
  destruct (history w symbol) as [e|[|row rows]] eqn:Hhist.
  - exists [], (say (ErrFailedToProcess symbol e) (step_tick s)).
    rewrite set_PriceData_nil. split_and!; try done.
    intros e' [?|(_ & _ & [= <-])]; [done|]. cbn. by rewrite last_snoc.
  - exists [], (say (WarnNoDataAvailable symbol) (step_tick s)).
    rewrite set_PriceData_nil. split_and!; try done.
    by intros e' [?|(_ & _ & ?)].
  - destruct (exec_fault w (S (tick s))) as [e|].
    { exists [], (say (ErrFailedToProcess symbol e) (step_tick (step_tick s))).
      rewrite set_PriceData_nil. split_and!; try done.
      by intros e' [?|(_ & _ & ?)]. }
    cbn zeta. eexists _, _. split_and!; try done.
    + eapply Forall_impl; [apply inserted_rows_asset|]. by intros p [? ?].
    + by intros e' [?|(_ & _ & ?)].
Qed.

(** X5. [fetch_and_update_stock] of fetch_daily_simple.py never raises,
    commits nothing, and returns exactly the number of PriceData rows it
    appended, all for the asset the symbol resolves to. A lookup that
    raises and a provider that raises are caught inside: the function
    prints the error and returns 0 with nothing inserted, as on a day
    without new data. *)
Theorem fetch_and_update_stock_never_raises w symbol s :
  ∃ added s',
    FetchDailySimple.fetch_and_update_stock w symbol s
      = (Ok (length added), s')
    ∧ tables s' = set_PriceData (λ p, p ++ added) (tables s)
    ∧ saved s' = saved s
    ∧ Forall (λ p, p_assetId p = resolved symbol (tables s)) added
    ∧ (∀ e, exec_fault w (tick s) = Some e
            ∨ (exec_fault w (tick s) = None
               ∧ falsy (select_asset_id symbol (tables s)) = false
               ∧ history w symbol = HistRaises e) →
         added = [] ∧ last (out s') = Some (ErrFailedToProcess symbol e)).
Proof.
  destruct (fetch_and_update_stock_total w symbol s)
    as (added & s' & Hrun & Ht & Hs & _ & _ & Hid & Herr).
  by exists added, s'.
Qed.

Lemma sleep_run q s :
  sleep q s = (Ok tt, mkSt (tables s) (saved s) (tick s) (Qplus (slept s) q)
                        (out s) (counters s)).
Proof. reflexivity. Qed.

Lemma process_stock_accounts w n i stock s :
  ∃ added s',
    FetchDailySimple.process_stock w n i stock s = (Ok tt, s')
    ∧ tables s' = set_PriceData (λ p, p ++ added) (tables s)
    ∧ saved s' = tables s'
    ∧ counters s' = one_more_successful (length added) (counters s)
    ∧ slept s' = Qplus (slept s) (pause i).
Proof.
  unfold FetchDailySimple.process_stock, try_except, pause. run_driver.
  destruct (fetch_and_update_stock_total w stock
              (say (Processing i n stock) s))
    as (added & s1 & Hrun & Ht & Hs & Hc & Hsl & _).
  rewrite Hrun. run_driver.
  exists added.
  case_bool_decide; run_driver; rewrite sleep_run; eexists;
    (split; [reflexivity|]);
    cbn [tables saved counters slept with_counters say];
    rewrite ?Ht, ?Hc, ?Hsl; by split_and!.
Qed.

Lemma process_stocks_accounts w n all_stocks : ∀ i s,
  ∃ added s',
    FetchDailySimple.process_stocks w n i all_stocks s = (Ok tt, s')
    ∧ tables s' = set_PriceData (λ p, p ++ added) (tables s)
    ∧ (saved s = tables s ∨ all_stocks ≠ [] → saved s' = tables s')
    ∧ total_inserted (counters s')
      = total_inserted (counters s) + length added
    ∧ successful_updates (counters s')
      = successful_updates (counters s) + length all_stocks
    ∧ failed_updates (counters s') = failed_updates (counters s).
Proof.
  induction all_stocks as [|stock rest IH]; intros i s.
  - exists [], s. rewrite set_PriceData_nil. cbn.
    split_and!; try done; try lia. by intros [?|?].
  - cbn [FetchDailySimple.process_stocks]. rewrite bind_run.
    destruct (process_stock_accounts w n i stock s)
      as (a1 & s1 & -> & Ht1 & Hs1 & Hc1 & _).
    destruct (IH (S i) s1) as (a2 & s' & -> & Ht & Hs & Hi & Hsu & Hfa).
    exists (a1 ++ a2), s'.
    rewrite Ht, Ht1, set_PriceData_app, Hi, Hsu, Hfa, Hc1, length_app.
    cbn. split_and!; try done; try lia.
    intros _. rewrite <- set_PriceData_app, <- Ht1, <- Ht. apply Hs. by left.
Qed.

(** X6. The driver loop of fetch_daily_simple.py counts every stock as a
    success. [fetch_and_update_stock] returns a count, never an exception,
    and a count is never negative, so the [else] of [new_count >= 0] is
    dead: each turn adds one to [successful_updates] and none to
    [failed_updates], whatever the provider or the store did, commits what
    the turn inserted and sleeps 2 s at every tenth stock and 0.1 s
    otherwise. ([conn.commit] and [time.sleep] do not raise here.) *)
Theorem simple_driver_never_counts_a_failure w n :
  (∀ i stock s, ∃ added s',
     FetchDailySimple.process_stock w n i stock s = (Ok tt, s')
     ∧ tables s' = set_PriceData (λ p, p ++ added) (tables s)
     ∧ saved s' = tables s'
     ∧ counters s' = one_more_successful (length added) (counters s)
     ∧ slept s' = Qplus (slept s) (pause i))
  ∧ (∀ all_stocks i s, ∃ added s',
       FetchDailySimple.process_stocks w n i all_stocks s = (Ok tt, s')
       ∧ tables s' = set_PriceData (λ p, p ++ added) (tables s)
       ∧ total_inserted (counters s')
         = total_inserted (counters s) + length added
       ∧ successful_updates (counters s')
         = successful_updates (counters s) + length all_stocks
       ∧ failed_updates (counters s') = failed_updates (counters s)).
Proof.
  split.
  - intros i stock s. apply process_stock_accounts.
  - intros all_stocks i s.
    destruct (process_stocks_accounts w n all_stocks i s)
      as (added & s' & Hrun & Ht & _ & Hi & Hsu & Hfa).
    by exists added, s'.
Qed.

Lemma wait_for_database_from_bounds w max_retries remaining : ∀ i s,
  ∃ r s' k,
    FetchDailySimple.wait_for_database_from w max_retries i remaining s
      = (r, s')
    ∧ k ≤ remaining
    ∧ out s' = out s ++ locked_messages max_retries i k
    ∧ (slept s' == slept s + inject_Z (2 * Z.of_nat k))%Q
    ∧ saved s' = saved s ∧ counters s' = counters s
    ∧ tick s' ≤ tick s + 2 * remaining
    ∧ (r = Ok tt → k < remaining ∧ tables s' = saved s)
    ∧ (k = remaining → r = Raise remained_locked).
Proof.
  induction remaining as [|remaining IH]; intros i s.
  - exists (Raise remained_locked), s, 0.
    change (locked_messages max_retries i 0) with (@nil Msg).
    rewrite app_nil_r. split_and!; try done; try lia.
    change (inject_Z (2 * Z.of_nat 0)) with 0%Q. ring.
  - rewrite wait_for_database_from_step, attempt_run.
    assert (∀ (r : Res unit) s1,
              out s1 = out s → slept s1 = slept s → saved s1 = saved s →
              counters s1 = counters s → tick s1 ≤ tick s + 2 →
              (r = Ok tt → tables s1 = saved s) →
              ∃ r0 s' k, (r, s1) = (r0, s')
                ∧ k ≤ S remaining
                ∧ out s' = out s ++ locked_messages max_retries i k
                ∧ (slept s' == slept s + inject_Z (2 * Z.of_nat k))%Q
                ∧ saved s' = saved s ∧ counters s' = counters s
                ∧ tick s' ≤ tick s + 2 * S remaining
                ∧ (r0 = Ok tt → k < S remaining ∧ tables s' = saved s)
                ∧ (k = S remaining → r0 = Raise remained_locked)) as Hstop.
    { intros r s1 Ho Hsl Hsa Hc Ht Htab. exists r, s1, 0.
      change (locked_messages max_retries i 0) with (@nil Msg).
      rewrite app_nil_r, Hsl. split_and!; try done; try lia.
      - change (inject_Z (2 * Z.of_nat 0)) with 0%Q. ring.
      - intros ->. split; [lia|by apply Htab]. }
    assert (∀ s1,
              out s1 = out s → slept s1 = slept s → saved s1 = saved s →
              counters s1 = counters s → tick s1 ≤ tick s + 2 →
              ∃ r0 s' k,
                FetchDailySimple.wait_for_database_from w max_retries (S i)
                  remaining
                  (sleep 2 (say (DatabaseLocked (i + 1) max_retries) s1)).2
                = (r0, s')
                ∧ k ≤ S remaining
                ∧ out s' = out s ++ locked_messages max_retries i k
                ∧ (slept s' == slept s + inject_Z (2 * Z.of_nat k))%Q
                ∧ saved s' = saved s ∧ counters s' = counters s
                ∧ tick s' ≤ tick s + 2 * S remaining
                ∧ (r0 = Ok tt → k < S remaining ∧ tables s' = saved s)
                ∧ (k = S remaining → r0 = Raise remained_locked)) as Hgo.
    { intros s1 Ho Hsl Hsa Hc Ht.
      destruct (IH (S i)
                  (sleep 2 (say (DatabaseLocked (i + 1) max_retries) s1)).2)
        as (r & s' & k & -> & Hk & Hout & Hslept & Hsaved & Hcnt & Htick
            & Hok & Hall).
      cbn [sleep say snd out slept saved counters tick] in *.
      exists r, s', (S k).
      rewrite Hout, Hslept, Hsaved, Hcnt, Ho, Hsl, Hsa, Hc,
        locked_messages_succ, <- app_assoc.
      split_and!; try done; try lia.
      - rewrite Nat2Z.inj_succ, <- Z.add_1_r, Z.mul_add_distr_l,
          inject_Z_plus.
        change (inject_Z (2 * 1)) with 2%Q. ring.
      - intros Hr. destruct (Hok Hr) as [? ->]. split; [lia|done].
      - intros [= ->]. by apply Hall. }
    destruct (exec_fault w (tick s)) as [e|].
    { destruct (retried e).
      - apply Hgo; cbn; try done; lia.
      - apply Hstop; cbn; try done; lia. }
    destruct (exec_fault w (S (tick s))) as [e|].
    { destruct (retried e).
      - apply Hgo; cbn; try done; lia.
      - apply Hstop; cbn; try done; lia. }
    apply Hstop; cbn; try done; lia.
Qed.

Lemma locked_run_le w m : ∀ t, locked_run w t m ≤ m.
Proof.
  induction m as [|m IH]; intros t; [done|]. cbn.
  destruct (attempt_fault w t) as [e|]; [|lia].
  destruct (retried e); [|lia]. specialize (IH (t + attempt_calls w t)). lia.
Qed.

Lemma locked_run_locked w m : ∀ t,
  locked_attempts w t (locked_run w t m) = true.
Proof.
  induction m as [|m IH]; intros t; [done|]. cbn.
  destruct (attempt_fault w t) as [e|] eqn:Hfault; [|done].
  destruct (retried e) eqn:Hretried; [|done].
  cbn. by rewrite Hfault, Hretried, IH.
Qed.

Lemma after_locked_tick w max_retries k : ∀ i s,
  locked_attempts w (tick s) k = true →
  tick (after_locked w max_retries i k s) ≤ tick s + 2 * k.
Proof.
  induction k as [|k IH]; intros i s Hlocked; [cbn; lia|].
  cbn [after_locked locked_attempts] in *.
  destruct (attempt_outcome w s) as (_ & Htick & _).
  destruct (attempt_fault w (tick s)) as [e|]; [|done].
  apply andb_prop in Hlocked as [_ Hlocked].
  etrans; [apply IH|].
  - cbn. by rewrite Htick.
  - cbn. rewrite Htick. unfold attempt_calls.
    destruct (exec_fault w (tick s)); lia.
Qed.

(** The attempt after the run of locked ones is not retried. *)
Lemma locked_run_stops w max_retries m : ∀ i s e,
  locked_run w (tick s) m < m →
  attempt_fault w
    (tick (after_locked w max_retries i (locked_run w (tick s) m) s))
    = Some e →
  retried e = false.
Proof.
  induction m as [|m IH]; intros i s e Hlt; [lia|].
  cbn [locked_run] in *.
  destruct (attempt_outcome w s) as (_ & Htick & _).
  destruct (attempt_fault w (tick s)) as [e0|] eqn:Hfault.
  - destruct (retried e0) eqn:Hretried.
    + cbn [after_locked]. intros He.
      apply (IH (S i)
               (sleep 2 (say (DatabaseLocked (i + 1) max_retries)
                           (attempt w s).2)).2 e).
      * cbn. rewrite Htick. lia.
      * cbn [sleep say snd tick] in *. by rewrite Htick in *.
    + cbn [after_locked]. rewrite Hfault. by intros [= <-].
  - cbn [after_locked]. by rewrite Hfault.
Qed.

(** X8. [wait_for_database] for any [max_retries]. Let [k] be the
    number of attempts in a row, from the first one, that fail with the
    locked error, among at most [max_retries] attempts. The function
    makes these [k] attempts, prints one message and sleeps 2 s after
    each of them, makes at most two calls into sqlite3 per attempt and
    commits nothing. When [k = max_retries] every attempt was locked and
    it raises "Database remained locked after all retries"; with
    [max_retries = 0] it does so without connecting. Otherwise the
    attempt after these ends the call: when it succeeds the function
    returns the connection, which sees the committed tables; when it
    fails, its error is not the locked error and is raised as it is,
    with no message and no sleep. *)
Theorem wait_for_database_is_bounded w max_retries s :
  let k := locked_run w (tick s) max_retries in
  let s_k := after_locked w max_retries 0 k s in
  ∃ r s',
    FetchDailySimple.wait_for_database w max_retries s = (r, s')
    ∧ k ≤ max_retries
    ∧ locked_attempts w (tick s) k = true
    ∧ out s' = out s ++ locked_messages max_retries 0 k
    ∧ (slept s' == slept s + inject_Z (2 * Z.of_nat k))%Q
    ∧ saved s' = saved s
    ∧ tick s' ≤ tick s + 2 * max_retries
    ∧ (k = max_retries → r = Raise remained_locked ∧ s' = s_k)
    ∧ (k < max_retries →
         s' = (attempt w s_k).2
         ∧ match attempt_fault w (tick s_k) with
           | None => r = Ok tt ∧ tables s' = saved s
           | Some e => r = Raise e ∧ retried e = false
           end)
    ∧ (r = Ok tt → k < max_retries ∧ tables s' = saved s).
Proof.
  intros k s_k.
  pose proof (locked_run_le w max_retries (tick s)) as Hk. fold k in Hk.
  pose proof (locked_run_locked w max_retries (tick s)) as Hlocked.
  fold k in Hlocked.
  pose proof (wait_through_locked w max_retries k 0 (max_retries - k) s
                Hlocked) as Hwait.
  replace (k + (max_retries - k)) with max_retries in Hwait by lia.
  fold s_k in Hwait. cbn [Nat.add] in Hwait.
  destruct (after_locked_facts w max_retries k 0 s)
    as (Hout & Hslept & Hsaved & _).
  fold s_k in Hout, Hslept, Hsaved.
  pose proof (after_locked_tick w max_retries k 0 s Hlocked) as Htick.
  fold s_k in Htick.
  unfold FetchDailySimple.wait_for_database. rewrite Hwait.
  destruct (max_retries - k) as [|rest] eqn:Hrest.
  - exists (Raise remained_locked), s_k.
    split_and!; try done; try lia.
  - rewrite wait_for_database_from_step.
    destruct (attempt_outcome w s_k)
      as (Hres & Htick' & Hsaved' & Hslept' & Hout' & _).
    pose proof (locked_run_stops w max_retries max_retries 0 s) as Hstop.
    fold k in Hstop. fold s_k in Hstop.
    assert (tables (attempt w s_k).2 = saved s_k
            ∨ ∃ e, attempt_fault w (tick s_k) = Some e) as Htab.
    { rewrite attempt_run. unfold attempt_fault.
      destruct (exec_fault w (tick s_k)); [right; by eexists|].
      destruct (exec_fault w (S (tick s_k))); [right; by eexists|].
      by left. }
    assert (tick (attempt w s_k).2 ≤ tick s + 2 * max_retries) as Htick2.
    { rewrite Htick'. unfold attempt_calls.
      destruct (exec_fault w (tick s_k)); lia. }
    destruct (attempt w s_k) as [r s1]. cbn [fst snd] in *.
    destruct (attempt_fault w (tick s_k)) as [e|] eqn:Hfault.
    + subst r. rewrite (Hstop e) by (done || lia).
      exists (Raise e), s1. rewrite Hout', Hslept', Hsaved'.
      split_and!; try done; try lia.
    + subst r. destruct Htab as [Htab|[e He]]; [|done].
      exists (Ok tt), s1. rewrite Hout', Hslept', Hsaved'.
      split_and!; try done; try lia.
      * intros _. split_and!; congruence.
      * intros _. split; [lia|congruence].
Qed.

(** X7. [main] of fetch_daily_simple.py never raises and its exit status
    is 0 or 1. It is 1 exactly when [wait_for_database] raised or the
    symbol query raised, and then nothing was committed. With status 0
    everything inserted is committed and, when there are stocks, the last
    line is a summary that reports every stock as successful and none as
    failed. *)
Theorem simple_main_exit_status w s :
  ∃ r s',
    FetchDailySimple.main w s = (Ok r, s')
    ∧ (r = 0 ∨ r = 1)
    ∧ (r = 1 ↔
         (∃ e s1, FetchDailySimple.wait_for_database w 10 s = (Raise e, s1))
         ∨ (∃ e s1, FetchDailySimple.wait_for_database w 10 s = (Ok tt, s1)
                    ∧ exec_fault w (tick s1) = Some e))
    ∧ (r = 1 → saved s' = saved s)
    ∧ (r = 0 →
       tables s' = saved s'
       ∧ ∃ added,
           saved s' = set_PriceData (λ p, p ++ added) (saved s)
           ∧ (FetchDailySimple.select_stock_symbols (saved s) ≠ [] →
              last (out s')
              = Some (Summary
                        (length (FetchDailySimple.select_stock_symbols
                                   (saved s)))
                        (length (FetchDailySimple.select_stock_symbols
                                   (saved s)))
                        0 (length added)))).
Proof.
  destruct (wait_for_database_from_bounds w 10 10 0 s)
    as (r0 & s1 & k & Hwait & _ & _ & _ & Hsaved & _ & _ & Hok & _).
  fold (FetchDailySimple.wait_for_database w 10 s) in Hwait.
  unfold FetchDailySimple.main. rewrite Hwait.
  destruct r0 as [[]|e].
  2:{ rewrite bind_run, print_run, ret_run. eexists _, _.
      split_and!; [done|by right| |done|done].
      split; [intros _; left; by eexists _, _|done]. }
  destruct (Hok eq_refl) as [_ Htab]. clear Hok.
  unfold try_except, FetchDailySimple.get_all_stock_symbols, execute_query,
    close, rollback.
  run_driver. cbn [say tick tables].
  destruct (exec_fault w (tick s1)) as [e|] eqn:Hquery.
  { run_driver. eexists _, _. split_and!; [done|by right| |done|done].
    split; [intros _; right; by eexists _, _|done]. }
  run_driver. rewrite Htab.
  destruct (FetchDailySimple.select_stock_symbols (saved s))
    as [|stock stocks] eqn:Hsym.
  { run_driver. eexists _, _. split_and!; [done|by left| |done|].
    - split; [done|]. intros [(e & s2 & [=])|(e & s2 & [= <-] & He)].
      by rewrite Hquery in He.
    - intros _. split; [done|]. exists []. rewrite set_PriceData_nil.
      by split. }
  rewrite <- Hsym.
  set (n := length (FetchDailySimple.select_stock_symbols (saved s))).
  unfold reset_counters. run_driver.
  match goal with
  | |- context [FetchDailySimple.process_stocks w n 1 ?l ?s0] =>
      destruct (process_stocks_accounts w n l 1 s0)
        as (added & s2 & Hloop & Ht & Hs & Hi & Hsu & Hfa)
  end.
  rewrite Hloop. unfold print_summary. run_driver.
  cbn [say step_tick with_counters tables saved counters tick
       total_inserted successful_updates failed_updates] in *.
  eexists _, _. split_and!; [done|by left| |done|].
  - split; [done|]. intros [(e & s3 & [=])|(e & s3 & [= <-] & He)].
    by rewrite Hquery in He.
  - intros _. cbn [say tables saved out]. split; [done|]. exists added.
    rewrite Hs by (right; rewrite Hsym; done).
    rewrite Ht, Htab. split; [done|]. intros _.
    by rewrite last_snoc, Hi, Hsu, Hfa.
Qed.

(** ** fetch_daily_wal.py *)

Lemma insert_new_data_run w asset_id timestamp l : ∀ k s,
  FetchDailyWal.insert_new_data w asset_id timestamp l k s =
  (Ok (k + length (inserted_rows w asset_id timestamp l (tick s))),
   mkSt (set_PriceData
           (λ p, p ++ inserted_rows w asset_id timestamp l (tick s))
           (tables s))
        (saved s) (tick s + length l) (slept s)
        (out s ++ data_errors w l (tick s)) (counters s)).
Proof.
  induction l as [|dp l IH]; intros k s.
  - destruct s as [[] ? ? ? ? ?]. cbn. unfold set_PriceData. cbn.
    by rewrite !app_nil_r, !Nat.add_0_r.
  - cbn [FetchDailyWal.insert_new_data inserted_rows data_errors].
    rewrite bind_run.
    unfold try_except, generate_price_data_id, insert_PriceData,
      execute_update.
    rewrite !bind_run.
    destruct (exec_fault w (tick s)) as [e|] eqn:Hf.
    + unfold print. rewrite bind_run, ret_run, IH. cbn.
      by rewrite <- app_assoc, Nat.add_succ_r.
    + rewrite !ret_run, IH. cbn. unfold set_PriceData. cbn.
      by rewrite <- app_assoc, !Nat.add_succ_r.
Qed.

Lemma update_stock_data_commits w symbol data_points s :
  ∃ added s',
    FetchDailyWal.update_stock_data w symbol data_points s
      = (Ok (length added), s')
    ∧ saved s' = set_PriceData (λ p, p ++ added) (saved s)
    ∧ counters s' = counters s ∧ slept s' = slept s
    ∧ (data_points ≠ [] → exec_fault w (tick s) = None →
       tables s' = saved s')
    ∧ (data_points = [] ∨ exec_fault w (tick s) ≠ None →
       tables s' = tables s)
    ∧ Forall (λ p, bar_of p ∈ data_points
                   ∧ p_assetId p = resolved symbol (saved s)
                   ∧ p_date p ∉ select_dates (p_assetId p) (saved s)) added.
Proof.
  assert (∀ s', saved s' = saved s → counters s' = counters s →
            slept s' = slept s →
            (data_points ≠ [] → exec_fault w (tick s) = None →
             tables s' = saved s) →
            (data_points = [] ∨ exec_fault w (tick s) ≠ None →
             tables s' = tables s) →
            ∃ added s0,
              (Ok 0, s') = (Ok (length added), s0)
              ∧ saved s0 = set_PriceData (λ p, p ++ added) (saved s)
              ∧ counters s0 = counters s ∧ slept s0 = slept s
              ∧ (data_points ≠ [] → exec_fault w (tick s) = None →
                 tables s0 = saved s0)
              ∧ (data_points = [] ∨ exec_fault w (tick s) ≠ None →
                 tables s0 = tables s)
              ∧ Forall (λ p, bar_of p ∈ data_points
                         ∧ p_assetId p = resolved symbol (saved s)
                         ∧ p_date p ∉ select_dates (p_assetId p) (saved s))
                       added) as Hnothing.
  { intros s' Hs Hc Hsl Ht Ht'. exists [], s'. rewrite set_PriceData_nil.
    split_and!; try done. intros ? ?. rewrite Hs. by apply Ht. }
  destruct data_points as [|dp0 dps].
  { apply Hnothing; try done. }
  unfold FetchDailyWal.update_stock_data.
  remember (dp0 :: dps) as data_points eqn:Hdps.
  assert (data_points ≠ []) as Hne by (by rewrite Hdps).
  unfold try_except, FetchDailyWal.connect_with_wal, sqlite3_connect,
    get_asset_id, execute_query.
  run. destruct (exec_fault w (tick s)) as [e|] eqn:Hf0.
  { run_driver. apply Hnothing; try done.  }
  assert (data_points = [] ∨ @None exn ≠ None → False) as Hno
    by (intros [?|?]; done).
  run. destruct (exec_fault w (S (tick s))) as [e|].
  { run_driver. apply Hnothing; try done;
      intros ?; by destruct Hno. }
  run. destruct (exec_fault w (S (S (tick s)))) as [e|].
  { run_driver. apply Hnothing; try done;
      intros ?; by destruct Hno. }
  run. destruct (exec_fault w (S (S (S (tick s))))) as [e|].
  { run_driver. apply Hnothing; try done;
      intros ?; by destruct Hno. }
  run. destruct (falsy (select_asset_id symbol (saved s))) eqn:Hfalsy.
  { unfold close, rollback. run_driver. apply Hnothing; try done;
      intros ?; by destruct Hno. }
  run. destruct (exec_fault w (S (S (S (S (tick s)))))) as [e|].
  { run_driver. apply Hnothing; try done;
      intros ?; by destruct Hno. }
  run. fold (resolved symbol (saved s)).
  fold (new_points (resolved symbol (saved s)) data_points (saved s)).
  destruct (new_points _ _ _) as [|n0 news] eqn:Hnew.
  { unfold close, rollback. run_driver. apply Hnothing; try done;
      intros ?; by destruct Hno. }
  rewrite <- Hnew. unfold timestamp_ms. run.
  rewrite insert_new_data_run. run. rewrite commit_run.
  unfold close, rollback. run.
  assert (∀ ts t0,
            Forall (λ p, bar_of p ∈ data_points
                     ∧ p_assetId p = resolved symbol (saved s)
                     ∧ p_date p ∉ select_dates (p_assetId p) (saved s))
              (inserted_rows w (resolved symbol (saved s)) ts
                 (new_points (resolved symbol (saved s)) data_points
                    (saved s)) t0)) as Hadded.
  { intros ts t0. apply Forall_forall. intros p Hp.
    pose proof (inserted_rows_asset w (resolved symbol (saved s)) ts
                  (new_points (resolved symbol (saved s)) data_points
                     (saved s)) t0) as Has.
    rewrite Forall_forall in Has. destruct (Has p Hp) as [Hid _].
    apply (list_elem_of_fmap_2 bar_of) in Hp.
    rewrite inserted_rows_bars in Hp.
    eapply elem_of_sublist in Hp; [|apply succeeded_sublist].
    apply list_elem_of_filter in Hp as [Hnot Hin].
    rewrite elem_of_list_to_set in Hnot. rewrite Hid. by split_and!. }
  set (added := inserted_rows _ _ _ _ _) in *.
  exists added. change (0 + length added) with (length added).
  case_bool_decide; run_driver; eexists; (split; [reflexivity|]);
    cbn [say tables saved counters slept]; split_and!; try done;
    try apply Hadded; intros ?; by destruct Hno.
Qed.

(** X9. [update_stock_data] of fetch_daily_wal.py never raises and
    returns the number of rows it inserted, which are committed when it
    returns: once its own connection is open nothing uncommitted is left
    behind. Every row it inserts is a bar of the batch, for the asset the
    symbol resolves to, with a date that was not committed for that asset
    before. *)
Theorem wal_writer_commits_what_it_inserts w symbol data_points s :
  ∃ added s',
    FetchDailyWal.update_stock_data w symbol data_points s
      = (Ok (length added), s')
    ∧ saved s' = set_PriceData (λ p, p ++ added) (saved s)
    ∧ (data_points ≠ [] → exec_fault w (tick s) = None →
       tables s' = saved s')
    ∧ Forall (λ p, bar_of p ∈ data_points
                   ∧ p_assetId p = resolved symbol (saved s)
                   ∧ p_date p ∉ select_dates (p_assetId p) (saved s)) added.
Proof.
  destruct (update_stock_data_commits w symbol data_points s)
    as (added & s' & Hrun & Hs & _ & _ & Ht & _ & Hall).
  by exists added, s'.
Qed.

Lemma process_main_stock_accounts w symbol s :
  ∃ added s',
    FetchDailyWal.process_main_stock w symbol s = (Ok tt, s')
    ∧ saved s' = set_PriceData (λ p, p ++ added) (saved s)
    ∧ total_inserted (counters s')
      = total_inserted (counters s) + length added
    ∧ slept s' = Qplus (slept s) (1 # 2).
Proof.
  unfold FetchDailyWal.process_main_stock. rewrite bind_run.
  rewrite fetch_stock_data_run.
  assert (∀ s1, saved s1 = saved s → counters s1 = counters s →
            slept s1 = slept s →
            ∃ added s',
              (Ok tt, (sleep (1 # 2) s1).2) = (Ok tt, s')
              ∧ saved s' = set_PriceData (λ p, p ++ added) (saved s)
              ∧ total_inserted (counters s')
                = total_inserted (counters s) + length added
              ∧ slept s' = Qplus (slept s) (1 # 2)) as Hnothing.
  { intros s1 Hs Hc Hsl. exists [], (sleep (1 # 2) s1).2.
    rewrite set_PriceData_nil. cbn. rewrite Hs, Hc, Hsl.
    split_and!; try done; lia. }
  destruct (history w symbol) as [e|rows].
  { run_driver. by apply Hnothing. }
  destruct (data_point_of <$> filter complete rows) as [|dp0 dps].
  { run_driver. by apply Hnothing. }
  run_driver.
  destruct (update_stock_data_commits w symbol (dp0 :: dps) s)
    as (added & s1 & Hrun & Hs & Hc & Hsl & _).
  rewrite Hrun. run_driver. rewrite sleep_run.
  exists added. eexists. split; [reflexivity|]. cbn. by rewrite Hs, Hc, Hsl.
Qed.

Lemma process_main_stocks_accounts w symbols : ∀ s,
  ∃ added s',
    FetchDailyWal.process_main_stocks w symbols s = (Ok tt, s')
    ∧ saved s' = set_PriceData (λ p, p ++ added) (saved s)
    ∧ total_inserted (counters s')
      = total_inserted (counters s) + length added
    ∧ (slept s' == slept s + inject_Z (Z.of_nat (length symbols)) * (1 # 2))%Q.
Proof.
  induction symbols as [|symbol symbols IH]; intros s.
  - exists [], s. rewrite set_PriceData_nil.
    split_and!; try done; try (cbn; lia).
    change (inject_Z (Z.of_nat (length (@nil string)))) with 0%Q. ring.
  - cbn [FetchDailyWal.process_main_stocks]. rewrite bind_run.
    destruct (process_main_stock_accounts w symbol s)
      as (a1 & s1 & -> & Hs1 & Hi1 & Hsl1).
    destruct (IH s1) as (a2 & s' & -> & Hs & Hi & Hsl).
    exists (a1 ++ a2), s'.
    rewrite Hs, Hs1, set_PriceData_app, Hi, Hi1, Hsl, Hsl1, length_app.
    split_and!; try done; try lia.
    cbn [length]. rewrite Nat2Z.inj_succ, <- Z.add_1_r, inject_Z_plus.
    change (inject_Z 1) with 1%Q. ring.
Qed.

(** X10. [main] of fetch_daily_wal.py never raises: its loop has no
    [try], and needs none, since the fetcher and the writer catch
    everything. [total_new] ends as the number of PriceData rows the run
    committed, and the run sleeps 0.5 s after each of the five symbols. *)
Theorem wal_main_counts_what_it_commits w s :
  ∃ added s',
    FetchDailyWal.main w s = (Ok tt, s')
    ∧ saved s' = set_PriceData (λ p, p ++ added) (saved s)
    ∧ total_inserted (counters s') = length added
    ∧ (slept s' == slept s + (5 # 2))%Q.
Proof.
  unfold FetchDailyWal.main, reset_counters. rewrite bind_run.
  match goal with
  | |- context [FetchDailyWal.process_main_stocks w ?l ?s0] =>
      destruct (process_main_stocks_accounts w l s0)
        as (added & s' & Hrun & Hs & Hi & Hsl)
  end.
  exists added, s'. rewrite Hrun, Hs, Hi, Hsl. cbn [with_counters saved
    counters slept total_inserted].
  split_and!; try done;
    change (inject_Z (Z.of_nat (length FetchDailyWal.MAIN_STOCKS))) with 5%Q;
    ring.
Qed.

(** ** add_missing_stocks.py *)

Lemma store_data_points_run w asset_id timestamp rows : ∀ k s,
  AddMissingStocks.store_data_points w asset_id timestamp rows k s =
  let l := data_point_of <$> filter complete rows in
  (Ok (k + length (inserted_rows w asset_id timestamp l (tick s))),
   mkSt (set_PriceData
           (λ p, p ++ inserted_rows w asset_id timestamp l (tick s))
           (tables s))
        (saved s) (tick s + length l) (slept s)
        (out s ++ data_errors w l (tick s)) (counters s)).
Proof.
  induction rows as [|row rows IH]; intros k s.
  - cbn. rewrite set_PriceData_nil, app_nil_r, !Nat.add_0_r.
    by destruct s.
  - cbn [AddMissingStocks.store_data_points]. rewrite filter_cons.
    destruct (decide (complete row)) as [Hc|Hc]; unfold complete in Hc.
    2:{ apply not_false_is_true in Hc. rewrite Hc. apply IH. }
    rewrite Hc, bind_run.
    unfold try_except, generate_price_data_id, insert_PriceData,
      execute_update.
    rewrite !bind_run.
    cbn [fmap list_fmap inserted_rows data_errors length].
    destruct (exec_fault w (tick s)) as [e|] eqn:Hf.
    + unfold print. rewrite bind_run, ret_run, IH. cbn.
      by rewrite <- app_assoc, Nat.add_succ_r.
    + rewrite !ret_run, IH. cbn. unfold set_PriceData. cbn.
      by rewrite <- app_assoc, !Nat.add_succ_r.
Qed.

Lemma fetch_and_store_data_run w asset_id symbol s :
  AddMissingStocks.fetch_and_store_data w asset_id symbol s =
  match history w symbol with
  | HistRaises e => (Ok 0, say (ErrFetching symbol e) s)
  | Hist [] => (Ok 0, say (WarnNoDataAvailable symbol) s)
  | Hist rows =>
      let l := data_point_of <$> filter complete rows in
      let added := inserted_rows w asset_id (now_ms w (tick s)) l (tick s) in
      (Ok (length added),
       mkSt (set_PriceData (λ p, p ++ added) (tables s)) (saved s)
            (tick s + length l) (slept s)
            (out s ++ data_errors w l (tick s)) (counters s))
  end.
Proof.
  unfold AddMissingStocks.fetch_and_store_data, try_except.
  destruct (history w symbol) as [e|[|row rows]]; [reflexivity..|].
  unfold timestamp_ms. run. rewrite store_data_points_run. reflexivity.
Qed.

Lemma fetch_and_store_data_appends w asset_id symbol s :
  ∃ added s',
    AddMissingStocks.fetch_and_store_data w asset_id symbol s
      = (Ok (length added), s')
    ∧ tables s' = set_PriceData (λ p, p ++ added) (tables s)
    ∧ saved s' = saved s ∧ counters s' = counters s
    ∧ bar_of <$> added
      = succeeded w (data_point_of <$> filter complete (provided w symbol))
          (tick s)
    ∧ Forall (λ p, p_assetId p = asset_id) added.
Proof.
  rewrite fetch_and_store_data_run. unfold provided.
  destruct (history w symbol) as [e|[|row rows]].
  - exists [], (say (ErrFetching symbol e) s). rewrite set_PriceData_nil.
    by split_and!.
  - exists [], (say (WarnNoDataAvailable symbol) s).
    rewrite set_PriceData_nil. by split_and!.
  - cbn zeta. eexists _, _. split_and!; try done.
    + apply inserted_rows_bars.
    + eapply Forall_impl; [apply inserted_rows_asset|]. by intros p [? ?].
Qed.

(** X11. [fetch_and_store_data] of add_missing_stocks.py never raises and
    returns the number of rows it appended: one for every row of the frame
    with its four prices present whose insert did not raise, whatever is
    stored already. It reads no stored date, so when no statement raises a
    second call appends the same bars a second time. *)
Theorem fetch_and_store_data_has_no_duplicate_filter w asset_id symbol s :
  ∃ added s',
    AddMissingStocks.fetch_and_store_data w asset_id symbol s
      = (Ok (length added), s')
    ∧ tables s' = set_PriceData (λ p, p ++ added) (tables s)
    ∧ saved s' = saved s
    ∧ bar_of <$> added
      = succeeded w (data_point_of <$> filter complete (provided w symbol))
          (tick s)
    ∧ Forall (λ p, p_assetId p = asset_id) added
    ∧ ((∀ k, exec_fault w k = None) →
       bar_of <$> added
       = data_point_of <$> filter complete (provided w symbol)
       ∧ ∃ again s'',
           AddMissingStocks.fetch_and_store_data w asset_id symbol s'
             = (Ok (length again), s'')
           ∧ t_PriceData (tables s'')
             = t_PriceData (tables s) ++ added ++ again
           ∧ bar_of <$> again = bar_of <$> added
           ∧ Forall (λ p, p_assetId p = asset_id) again).
Proof.
  destruct (fetch_and_store_data_appends w asset_id symbol s)
    as (added & s' & Hrun & Ht & Hs & _ & Hbars & Hid).
  exists added, s'. split_and!; try done.
  intros Hcalm.
  assert (∀ l t, succeeded w l t = l) as Hall
    by (intros l t; apply succeeded_all; intros; apply Hcalm).
  rewrite Hall in Hbars. split; [done|].
  destruct (fetch_and_store_data_appends w asset_id symbol s')
    as (again & s'' & Hrun2 & Ht2 & _ & _ & Hbars2 & Hid2).
  rewrite Hall in Hbars2.
  exists again, s''. split_and!; try done.
  - rewrite Ht2, Ht. cbn. by rewrite app_assoc.
  - by rewrite Hbars, Hbars2.
Qed.

Lemma set_Asset_PriceData_app a1 p1 a2 p2 t :
  set_Asset (λ l, l ++ a2)
    (set_PriceData (λ p, p ++ p2)
       (set_Asset (λ l, l ++ a1) (set_PriceData (λ p, p ++ p1) t)))
  = set_Asset (λ l, l ++ (a1 ++ a2)) (set_PriceData (λ p, p ++ (p1 ++ p2)) t).
Proof. unfold set_Asset, set_PriceData. cbn. by rewrite !app_assoc. Qed.

Lemma set_Asset_PriceData_nil t :
  set_Asset (λ l, l ++ []) (set_PriceData (λ p, p ++ []) t) = t.
Proof. destruct t. unfold set_Asset, set_PriceData. cbn. by rewrite !app_nil_r. Qed.

Lemma add_stock_to_database_appends w symbol name s :
  ∃ r s' assets,
    AddMissingStocks.add_stock_to_database w symbol name s = (r, s')
    ∧ tables s' = set_Asset (λ l, l ++ assets) (tables s)
    ∧ saved s' = saved s ∧ counters s' = counters s
    ∧ a_symbol <$> assets `sublist_of` [symbol]
    ∧ (∀ e, r = Raise e → assets = []).
Proof.
  rewrite add_stock_to_database_run.
  assert (∀ t, set_Asset (λ l, l ++ []) t = t) as Hnil.
  { intros []. unfold set_Asset. cbn. by rewrite app_nil_r. }
  assert (∀ (r : Res string) s', tables s' = tables s → saved s' = saved s →
            counters s' = counters s →
            ∃ r0 s0 assets, (r, s') = (r0, s0)
              ∧ tables s0 = set_Asset (λ l, l ++ assets) (tables s)
              ∧ saved s0 = saved s ∧ counters s0 = counters s
              ∧ a_symbol <$> assets `sublist_of` [symbol]
              ∧ (∀ e, r0 = Raise e → assets = [])) as Hsame.
  { intros r s' Ht Hs Hc. exists r, s', []. rewrite Hnil.
    split_and!; try done. apply sublist_nil_l. }
  destruct (exec_fault w (tick s)); [by apply Hsame|].
  destruct (select_asset_id symbol (tables s)).
  { destruct (exec_fault w (S (tick s))); by apply Hsame. }
  destruct (exec_fault w (S (tick s))); [by apply Hsame|].
  eexists _, _, [_]. split_and!; try done.
Qed.

Lemma process_missing_stocks_accounts w stocks : ∀ s,
  saved s = tables s →
  ∃ r s' assets prices,
    AddMissingStocks.process_missing_stocks w stocks s = (r, s')
    ∧ tables s' = saved s'
    ∧ saved s'
      = set_Asset (λ l, l ++ assets)
          (set_PriceData (λ p, p ++ prices) (saved s))
    ∧ total_inserted (counters s')
      = total_inserted (counters s) + length prices
    ∧ a_symbol <$> assets `sublist_of` stocks.*1.
Proof.
  induction stocks as [|[symbol name] stocks IH]; intros s Hclean.
  - exists (Ok tt), s, [], []. rewrite set_Asset_PriceData_nil.
    split_and!; try done; cbn; lia.
  - cbn [AddMissingStocks.process_missing_stocks]. rewrite bind_run.
    destruct (add_stock_to_database_appends w symbol name s)
      as (r & s1 & a1 & Hadd & Ht1 & Hs1 & Hc1 & Hsub1 & Hraise).
    rewrite Hadd. destruct r as [asset_id|e].
    2:{ rewrite (Hraise e eq_refl) in Ht1.
        exists (Raise e), s1, [], []. rewrite set_Asset_PriceData_nil.
        split_and!; try done.
        - rewrite Ht1, Hs1, Hclean. destruct (tables s). unfold set_Asset.
          cbn. by rewrite app_nil_r.
        - rewrite Hc1. cbn. lia.
        - apply sublist_nil_l. }
    rewrite bind_run.
    destruct (fetch_and_store_data_appends w asset_id symbol s1)
      as (p1 & s2 & Hstore & Ht2 & Hs2 & Hc2 & _).
    rewrite Hstore. run_driver.
    match goal with
    | |- context [AddMissingStocks.process_missing_stocks w stocks ?s0] =>
        destruct (IH s0 eq_refl) as (r & s' & a2 & p2 & Hloop & Ht & Hs & Hi
                                     & Hsub)
    end.
    rewrite Hloop.
    cbn [with_counters tables saved counters total_inserted] in *.
    exists r, s', (a1 ++ a2), (p1 ++ p2).
    split_and!; try done.
    + rewrite Hs, Ht2, Ht1, <- Hclean.
      unfold set_Asset, set_PriceData. cbn. by rewrite !app_assoc.
    + rewrite Hi, Hc2, Hc1, length_app. lia.
    + rewrite fmap_app. cbn [fmap list_fmap fst].
      by apply (sublist_app _ [symbol]).
Qed.

(** X12. [main] of add_missing_stocks.py. When the connection cannot be
    opened, the handler prints the error and then fails itself:
    [conn.rollback()] and, in the [finally], [conn.close()] are reached
    with [conn] unbound, so [main] raises instead of returning 1. When the
    connection opens [main] returns 0 or 1 and never raises; it commits
    after each stock, so what it leaves is committed: at most one new
    Asset row per missing stock, in order, and the price rows counted in
    [total_inserted]. *)
Theorem add_missing_main_status w s :
  (∀ e, exec_fault w (tick s) = Some e →
     AddMissingStocks.main w s
     = (Raise AddMissingStocks.unbound_conn, say (ErrTop e) (step_tick s)))
  ∧ (exec_fault w (tick s) = None →
     ∃ r s' assets prices,
       AddMissingStocks.main w s = (Ok r, s')
       ∧ (r = 0 ∨ r = 1)
       ∧ tables s' = saved s'
       ∧ saved s'
         = set_Asset (λ l, l ++ assets)
             (set_PriceData (λ p, p ++ prices) (saved s))
       ∧ total_inserted (counters s') = length prices
       ∧ a_symbol <$> assets `sublist_of` ["TSLA"; "SPY"]).
Proof.
  unfold AddMissingStocks.main, sqlite3_connect. split.
  - intros e ->. reflexivity.
  - intros ->. unfold try_except, reset_counters, close, rollback.
    run_driver.
    match goal with
    | |- context [AddMissingStocks.process_missing_stocks w ?l ?s0] =>
        destruct (process_missing_stocks_accounts w l s0 eq_refl)
          as (r & s' & assets & prices & Hloop & Ht & Hs & Hi & Hsub)
    end.
    rewrite Hloop.
    cbn [with_counters with_tables step_tick tables saved counters
         total_inserted] in *.
    destruct r as [[]|e]; run_driver;
      eexists _, _, assets, prices;
      (split; [reflexivity|]);
      cbn [say tables saved counters]; split_and!; auto.
Qed.

(** ** The crypto writers *)

Lemma crypto_count_errors w symbol rows : ∀ t,
  crypto_count w rows t + length (crypto_errors w symbol rows t)
  = length rows.
Proof.
  induction rows as [|row rows IH]; intros t; [reflexivity|].
  cbn. destruct (exec_fault w t); cbn; rewrite <- (IH (S t)); lia.
Qed.

Lemma insert_or_replace_length r tbl :
  length (insert_or_replace r tbl) ≤ S (length tbl).
Proof.
  unfold insert_or_replace. rewrite length_app. cbn.
  rewrite Nat.add_1_r. apply le_n_S, length_filter.
Qed.

Lemma stored_crypto_length w crypto_id rows : ∀ t tbl,
  length (stored_crypto w crypto_id rows t tbl)
  ≤ length tbl + crypto_count w rows t.
Proof.
  induction rows as [|row rows IH]; intros t tbl; [cbn; lia|].
  cbn. destruct (exec_fault w t).
  - apply IH.
  - etrans; [apply IH|].
    pose proof (insert_or_replace_length
                  (FetchAllCryptoData.crypto_price_row (uuid4 w t) crypto_id
                     row (now_ms w t)) tbl).
    lia.
Qed.

Lemma stored_crypto_none w crypto_id rows : ∀ t tbl,
  (∀ j, j < length rows → exec_fault w (t + j) ≠ None) →
  stored_crypto w crypto_id rows t tbl = tbl.
Proof.
  induction rows as [|row rows IH]; intros t tbl Hall; [done|].
  cbn. pose proof (Hall 0) as H0. rewrite Nat.add_0_r in H0.
  destruct (exec_fault w t); [|by destruct H0; cbn; [lia|]].
  apply IH. intros j Hj. rewrite Nat.add_succ_comm. apply Hall. cbn. lia.
Qed.

(** X13. On a frame that is not empty both crypto writers leave the same
    tables, committed, and print the same insert errors, but not the same
    count: fetch_all_crypto_data.py reports the inserts that did not
    raise, fetch_crypto_data.py reports [len(hist)], the two differing by
    the number of failed inserts. Both report success even when every
    insert raised and the table is as it was. *)
Theorem crypto_scripts_report_different_counts
    w crypto_info crypto_id s row rows :
  history w (ci_symbol crypto_info) = Hist (row :: rows) →
  ∃ s1 s2 stored errors,
    FetchAllCryptoData.fetch_and_store_crypto_data w crypto_info crypto_id s
      = (Ok true, s1)
    ∧ FetchCryptoData.fetch_and_store_crypto_data w crypto_info crypto_id s
      = (Ok tt, s2)
    ∧ out s1 = out s ++ errors ++ [StoredDays stored (ci_name crypto_info)]
    ∧ out s2
      = out s ++ errors
        ++ [StoredDays (length (row :: rows)) (ci_name crypto_info)]
    ∧ stored + length errors = length (row :: rows)
    ∧ tables s1 = tables s2 ∧ saved s1 = tables s1 ∧ saved s2 = tables s2
    ∧ length (t_CryptocurrencyPrice (tables s1))
      ≤ length (t_CryptocurrencyPrice (tables s)) + stored
    ∧ ((∀ j, j < length (row :: rows) → exec_fault w (tick s + j) ≠ None) →
       stored = 0 ∧ tables s1 = tables s).
Proof.
  intros Hhist.
  rewrite fetch_and_store_all_run, fetch_and_store_run, Hhist.
  exists
    (say (StoredDays (crypto_count w (row :: rows) (tick s))
            (ci_name crypto_info))
       (commit (after_store_rows w crypto_info crypto_id (row :: rows) s)).2),
    (say (StoredDays (length (row :: rows)) (ci_name crypto_info))
       (commit (after_store_rows w crypto_info crypto_id (row :: rows) s)).2),
    (crypto_count w (row :: rows) (tick s)),
    (crypto_errors w (ci_symbol crypto_info) (row :: rows) (tick s)).
  split_and!; try done.
  - cbn [say commit after_store_rows snd out]. by rewrite <- app_assoc.
  - cbn [say commit after_store_rows snd out]. by rewrite <- app_assoc.
  - apply crypto_count_errors.
  - cbn [say commit after_store_rows snd tables set_CryptocurrencyPrice
         t_CryptocurrencyPrice].
    apply stored_crypto_length.
  - intros Hall. split.
    + pose proof (crypto_count_errors w (ci_symbol crypto_info) (row :: rows)
                    (tick s)) as Hsum.
      assert (∀ l t, (∀ j, j < length l → exec_fault w (t + j) ≠ None) →
                crypto_count w l t = 0) as Hzero.
      { induction l as [|r l IH]; intros t Hl; [done|].
        cbn. pose proof (Hl 0) as H0. rewrite Nat.add_0_r in H0.
        destruct (exec_fault w t); [|by destruct H0; cbn; [lia|]].
        apply IH. intros j Hj. rewrite Nat.add_succ_comm. apply Hl. cbn. lia. }
      by apply Hzero.
    + cbn [say commit after_store_rows snd tables].
      unfold set_CryptocurrencyPrice. rewrite stored_crypto_none by done.
      by destruct (tables s).
Qed.

(** X14. [fetch_and_store_crypto_data] never raises, in either script,
    and the two leave the same tables. The result of the
    fetch_all_crypto_data.py version is [True] exactly when the provider
    answered with a frame that is not empty, and then everything is
    committed. When the provider raises, the error is printed and the
    connection rolled back: whatever it had not committed is gone. An
    empty frame changes nothing. *)
Theorem crypto_writer_never_raises w crypto_info crypto_id s :
  ∃ r s1 s2,
    FetchAllCryptoData.fetch_and_store_crypto_data w crypto_info crypto_id s
      = (Ok r, s1)
    ∧ FetchCryptoData.fetch_and_store_crypto_data w crypto_info crypto_id s
      = (Ok tt, s2)
    ∧ tables s2 = tables s1 ∧ saved s2 = saved s1
    ∧ (r = true ↔
       ∃ row rows, history w (ci_symbol crypto_info) = Hist (row :: rows))
    ∧ (r = true → saved s1 = tables s1)
    ∧ (∀ e, history w (ci_symbol crypto_info) = HistRaises e →
         tables s1 = saved s ∧ saved s1 = saved s
         ∧ out s1 = out s ++ [ErrFetching (ci_symbol crypto_info) e])
    ∧ (history w (ci_symbol crypto_info) = Hist [] →
         tables s1 = tables s ∧ saved s1 = saved s
         ∧ out s1 = out s ++ [NoDataFor (ci_symbol crypto_info)]).
Proof.
  rewrite fetch_and_store_all_run, fetch_and_store_run.
  destruct (history w (ci_symbol crypto_info)) as [e|[|row rows]];
    eexists _, _, _; split_and!; try done.
  - split; [done|]. by intros (? & ? & ?).
  - by intros e' [= <-].
  - split; [done|]. by intros (? & ? & ?).
  - split; [|done]. intros _. by eexists _, _.
Qed.

(** ** Running a variant a second time *)

Lemma kept_rows_none existing rows :
  (∀ row, row ∈ rows → complete row → Date row ∈ existing) →
  kept_rows existing rows = [].
Proof.
  intros Hall. apply filter_none, Forall_forall.
  intros row Hrow [Hnew Hc]. by apply Hnew, Hall.
Qed.

Lemma kept_rows_stored_after w asset_id timestamp rows t0 t :
  (∀ j, j < length (kept_rows (list_to_set (select_dates asset_id t)) rows) →
        exec_fault w (t0 + j) = None) →
  kept_rows
    (list_to_set
       (select_dates asset_id
          (set_PriceData
             (λ p, p ++ inserted_rows w asset_id timestamp
                          (data_point_of <$>
                             kept_rows (list_to_set (select_dates asset_id t))
                               rows) t0) t)))
    rows = [].
Proof.
  intros Hcalm. apply kept_rows_none. intros row Hrow Hc.
  rewrite elem_of_list_to_set, select_dates_app, filter_same_asset,
    inserted_rows_dates, succeeded_all
    by (intros j Hj; apply Hcalm; by rewrite length_fmap in Hj).
  apply elem_of_app.
  destruct (decide (Date row ∈ select_dates asset_id t)) as [|Hnot];
    [by left|right].
  rewrite <- list_fmap_compose.
  apply (list_elem_of_fmap_2 (dp_date ∘ data_point_of) _ row).
  apply list_elem_of_filter. split; [|done]. split; [|done].
  by rewrite elem_of_list_to_set.
Qed.

(** X16. [fetch_and_update_stock] of fetch_daily_simple.py is idempotent
    after a clean run: when no statement of a first call raised, a second
    call on the state it left, the provider answering the same, returns 0
    and leaves the tables as they are, whether or not its own statements
    raise. *)
Theorem simple_variant_second_run_inserts_nothing w symbol s n s1 :
  FetchDailySimple.fetch_and_update_stock w symbol s = (Ok n, s1) →
  (∀ k, tick s ≤ k < tick s1 → exec_fault w k = None) →
  ∃ s2,
    FetchDailySimple.fetch_and_update_stock w symbol s1 = (Ok 0, s2)
    ∧ tables s2 = tables s1 ∧ saved s2 = saved s1.
Proof.
  intros Hfirst Hcalm. rewrite fetch_and_update_stock_run in Hfirst.
  rewrite fetch_and_update_stock_run.
  destruct (exec_fault w (tick s)) as [e|] eqn:Hf1.
  { injection Hfirst as _ <-. cbn in Hcalm.
    rewrite (Hcalm (tick s)) in Hf1 by lia. done. }
  destruct (exec_fault w (tick s1)) as [e|]; [by eexists|].
  destruct (falsy (select_asset_id symbol (tables s))) eqn:Hfalsy.
  { injection Hfirst as _ <-. cbn [say step_tick tables].
    rewrite Hfalsy. by eexists. }
  destruct (history w symbol) as [e|[|row rows]] eqn:Hhist.
  { injection Hfirst as _ <-. cbn [say step_tick tables].
    rewrite Hfalsy. by eexists. }
  { injection Hfirst as _ <-. cbn [say step_tick tables].
    rewrite Hfalsy. by eexists. }
  destruct (exec_fault w (S (tick s))) as [e|] eqn:Hf2.
  { injection Hfirst as _ <-. cbn in Hcalm.
    rewrite (Hcalm (S (tick s))) in Hf2 by lia. done. }
  cbn zeta in Hfirst. injection Hfirst as _ <-.
  cbn [tables tick] in *.
  unfold resolved. rewrite !select_asset_id_set_PriceData, Hfalsy.
  fold (resolved symbol (tables s)).
  match goal with
  | |- context [match exec_fault w ?t with _ => _ end] =>
      destruct (exec_fault w t) as [e|]
  end; [by eexists|].
  cbn zeta. rewrite kept_rows_stored_after.
  2:{ intros j Hj. apply Hcalm. rewrite length_fmap. lia. }
  cbn. rewrite set_PriceData_nil. by eexists.
Qed.

Lemma update_stock_data_run w symbol data_points s :
  FetchDailyWal.update_stock_data w symbol data_points s =
  match data_points with
  | [] => (Ok 0, s)
  | _ =>
    match exec_fault w (tick s) with
    | Some e => (Ok 0, say (ErrUpdating symbol e) (step_tick s))
    | None =>
    match exec_fault w (1 + tick s) with
    | Some e => (Ok 0, say (ErrUpdating symbol e) (on_connection 2 s))
    | None =>
    match exec_fault w (2 + tick s) with
    | Some e => (Ok 0, say (ErrUpdating symbol e) (on_connection 3 s))
    | None =>
    match exec_fault w (3 + tick s) with
    | Some e => (Ok 0, say (ErrUpdating symbol e) (on_connection 4 s))
    | None =>
      if falsy (select_asset_id symbol (saved s)) then
        (Ok 0, say (WarnAssetNotFound symbol) (on_connection 4 s))
      else
        match exec_fault w (4 + tick s) with
        | Some e => (Ok 0, say (ErrUpdating symbol e) (on_connection 5 s))
        | None =>
          let asset_id := resolved symbol (saved s) in
          match new_points asset_id data_points (saved s) with
          | [] => (Ok 0, say (InfoNoNewPoints symbol) (on_connection 5 s))
          | news =>
            let added :=
              inserted_rows w asset_id (now_ms w (5 + tick s)) news
                (5 + tick s) in
            (Ok (length added),
             mkSt (set_PriceData (λ p, p ++ added) (saved s))
                  (set_PriceData (λ p, p ++ added) (saved s))
                  (5 + tick s + length news) (slept s)
                  (out s ++ data_errors w news (5 + tick s)
                   ++ (if bool_decide (0 < length added)
                       then [SuccessAdded (length added)] else []))
                  (counters s))
          end
        end
    end end end end
  end.
Proof.
  destruct data_points as [|dp0 dps]; [reflexivity|].
  unfold FetchDailyWal.update_stock_data.
  remember (dp0 :: dps) as data_points eqn:Hdps.
  unfold try_except, FetchDailyWal.connect_with_wal, sqlite3_connect,
    get_asset_id, execute_query, on_connection.
  cbn [Nat.add].
  run. destruct (exec_fault w (tick s)) as [e|]; [by run_driver|].
  run. destruct (exec_fault w (S (tick s))) as [e|]; [by run_driver|].
  run. destruct (exec_fault w (S (S (tick s)))) as [e|]; [by run_driver|].
  run. destruct (exec_fault w (S (S (S (tick s))))) as [e|];
    [by run_driver|].
  run. destruct (falsy (select_asset_id symbol (saved s)));
    [unfold close, rollback; by run_driver|].
  run. destruct (exec_fault w (S (S (S (S (tick s)))))) as [e|];
    [by run_driver|].
  run. fold (resolved symbol (saved s)).
  fold (new_points (resolved symbol (saved s)) data_points (saved s)).
  destruct (new_points _ _ _) as [|n0 news] eqn:Hnew;
    [unfold close, rollback; by run_driver|].
  rewrite <- Hnew. unfold timestamp_ms. run.
  rewrite insert_new_data_run. run. rewrite commit_run.
  unfold close, rollback. run. cbn zeta.
  set (added := inserted_rows _ _ _ _ _).
  change (0 + length added) with (length added).
  case_bool_decide; run_driver; unfold say;
    cbn [tables saved tick slept out counters];
    rewrite <- ?app_assoc, ?app_nil_r; reflexivity.
Qed.

Lemma new_points_stored_after w asset_id timestamp data_points t0 t :
  (∀ j, j < length (new_points asset_id data_points t) →
        exec_fault w (t0 + j) = None) →
  new_points asset_id data_points
    (set_PriceData
       (λ p, p ++ inserted_rows w asset_id timestamp
                    (new_points asset_id data_points t) t0) t) = [].
Proof.
  intros Hcalm. apply filter_none, Forall_forall. intros dp Hdp Hnew.
  apply Hnew. rewrite elem_of_list_to_set, select_dates_app,
    filter_same_asset, inserted_rows_dates, succeeded_all by done.
  apply elem_of_app.
  destruct (decide (dp_date dp ∈ select_dates asset_id t)) as [|Hnot];
    [by left|right].
  apply list_elem_of_fmap_2, list_elem_of_filter. split; [|done].
  by rewrite elem_of_list_to_set.
Qed.

(** X17. [update_stock_data] of fetch_daily_wal.py is idempotent after a
    clean run: when no statement of a first call raised, a second call
    with the same batch returns 0 and commits nothing new. *)
Theorem wal_variant_second_run_inserts_nothing w symbol data_points s n s1 :
  FetchDailyWal.update_stock_data w symbol data_points s = (Ok n, s1) →
  (∀ k, tick s ≤ k < tick s1 → exec_fault w k = None) →
  ∃ s2,
    FetchDailyWal.update_stock_data w symbol data_points s1 = (Ok 0, s2)
    ∧ saved s2 = saved s1.
Proof.
  intros Hfirst Hcalm.
  assert (∀ s1, saved s1 = saved s →
            (falsy (select_asset_id symbol (saved s)) = true
             ∨ new_points (resolved symbol (saved s)) data_points (saved s)
               = []) →
            ∃ s2, FetchDailyWal.update_stock_data w symbol data_points s1
                    = (Ok 0, s2) ∧ saved s2 = saved s1) as Hsame.
  { intros s' Hs Hwhy. rewrite update_stock_data_run, Hs.
    destruct data_points as [|dp0 dps]; [by eexists|].
    repeat (match goal with
            | |- context [match exec_fault w ?t with _ => _ end] =>
                destruct (exec_fault w t) as [e|]
            end; [by eexists|]).
    destruct (falsy _); [by eexists|].
    repeat (match goal with
            | |- context [match exec_fault w ?t with _ => _ end] =>
                destruct (exec_fault w t) as [e|]
            end; [by eexists|]).
    destruct Hwhy as [?|Hnone]; [done|]. cbn zeta. rewrite Hnone.
    by eexists. }
  rewrite update_stock_data_run in Hfirst.
  destruct data_points as [|dp0 dps].
  { injection Hfirst as _ <-. by eexists. }
  cbv iota in Hfirst. set (data_points := dp0 :: dps) in *.
  destruct (exec_fault w (tick s)) as [e|] eqn:Hf0.
  { injection Hfirst as _ <-.
    cbn [say on_connection step_tick tick] in Hcalm.
    rewrite Hcalm in Hf0 by lia. done. }
  destruct (exec_fault w (1 + tick s)) as [e|] eqn:Hf1.
  { injection Hfirst as _ <-.
    cbn [say on_connection step_tick tick] in Hcalm.
    rewrite Hcalm in Hf1 by lia. done. }
  destruct (exec_fault w (2 + tick s)) as [e|] eqn:Hf2.
  { injection Hfirst as _ <-.
    cbn [say on_connection step_tick tick] in Hcalm.
    rewrite Hcalm in Hf2 by lia. done. }
  destruct (exec_fault w (3 + tick s)) as [e|] eqn:Hf3.
  { injection Hfirst as _ <-.
    cbn [say on_connection step_tick tick] in Hcalm.
    rewrite Hcalm in Hf3 by lia. done. }
  destruct (falsy (select_asset_id symbol (saved s))) eqn:Hfalsy.
  { injection Hfirst as _ <-. apply Hsame; [done|by left]. }
  destruct (exec_fault w (4 + tick s)) as [e|] eqn:Hf4.
  { injection Hfirst as _ <-.
    cbn [say on_connection step_tick tick] in Hcalm.
    rewrite Hcalm in Hf4 by lia. done. }
  cbn zeta in Hfirst.
  destruct (new_points (resolved symbol (saved s)) data_points (saved s))
    as [|n0 news] eqn:Hnew.
  { injection Hfirst as _ <-. apply Hsame; [done|by right]. }
  rewrite <- Hnew in Hfirst. injection Hfirst as _ <-.
  cbn [tick] in Hcalm.
  rewrite update_stock_data_run. cbn [saved tick]. unfold data_points at 1.
  cbv iota.
  repeat (match goal with
          | |- context [match exec_fault w ?t with _ => _ end] =>
              destruct (exec_fault w t) as [e|]
          end; [by eexists|]).
  unfold resolved. rewrite !select_asset_id_set_PriceData, Hfalsy.
  fold (resolved symbol (saved s)).
  repeat (match goal with
          | |- context [match exec_fault w ?t with _ => _ end] =>
              destruct (exec_fault w t) as [e|]
          end; [by eexists|]).
  cbn zeta. rewrite new_points_stored_after.
  2:{ intros j Hj. apply Hcalm. lia. }
  by eexists.
Qed.

(** ** The crypto drivers *)

Lemma rollback_run s :
  rollback s
  = (Ok tt, mkSt (saved s) (saved s) (tick s) (slept s) (out s) (counters s)).
Proof. reflexivity. Qed.

Lemma insert_cryptocurrency_run w ignored crypto_info s :
  insert_cryptocurrency w ignored crypto_info s =
  let row := new_cryptocurrency w crypto_info (tick s) in
  match exec_fault w (tick s) with
  | Some e =>
      (Ok None, mkSt (saved s) (saved s) (S (tick s)) (slept s) (out s)
                     (counters s))
  | None =>
      if ignored row (t_Cryptocurrency (tables s)) then
        match exec_fault w (S (tick s)) with
        | Some e =>
            (Ok None, mkSt (saved s) (saved s) (S (S (tick s))) (slept s)
                           (out s) (counters s))
        | None =>
            (Ok (Some (default (c_id row)
                         (select_cryptocurrency_id (ci_symbol crypto_info)
                            (tables s)))),
             mkSt (tables s) (tables s) (S (S (tick s))) (slept s) (out s)
                  (counters s))
        end
      else
        (Ok (Some (c_id row)),
         mkSt (set_Cryptocurrency (λ l, l ++ [row]) (tables s))
              (set_Cryptocurrency (λ l, l ++ [row]) (tables s))
              (S (tick s)) (slept s) (out s) (counters s))
  end.
Proof.
  unfold insert_cryptocurrency, generate_cuid, try_except, insert_or_ignore,
    execute_query, new_cryptocurrency.
  cbn zeta. run.
  destruct (exec_fault w (tick s)) as [e|]; [by run_driver|].
  destruct (ignored _ _).
  - change (bool_decide (0 = 0)) with true. run.
    destruct (exec_fault w (S (tick s))) as [e|]; by run_driver.
  - change (bool_decide (1 = 0)) with false. by run_driver.
Qed.

(** X19. [insert_cryptocurrency] never raises and leaves nothing
    uncommitted. It returns [None] exactly when the insert raised or,
    after an ignored insert, the lookup raised, and then it has rolled
    back. Otherwise it has committed: after an insert that was not
    ignored the new row is stored and its fresh id returned; after an
    ignored insert nothing is added and the id returned is that of the
    first row with the symbol, or the fresh id when there is none. This
    holds whatever the constraints of the table make [INSERT OR IGNORE]
    skip. *)
Theorem insert_cryptocurrency_never_raises w ignored crypto_info s :
  let row := new_cryptocurrency w crypto_info (tick s) in
  let skipped := ignored row (t_Cryptocurrency (tables s)) in
  ∃ r s',
    insert_cryptocurrency w ignored crypto_info s = (Ok r, s')
    ∧ tables s' = saved s'
    ∧ (r = None ↔
       (∃ e, exec_fault w (tick s) = Some e)
       ∨ (skipped = true ∧ ∃ e, exec_fault w (S (tick s)) = Some e))
    ∧ (r = None → saved s' = saved s)
    ∧ (∀ id, r = Some id →
         if skipped then
           saved s' = tables s
           ∧ id = default (c_id row)
                    (select_cryptocurrency_id (ci_symbol crypto_info)
                       (tables s))
         else
           saved s' = set_Cryptocurrency (λ l, l ++ [row]) (tables s)
           ∧ id = c_id row).
Proof.
  cbn zeta. rewrite insert_cryptocurrency_run. cbn zeta.
  destruct (exec_fault w (tick s)) as [e|] eqn:Hf1.
  { eexists _, _. split_and!; try done. split; [|done]. intros _. left.
    by exists e. }
  destruct (ignored _ _) eqn:Hig.
  - destruct (exec_fault w (S (tick s))) as [e|] eqn:Hf2.
    + eexists _, _. split_and!; try done. split; [|done]. intros _. right.
      split; [done|]. by exists e.
    + eexists _, _. split_and!; try done.
      * split; [done|]. by intros [[e ?]|[_ [e ?]]].
      * by intros id [= <-].
  - eexists _, _. split_and!; try done.
    + split; [done|]. by intros [[e ?]|[? _]].
    + by intros id [= <-].
Qed.

Lemma select_cryptocurrency_id_found symbol t :
  Exists (λ c, c_symbol c = symbol) (t_Cryptocurrency t) →
  ∃ id, select_cryptocurrency_id symbol t = Some id.
Proof.
  intros Hex. unfold select_cryptocurrency_id.
  destruct (filter _ _) as [|c l] eqn:Hfil; [|by eexists].
  apply Exists_exists in Hex as (c & Hin & Hsym).
  assert (c ∈ filter (λ c, c_symbol c = symbol) (t_Cryptocurrency t)) as Hc
    by by apply list_elem_of_filter.
  rewrite Hfil in Hc. inv Hc.
Qed.

Lemma select_cryptocurrency_id_appended symbol t row :
  c_symbol row = symbol →
  ¬ Exists (λ c, c_symbol c = symbol) (t_Cryptocurrency t) →
  select_cryptocurrency_id symbol (set_Cryptocurrency (λ l, l ++ [row]) t)
  = Some (c_id row).
Proof.
  intros Hsym Hno. unfold select_cryptocurrency_id. cbn.
  rewrite filter_app, filter_none, filter_cons_True by
    (try done; apply Forall_forall; intros c Hc Hs; apply Hno, Exists_exists;
     by exists c).
  done.
Qed.

(** X20. On a Cryptocurrency table that is unique in the symbol, the id
    [insert_cryptocurrency] returns is the id stored for the symbol, and a
    second call whose statements do not raise returns the same id and
    changes no table. *)
Theorem insert_cryptocurrency_is_idempotent w ignored crypto_info s id s1 :
  unique_symbol ignored →
  insert_cryptocurrency w ignored crypto_info s = (Ok (Some id), s1) →
  select_cryptocurrency_id (ci_symbol crypto_info) (tables s1) = Some id
  ∧ (exec_fault w (tick s1) = None → exec_fault w (S (tick s1)) = None →
     ∃ s2,
       insert_cryptocurrency w ignored crypto_info s1 = (Ok (Some id), s2)
       ∧ tables s2 = tables s1).
Proof.
  intros Huniq Hfirst.
  assert (select_cryptocurrency_id (ci_symbol crypto_info) (tables s1)
          = Some id) as Hsel.
  { rewrite insert_cryptocurrency_run in Hfirst. cbn zeta in Hfirst.
    destruct (exec_fault w (tick s)); [done|].
    destruct (ignored _ _) eqn:Hig.
    - destruct (exec_fault w (S (tick s))); [done|].
      injection Hfirst as <- <-. cbn [tables].
      apply Huniq in Hig. cbn in Hig.
      by destruct (select_cryptocurrency_id_found _ _ Hig) as (id & ->).
    - injection Hfirst as <- <-. cbn [tables].
      apply select_cryptocurrency_id_appended; [done|].
      intros Hex. apply (Huniq (new_cryptocurrency w crypto_info (tick s)))
        in Hex. congruence. }
  split; [done|]. intros Hf1 Hf2.
  rewrite insert_cryptocurrency_run. cbn zeta. rewrite Hf1.
  assert (ignored (new_cryptocurrency w crypto_info (tick s1))
            (t_Cryptocurrency (tables s1)) = true) as ->.
  { apply Huniq. cbn. unfold select_cryptocurrency_id in Hsel.
    destruct (filter _ _) as [|c l] eqn:Hfil; [done|].
    assert (c ∈ filter (λ c, c_symbol c = ci_symbol crypto_info)
                  (t_Cryptocurrency (tables s1))) as Hc
      by (rewrite Hfil; left).
    apply list_elem_of_filter in Hc as [Hsym Hin].
    apply Exists_exists. by exists c. }
  rewrite Hf2, Hsel. by eexists.
Qed.

Lemma insert_cryptocurrency_total w ignored crypto_info s :
  ∃ r s', insert_cryptocurrency w ignored crypto_info s = (Ok r, s')
          ∧ counters s' = counters s.
Proof.
  rewrite insert_cryptocurrency_run. cbn zeta.
  destruct (exec_fault w (tick s)); [by eexists _, _|].
  destruct (ignored _ _); [|by eexists _, _].
  destruct (exec_fault w (S (tick s))); by eexists _, _.
Qed.

Lemma fetch_and_store_all_total w crypto_info crypto_id s :
  ∃ r s', FetchAllCryptoData.fetch_and_store_crypto_data w crypto_info
            crypto_id s = (Ok r, s')
          ∧ counters s' = counters s.
Proof.
  rewrite fetch_and_store_all_run.
  destruct (history w (ci_symbol crypto_info)) as [e|[|row rows]];
    by eexists _, _.
Qed.

Lemma fetch_and_store_total w crypto_info crypto_id s :
  ∃ s', FetchCryptoData.fetch_and_store_crypto_data w crypto_info
          crypto_id s = (Ok tt, s').
Proof.
  rewrite fetch_and_store_run.
  destruct (history w (ci_symbol crypto_info)) as [e|[|row rows]];
    by eexists.
Qed.

Lemma process_crypto_all_counted w ignored i crypto_info s :
  ∃ s', FetchAllCryptoData.process_crypto w ignored i crypto_info s
          = (Ok tt, s')
        ∧ counted s' = S (counted s).
Proof.
  unfold FetchAllCryptoData.process_crypto. rewrite bind_run.
  destruct (insert_cryptocurrency_total w ignored crypto_info s)
    as (r & s1 & -> & Hc1).
  destruct (falsy r).
  { rewrite add_failed_run. eexists. split; [done|]. unfold counted. cbn.
    rewrite Hc1. lia. }
  rewrite bind_run.
  destruct (fetch_and_store_all_total w crypto_info (default "" r) s1)
    as (ok & s2 & -> & Hc2).
  rewrite bind_run.
  destruct ok; [rewrite add_successful_run|rewrite add_failed_run];
    case_bool_decide; rewrite sleep_run; eexists; (split; [done|]);
    unfold counted; cbn; rewrite Hc2, Hc1; lia.
Qed.

Lemma process_cryptos_all_counted w ignored crypto_list : ∀ i s,
  ∃ s', FetchAllCryptoData.process_cryptos w ignored i crypto_list s
          = (Ok tt, s')
        ∧ counted s' = counted s + length crypto_list.
Proof.
  induction crypto_list as [|crypto_info rest IH]; intros i s.
  - exists s. split; [done|]. cbn. lia.
  - cbn [FetchAllCryptoData.process_cryptos]. rewrite bind_run.
    destruct (process_crypto_all_counted w ignored i crypto_info s)
      as (s1 & -> & Hc1).
    destruct (IH (S i) s1) as (s' & -> & Hc).
    exists s'. split; [done|]. rewrite Hc, Hc1. cbn. lia.
Qed.

Lemma process_cryptos_total w ignored crypto_list : ∀ s,
  ∃ s', FetchCryptoData.process_cryptos w ignored crypto_list s = (Ok tt, s').
Proof.
  induction crypto_list as [|crypto_info rest IH]; intros s; [by eexists|].
  cbn [FetchCryptoData.process_cryptos]. rewrite bind_run.
  unfold FetchCryptoData.process_crypto. rewrite bind_run.
  destruct (insert_cryptocurrency_total w ignored crypto_info s)
    as (r & s1 & -> & _).
  destruct (falsy r).
  - rewrite ret_run. apply IH.
  - destruct (fetch_and_store_total w crypto_info (default "" r) s1)
      as (s2 & ->).
    apply IH.
Qed.

(** X21. The drivers of the crypto scripts never raise. [main] of
    fetch_all_crypto_data.py returns at once, without connecting, on an
    empty list; it ends the process with status 1 when the connection
    cannot be opened; otherwise it returns with the connection closed and
    every cryptocurrency of the list counted exactly once, as fetched or
    as failed. [main] of fetch_crypto_data.py ends with status 1 when the
    connection cannot be opened and returns otherwise. *)
Theorem crypto_mains_never_raise w ignored s :
  (∀ crypto_list, ∃ r s',
     FetchAllCryptoData.main w ignored crypto_list s = (Ok r, s')
     ∧ (crypto_list = [] → r = None ∧ s' = s)
     ∧ (crypto_list ≠ [] →
        (∀ e, exec_fault w (tick s) = Some e →
           r = Some 1 ∧ s' = step_tick s)
        ∧ (exec_fault w (tick s) = None →
           r = None ∧ tables s' = saved s'
           ∧ successful_updates (counters s') + failed_updates (counters s')
             = length crypto_list)))
  ∧ ∃ r s',
      FetchCryptoData.main w ignored s = (Ok r, s')
      ∧ (∀ e, exec_fault w (tick s) = Some e → r = Some 1 ∧ s' = step_tick s)
      ∧ (exec_fault w (tick s) = None → r = None ∧ tables s' = saved s').
Proof.
  split.
  - intros crypto_list. unfold FetchAllCryptoData.main.
    destruct crypto_list as [|c0 cs]; [by eexists _, _|].
    unfold sqlite3_connect.
    destruct (exec_fault w (tick s)) as [e|].
    { eexists _, _. by split_and!. }
    unfold try_except, reset_counters, close, rollback. rewrite bind_run.
    match goal with
    | |- context [FetchAllCryptoData.process_cryptos w ignored 1 ?l ?s0] =>
        destruct (process_cryptos_all_counted w ignored l 1 s0)
          as (s1 & Hloop & Hc)
    end.
    rewrite Hloop. eexists _, _. by split_and!.
  - unfold FetchCryptoData.main, sqlite3_connect.
    destruct (exec_fault w (tick s)) as [e|].
    { eexists _, _. by split_and!. }
    unfold try_except, close, rollback.
    match goal with
    | |- context [FetchCryptoData.process_cryptos w ignored ?l ?s0] =>
        destruct (process_cryptos_total w ignored l s0) as (s1 & ->)
    end.
    by eexists _, _.
Qed.

(** ** The three stock variants side by side *)

Lemma new_points_kept_rows asset_id rows t :
  new_points asset_id (data_point_of <$> filter complete rows) t
  = data_point_of <$>
      kept_rows (list_to_set (select_dates asset_id t)) rows.
Proof.
  unfold new_points, kept_rows.
  induction rows as [|row rows IH]; [done|].
  rewrite !(filter_cons _ row).
  destruct (decide (complete row)) as [Hc|Hc].
  - cbn [fmap list_fmap]. rewrite filter_cons. cbn [dp_date data_point_of].
    destruct (decide (Date row ∉ _)) as [Hnew|Hold].
    + rewrite decide_True by done. cbn [fmap list_fmap]. by rewrite <- IH.
    + rewrite decide_False by (by intros [? ?]). apply IH.
  - rewrite decide_False by (by intros [? ?]). apply IH.
Qed.

Lemma update_stock_data_stores_all w symbol data_points s :
  (∀ k, exec_fault w k = None) →
  falsy (select_asset_id symbol (saved s)) = false →
  ∃ n s' added,
    FetchDailyWal.update_stock_data w symbol data_points s = (Ok n, s')
    ∧ t_PriceData (saved s') = t_PriceData (saved s) ++ added
    ∧ bar_of <$> added
      = new_points (resolved symbol (saved s)) data_points (saved s).
Proof.
  intros Hcalm Hfound. rewrite update_stock_data_run.
  destruct data_points as [|dp0 dps].
  { exists 0, s, []. by rewrite app_nil_r. }
  rewrite !Hcalm, Hfound. cbn zeta.
  destruct (new_points _ _ _) as [|n0 news] eqn:Hnew.
  { eexists 0, _, []. cbn. by rewrite app_nil_r. }
  rewrite <- Hnew. eexists _, _, _. split_and!; [done|done|].
  rewrite inserted_rows_bars. apply succeeded_all. intros; apply Hcalm.
Qed.

(** X18. The three daily variants agree. When no statement raises, the
    asset is known and nothing is left uncommitted, a turn of
    fetch_daily_data.py, [fetch_and_update_stock] of fetch_daily_simple.py
    and a turn of fetch_daily_wal.py store the same bars in the same order:
    one for each row of the provider's frame with its four prices present
    and a date not yet stored for the asset. *)
Theorem the_stock_variants_store_the_same_bars w n i symbol s :
  (∀ k, exec_fault w k = None) →
  falsy (select_asset_id symbol (tables s)) = false →
  saved s = tables s →
  ∃ daily simple wal,
    t_PriceData (tables (FetchDailyData.process_symbol w n i symbol s).2)
      = t_PriceData (tables s) ++ daily
    ∧ t_PriceData
        (tables (FetchDailySimple.fetch_and_update_stock w symbol s).2)
      = t_PriceData (tables s) ++ simple
    ∧ t_PriceData (saved (FetchDailyWal.process_main_stock w symbol s).2)
      = t_PriceData (tables s) ++ wal
    ∧ bar_of <$> daily = bar_of <$> simple
    ∧ bar_of <$> wal = bar_of <$> simple
    ∧ bar_of <$> simple
      = data_point_of <$>
          filter (λ row, (Date row ∉ select_dates (resolved symbol (tables s))
                                        (tables s))
                         ∧ complete row)
                 (provided w symbol).
Proof.
  intros Hcalm Hfound Hclean.
  destruct (process_symbol_stores_all w n i symbol s Hcalm Hfound)
    as (daily & Hd & Hdb).
  destruct (fetch_and_update_stock_stores_all w symbol s Hcalm Hfound)
    as (simple & Hs & Hsb).
  rewrite fetched_provided, new_points_kept_rows in Hdb.
  assert (∃ wal,
            t_PriceData (saved (FetchDailyWal.process_main_stock w symbol s).2)
            = t_PriceData (tables s) ++ wal
            ∧ bar_of <$> wal
              = data_point_of <$>
                  kept_rows (list_to_set
                               (select_dates (resolved symbol (tables s))
                                  (tables s)))
                            (provided w symbol)) as (wal & Hw & Hwb).
  { unfold FetchDailyWal.process_main_stock. rewrite bind_run.
    rewrite fetch_stock_data_run. rewrite <- new_points_kept_rows.
    unfold provided. rewrite <- Hclean.
    destruct (history w symbol) as [e|rows].
    { run_driver. rewrite sleep_run. exists []. cbn. by rewrite app_nil_r. }
    destruct (data_point_of <$> filter complete rows) as [|dp0 dps] eqn:Hdps.
    { run_driver. rewrite sleep_run. exists []. cbn. by rewrite app_nil_r. }
    run_driver. rewrite <- Hclean in Hfound.
    destruct (update_stock_data_stores_all w symbol (dp0 :: dps) s Hcalm
                Hfound) as (k & s1 & wal & -> & Hw & Hwb).
    run_driver. rewrite sleep_run. exists wal. cbn. by split. }
  exists daily, simple, wal. split_and!; try done; try congruence.
  rewrite Hsb. f_equal. unfold kept_rows.
  apply list_filter_iff. intros row. by rewrite elem_of_list_to_set.
Qed.

(** ** The further properties at concrete inputs *)

(** X3 at a store that cannot be opened, at a symbol query that raises
    and at an empty store. *)
Lemma main_failures_witness :
  (exec_fault never_opens (tick (fresh_state abc)) = Some unreadable
   ∧ FetchDailyData.main never_opens (fresh_state abc)
     = (Ok tt, say (ErrTop unreadable) (step_tick (fresh_state abc))))
  ∧ (exec_fault (fault_at 1) (tick (fresh_state abc)) = None
     ∧ exec_fault (fault_at 1) (S (tick (fresh_state abc))) = Some locked
     ∧ ∃ s', FetchDailyData.main (fault_at 1) (fresh_state abc)
               = (Raise locked, s')
             ∧ tables s' = saved (fresh_state abc)
             ∧ saved s' = saved (fresh_state abc)
             ∧ out s' = out (fresh_state abc) ++ [ErrFatal locked])
  ∧ (exec_fault calm (tick (fresh_state no_tables)) = None
     ∧ exec_fault calm (S (tick (fresh_state no_tables))) = None
     ∧ FetchDailyData.select_stock_symbols (saved (fresh_state no_tables))
       = []
     ∧ ∃ s', FetchDailyData.main calm (fresh_state no_tables) = (Ok tt, s')
             ∧ tables s' = saved (fresh_state no_tables)
             ∧ saved s' = saved (fresh_state no_tables)
             ∧ out s' = out (fresh_state no_tables)
                        ++ [FoundSymbols 0; NoStocksFound]).
Proof.
  split; [|split].
  - split; [reflexivity|].
    exact (proj1 (main_failures_before_the_loop never_opens (fresh_state abc))
             unreadable eq_refl).
  - split; [reflexivity|]. split; [reflexivity|].
    exact (proj1 (proj2 (main_failures_before_the_loop (fault_at 1)
                           (fresh_state abc))) locked eq_refl eq_refl).
  - split; [reflexivity|]. split; [reflexivity|]. split; [reflexivity|].
    exact (proj2 (proj2 (main_failures_before_the_loop calm
                           (fresh_state no_tables))) eq_refl eq_refl eq_refl).
Defined.

(** X4 at the tenth turn. *)
Lemma turn_commit_witness :
  10 mod 10 = 0
  ∧ (∀ e s2, FetchDailyData.symbol_body two_bars 10 "A"
               (say (Processing 10 3 "A") (fresh_state abc)) ≠ (Raise e, s2))
  ∧ ∃ s', FetchDailyData.process_symbol two_bars 3 10 "A" (fresh_state abc)
            = (Ok tt, s')
          ∧ saved s' = tables s'.
Proof.
  assert (∀ e s2, FetchDailyData.symbol_body two_bars 10 "A"
                    (say (Processing 10 3 "A") (fresh_state abc))
                  ≠ (Raise e, s2)) as Hnever.
  { intros e s2. vm_compute. discriminate. }
  split; [reflexivity|]. split; [exact Hnever|].
  destruct (a_turn_commits_only_at_a_multiple_of_ten two_bars 3 10 "A"
              (fresh_state abc)) as (s' & Hrun & _ & Htenth & _).
  exists s'. split; [exact Hrun|]. exact (Htenth eq_refl Hnever).
Defined.

(** X5 at a lookup that raises. *)
Lemma fetch_and_update_stock_witness :
  exec_fault (fault_at 0) (tick (fresh_state abc)) = Some locked
  ∧ ∃ (added : list PriceData) s',
      FetchDailySimple.fetch_and_update_stock (fault_at 0) "A"
        (fresh_state abc) = (Ok (length added), s')
      ∧ added = []
      ∧ last (out s') = Some (ErrFailedToProcess "A" locked).
Proof.
  split; [reflexivity|].
  destruct (fetch_and_update_stock_never_raises (fault_at 0) "A"
              (fresh_state abc)) as (added & s' & Hrun & _ & _ & _ & Herr).
  destruct (Herr locked (or_introl eq_refl)) as [Hnone Hlast].
  exists added, s'. split; [exact Hrun|]. split; [exact Hnone|exact Hlast].
Defined.

(** X8 at a store that is locked for two attempts and opens at the
    third, at a store that stays locked through three attempts, and at
    [max_retries = 0]. *)
Lemma wait_for_database_witness :
  (∃ s', FetchDailySimple.wait_for_database locked_twice 10 (fresh_state abc)
           = (Ok tt, s')
         ∧ out s' = [DatabaseLocked 1 10; DatabaseLocked 2 10]
         ∧ (slept s' == 4)%Q
         ∧ tables s' = saved (fresh_state abc))
  ∧ (∃ s', FetchDailySimple.wait_for_database always_locked 3
             (fresh_state abc) = (Raise remained_locked, s')
           ∧ out s' = [DatabaseLocked 1 3; DatabaseLocked 2 3;
                       DatabaseLocked 3 3]
           ∧ (slept s' == 6)%Q)
  ∧ ∃ s', FetchDailySimple.wait_for_database calm 0 (fresh_state abc)
            = (Raise remained_locked, s')
          ∧ out s' = out (fresh_state abc).
Proof.
  split; [|split].
  - destruct (wait_for_database_is_bounded locked_twice 10 (fresh_state abc))
      as (r & s' & Hrun & _ & _ & Hout & Hslept & _ & _ & _ & Hstop & Hok).
    change (locked_run locked_twice (tick (fresh_state abc)) 10) with 2
      in Hout, Hslept, Hstop.
    destruct Hstop as [_ Hres]; [lia|].
    change (attempt_fault locked_twice
              (tick (after_locked locked_twice 10 0 2 (fresh_state abc))))
      with (@None exn) in Hres.
    destruct Hres as [-> Htab].
    exists s'. split; [exact Hrun|]. split; [exact Hout|].
    split; [exact Hslept|exact Htab].
  - destruct (wait_for_database_is_bounded always_locked 3 (fresh_state abc))
      as (r & s' & Hrun & _ & _ & Hout & Hslept & _ & _ & Hall & _).
    change (locked_run always_locked (tick (fresh_state abc)) 3) with 3
      in Hout, Hslept, Hall.
    destruct (Hall eq_refl) as [-> _].
    exists s'. split; [exact Hrun|]. split; [exact Hout|exact Hslept].
  - destruct (wait_for_database_is_bounded calm 0 (fresh_state abc))
      as (r & s' & Hrun & _ & _ & Hout & _ & _ & _ & Hall & _).
    change (locked_run calm (tick (fresh_state abc)) 0) with 0 in Hout, Hall.
    destruct (Hall eq_refl) as [-> _].
    exists s'. split; [exact Hrun|]. rewrite Hout. apply app_nil_r.
Defined.

(** X7 at three stocks, each answered with two bars. *)
Lemma simple_main_witness :
  ∃ s' added,
    FetchDailySimple.main two_bars (fresh_state abc) = (Ok 0, s')
    ∧ tables s' = saved s'
    ∧ saved s' = set_PriceData (λ p, p ++ added) (saved (fresh_state abc))
    ∧ last (out s') = Some (Summary 3 3 0 (length added)).
Proof.
  destruct (simple_main_exit_status two_bars (fresh_state abc))
    as (r & s' & Hrun & _ & _ & _ & Hzero).
  assert (r = 0) as ->.
  { assert ((FetchDailySimple.main two_bars (fresh_state abc)).1 = Ok 0) as H1
      by (vm_compute; reflexivity).
    rewrite Hrun in H1. by injection H1. }
  destruct (Hzero eq_refl) as (Htab & added & Hsaved & Hlast).
  exists s', added. split_and!; [exact Hrun|exact Htab|exact Hsaved|].
  apply Hlast. vm_compute. discriminate.
Defined.

(** X9 at one new bar for AAPL. *)
Lemma wal_writer_witness :
  [sample_bar jan_2] ≠ []
  ∧ exec_fault calm (tick (fresh_state aapl_only)) = None
  ∧ ∃ added s',
      FetchDailyWal.update_stock_data calm "AAPL" [sample_bar jan_2]
        (fresh_state aapl_only) = (Ok (length added), s')
      ∧ saved s'
        = set_PriceData (λ p, p ++ added) (saved (fresh_state aapl_only))
      ∧ tables s' = saved s'.
Proof.
  split; [discriminate|]. split; [reflexivity|].
  destruct (wal_writer_commits_what_it_inserts calm "AAPL" [sample_bar jan_2]
              (fresh_state aapl_only)) as (added & s' & Hrun & Hs & Ht & _).
  exists added, s'. split_and!; [exact Hrun|exact Hs|].
  apply Ht; [discriminate|reflexivity].
Defined.

(** X11 at two calls for the same asset. *)
Lemma no_duplicate_filter_witness :
  (∀ k, exec_fault two_bars k = None)
  ∧ ∃ added again s' s'',
      AddMissingStocks.fetch_and_store_data two_bars "cmfuzA" "A"
        (fresh_state abc) = (Ok (length added), s')
      ∧ AddMissingStocks.fetch_and_store_data two_bars "cmfuzA" "A" s'
        = (Ok (length again), s'')
      ∧ t_PriceData (tables s'')
        = t_PriceData (tables (fresh_state abc)) ++ added ++ again
      ∧ bar_of <$> added = [sample_bar jan_2; sample_bar jan_3]
      ∧ bar_of <$> again = [sample_bar jan_2; sample_bar jan_3].
Proof.
  assert (∀ k, exec_fault two_bars k = None) as Hcalm by reflexivity.
  split; [exact Hcalm|].
  destruct (fetch_and_store_data_has_no_duplicate_filter two_bars "cmfuzA" "A"
              (fresh_state abc))
    as (added & s' & Hrun & _ & _ & _ & _ & Htwice).
  destruct (Htwice Hcalm) as (Hbars & again & s'' & Hrun2 & Htab & Hsame & _).
  exists added, again, s', s''.
  split_and!; [exact Hrun|exact Hrun2|exact Htab|exact Hbars|].
  rewrite Hsame. exact Hbars.
Defined.

(** X12 at a store that cannot be opened and at one that can. *)
Lemma add_missing_main_witness :
  (exec_fault never_opens (tick (fresh_state abc)) = Some unreadable
   ∧ AddMissingStocks.main never_opens (fresh_state abc)
     = (Raise AddMissingStocks.unbound_conn,
        say (ErrTop unreadable) (step_tick (fresh_state abc))))
  ∧ (exec_fault two_bars (tick (fresh_state abc)) = None
     ∧ ∃ r s' assets prices,
         AddMissingStocks.main two_bars (fresh_state abc) = (Ok r, s')
         ∧ (r = 0 ∨ r = 1)
         ∧ tables s' = saved s'
         ∧ saved s'
           = set_Asset (λ l, l ++ assets)
               (set_PriceData (λ p, p ++ prices) (saved (fresh_state abc)))
         ∧ total_inserted (counters s') = length prices
         ∧ a_symbol <$> assets `sublist_of` ["TSLA"; "SPY"]).
Proof.
  split; (split; [reflexivity|]).
  - exact (proj1 (add_missing_main_status never_opens (fresh_state abc))
             unreadable eq_refl).
  - exact (proj2 (add_missing_main_status two_bars (fresh_state abc))
             eq_refl).
Defined.

(** X13 at a store that rejects both rows of the frame. *)
Lemma crypto_counts_witness :
  history gaps_rejected (ci_symbol btc)
  = Hist [mkRawRow jan_2 (Num 10) (Num 12) (Num 9) NaN (Num 1000);
          mkRawRow jan_3 (Num 10) (Num 12) (Num 9) (Num 11) NaN]
  ∧ ∃ s1 s2 stored errors,
      FetchAllCryptoData.fetch_and_store_crypto_data gaps_rejected btc "btc"
        (fresh_state stale_btc) = (Ok true, s1)
      ∧ FetchCryptoData.fetch_and_store_crypto_data gaps_rejected btc "btc"
          (fresh_state stale_btc) = (Ok tt, s2)
      ∧ out s1 = out (fresh_state stale_btc) ++ errors
                 ++ [StoredDays stored (ci_name btc)]
      ∧ out s2 = out (fresh_state stale_btc) ++ errors
                 ++ [StoredDays 2 (ci_name btc)]
      ∧ stored + length errors = 2
      ∧ tables s1 = tables s2.
Proof.
  split; [reflexivity|].
  destruct (crypto_scripts_report_different_counts gaps_rejected btc "btc"
              (fresh_state stale_btc)
              (mkRawRow jan_2 (Num 10) (Num 12) (Num 9) NaN (Num 1000))
              [mkRawRow jan_3 (Num 10) (Num 12) (Num 9) (Num 11) NaN] eq_refl)
    as (s1 & s2 & stored & errors & H1 & H2 & Ho1 & Ho2 & Hsum & Ht & _).
  exists s1, s2, stored, errors.
  split_and!; [exact H1|exact H2|exact Ho1|exact Ho2|exact Hsum|exact Ht].
Defined.

(** X14 at a provider that raises. *)
Lemma crypto_writer_witness :
  history provider_down_for_B "B" = HistRaises (Error "timed out")
  ∧ ∃ s1,
      FetchAllCryptoData.fetch_and_store_crypto_data provider_down_for_B
        (mkCryptoInfo "B" "B" "B") "b" (fresh_state stale_btc) = (Ok false, s1)
      ∧ tables s1 = saved (fresh_state stale_btc)
      ∧ saved s1 = saved (fresh_state stale_btc)
      ∧ out s1 = out (fresh_state stale_btc)
                 ++ [ErrFetching "B" (Error "timed out")].
Proof.
  split; [reflexivity|].
  destruct (crypto_writer_never_raises provider_down_for_B
              (mkCryptoInfo "B" "B" "B") "b" (fresh_state stale_btc))
    as (r & s1 & s2 & Hrun & _ & _ & _ & _ & _ & Hdown & _).
  assert (r = false) as ->.
  { assert ((FetchAllCryptoData.fetch_and_store_crypto_data
               provider_down_for_B (mkCryptoInfo "B" "B" "B") "b"
               (fresh_state stale_btc)).1 = Ok false) as H1
      by (vm_compute; reflexivity).
    rewrite Hrun in H1. by injection H1. }
  destruct (Hdown (Error "timed out") eq_refl) as (Ht & Hs & Ho).
  exists s1. split_and!; [exact Hrun|exact Ht|exact Hs|exact Ho].
Defined.

Lemma symbol_taken_unique : unique_symbol symbol_taken.
Proof. intros row tbl. unfold symbol_taken. apply bool_decide_eq_true. Qed.

(** X16 at a first run that stores two bars. *)
Lemma simple_second_run_witness :
  FetchDailySimple.fetch_and_update_stock two_bars "A" (fresh_state abc)
    = (Ok 2, after_simple_run)
  ∧ (∀ k, tick (fresh_state abc) ≤ k < tick after_simple_run →
       exec_fault two_bars k = None)
  ∧ ∃ s2,
      FetchDailySimple.fetch_and_update_stock two_bars "A" after_simple_run
        = (Ok 0, s2)
      ∧ tables s2 = tables after_simple_run
      ∧ saved s2 = saved after_simple_run.
Proof.
  assert (FetchDailySimple.fetch_and_update_stock two_bars "A"
            (fresh_state abc) = (Ok 2, after_simple_run)) as Hfirst
    by (vm_compute; reflexivity).
  assert (∀ k, tick (fresh_state abc) ≤ k < tick after_simple_run →
            exec_fault two_bars k = None) as Hcalm by (intros k _; reflexivity).
  split; [exact Hfirst|]. split; [exact Hcalm|].
  exact (simple_variant_second_run_inserts_nothing two_bars "A"
           (fresh_state abc) 2 after_simple_run Hfirst Hcalm).
Defined.

(** X17 at a first run that stores one bar. *)
Lemma wal_second_run_witness :
  FetchDailyWal.update_stock_data calm "AAPL" [sample_bar jan_2]
    (fresh_state aapl_only) = (Ok 1, after_wal_run)
  ∧ (∀ k, tick (fresh_state aapl_only) ≤ k < tick after_wal_run →
       exec_fault calm k = None)
  ∧ ∃ s2,
      FetchDailyWal.update_stock_data calm "AAPL" [sample_bar jan_2]
        after_wal_run = (Ok 0, s2)
      ∧ saved s2 = saved after_wal_run.
Proof.
  assert (FetchDailyWal.update_stock_data calm "AAPL" [sample_bar jan_2]
            (fresh_state aapl_only) = (Ok 1, after_wal_run)) as Hfirst
    by (vm_compute; reflexivity).
  assert (∀ k, tick (fresh_state aapl_only) ≤ k < tick after_wal_run →
            exec_fault calm k = None) as Hcalm by (intros k _; reflexivity).
  split; [exact Hfirst|]. split; [exact Hcalm|].
  exact (wal_variant_second_run_inserts_nothing calm "AAPL"
           [sample_bar jan_2] (fresh_state aapl_only) 1 after_wal_run
           Hfirst Hcalm).
Defined.

(** X20 at Bitcoin on an empty table. *)
Lemma insert_cryptocurrency_witness :
  unique_symbol symbol_taken
  ∧ insert_cryptocurrency calm symbol_taken btc (fresh_state no_tables)
    = (Ok (Some "0"), after_btc)
  ∧ select_cryptocurrency_id (ci_symbol btc) (tables after_btc) = Some "0"
  ∧ exec_fault calm (tick after_btc) = None
  ∧ exec_fault calm (S (tick after_btc)) = None
  ∧ ∃ s2,
      insert_cryptocurrency calm symbol_taken btc after_btc
        = (Ok (Some "0"), s2)
      ∧ tables s2 = tables after_btc.
Proof.
  assert (insert_cryptocurrency calm symbol_taken btc (fresh_state no_tables)
          = (Ok (Some "0"), after_btc)) as Hfirst
    by (vm_compute; reflexivity).
  destruct (insert_cryptocurrency_is_idempotent calm symbol_taken btc
              (fresh_state no_tables) "0" after_btc symbol_taken_unique
              Hfirst) as [Hsel Hagain].
  split; [exact symbol_taken_unique|]. split; [exact Hfirst|].
  split; [exact Hsel|]. split; [reflexivity|]. split; [reflexivity|].
  exact (Hagain eq_refl eq_refl).
Defined.

(** X21 at a list of one cryptocurrency. *)
Lemma crypto_mains_witness :
  [btc] ≠ []
  ∧ exec_fault calm (tick (fresh_state no_tables)) = None
  ∧ ∃ s',
      FetchAllCryptoData.main calm symbol_taken [btc] (fresh_state no_tables)
        = (Ok None, s')
      ∧ tables s' = saved s'
      ∧ successful_updates (counters s') + failed_updates (counters s') = 1.
Proof.
  split; [discriminate|]. split; [reflexivity|].
  destruct (proj1 (crypto_mains_never_raise calm symbol_taken
                     (fresh_state no_tables)) [btc])
    as (r & s' & Hrun & _ & Hsome).
  destruct (Hsome ltac:(discriminate)) as [_ Hopen].
  destruct (Hopen eq_refl) as (-> & Htab & Hcount).
  exists s'. split; [exact Hrun|]. split; [exact Htab|exact Hcount].
Defined.

(** X18 at a stock answered with two bars. *)
Lemma stock_variants_agree_witness :
  (∀ k, exec_fault two_bars k = None)
  ∧ falsy (select_asset_id "A" (tables (fresh_state abc))) = false
  ∧ saved (fresh_state abc) = tables (fresh_state abc)
  ∧ ∃ daily simple wal,
      t_PriceData
        (tables (FetchDailyData.process_symbol two_bars 3 1 "A"
                   (fresh_state abc)).2)
        = t_PriceData (tables (fresh_state abc)) ++ daily
      ∧ t_PriceData
          (tables (FetchDailySimple.fetch_and_update_stock two_bars "A"
                     (fresh_state abc)).2)
        = t_PriceData (tables (fresh_state abc)) ++ simple
      ∧ t_PriceData
          (saved (FetchDailyWal.process_main_stock two_bars "A"
                    (fresh_state abc)).2)
        = t_PriceData (tables (fresh_state abc)) ++ wal
      ∧ bar_of <$> daily = bar_of <$> simple
      ∧ bar_of <$> wal = bar_of <$> simple.
Proof.
  assert (∀ k, exec_fault two_bars k = None) as Hcalm by reflexivity.
  split; [exact Hcalm|]. split; [reflexivity|]. split; [reflexivity|].
  destruct (the_stock_variants_store_the_same_bars two_bars 3 1 "A"
              (fresh_state abc) Hcalm eq_refl eq_refl)
    as (daily & simple & wal & Hd & Hs & Hw & Hds & Hws & _).
  exists daily, simple, wal.
  split_and!; [exact Hd|exact Hs|exact Hw|exact Hds|exact Hws].
Defined.
